(** * The Android low memory killer of the HTC "ville" kernel

    A shallow embedding of [drivers/staging/android/lowmemorykiller.c]
    (build with ENHANCED_LMK_ROUTINE, LMK_COUNT_READ,
    CONFIG_ZRAM_FOR_ANDROID and, for the [adj] parameter,
    CONFIG_ANDROID_LOW_MEMORY_KILLER_AUTODETECT_OOM_ADJ_VALUES) and the
    properties of its threshold lookup,
    its bounded victim pool, its death-pending hysteresis, its scan lock
    and its background soft-reclaim worker.

    The target is a 32-bit ARM board: [int], [long], [unsigned long],
    [size_t] and [uint32_t] are all 32 bits wide.  A C integer is a [Z]
    and every conversion the C code performs is written out with
    [wrap32] (to an unsigned type) and [int32] (to a signed type).
    One call reads the clock and the page counters once.  The
    diagnostic output of [lowmem_print] has no effect on the state and
    is left out. *)

From Stdlib Require Import ZArith Lia.
From stdpp Require Import base numbers list sorting.

Local Open Scope Z_scope.

(** ** Machine integers *)

(** Conversion to a 32-bit unsigned type. *)
Definition wrap32 (z : Z) : Z := z mod 2 ^ 32.

(** Conversion to [int] (two's complement, the kernel is built with
    wrapping signed arithmetic). *)
Definition int32 (z : Z) : Z := (z + 2 ^ 31) mod 2 ^ 32 - 2 ^ 31.

Definition INT_MAX : Z := 2 ^ 31 - 1.

(** Modelled from the spec: [time_before_eq] and [time_before] are macros
    of linux/jiffies.h, which is not among the sources.  A tick count [a]
    is before or equal to [b] when the signed difference of the two
    unsigned long counters is not positive; on any window shorter than
    half the counter range this is the spec's "time t' <= t". *)
Definition time_before_eq (a b : Z) : bool := 0 <=? int32 (b - a).

Definition time_before (a b : Z) : bool := int32 (a - b) <? 0.

(** ** The driver's globals *)

(** [struct soft_reclaim]; an [atomic_t] is its integer value, a task
    pointer is the pid of the task, [None] for NULL. *)
Record struct_soft_reclaim := {
  nr_total_soft_reclaimed : Z;
  nr_total_soft_scanned : Z;
  nr_last_soft_reclaimed : Z;
  nr_last_soft_scanned : Z;
  nr_empty_reclaimed : Z;
  kcompcached_running : Z;
  need_to_reclaim : Z;
  lmk_running : Z;
  kcompcached_enable : Z;
  idle_report : Z;
  kcompcached : option Z;
  rtcc_daemon : option Z
}.

(** The file-scope variables.  The arrays have six cells each;
    [scan_mutex] is [true] while the mutex is held. *)
Record lmk := {
  s_reclaim : struct_soft_reclaim;
  prev_jiffy : Z;
  hidden_cgroup_counter : Z;
  minimum_freeswap_pages : Z;
  minimun_reclaim_pages : Z;
  minimum_interval_time : Z;
  lmk_count : Z;
  lowmem_adj : list Z;
  lowmem_adj_size : Z;
  lowmem_minfree : list Z;
  lowmem_minfree_size : Z;
  lowmem_fork_boost_minfree : list Z;
  lowmem_fork_boost_minfree_size : Z;
  minfree_tmp : list Z;
  lowmem_deathpending_timeout : Z;
  lowmem_fork_boost_timeout : Z;
  lowmem_fork_boost : Z;
  scan_mutex : bool
}.

(** [lowmem_sleep_ms] and [lowmem_only_kswapd_sleep] are static, are
    initialised to 1 and are never written. *)
Definition lowmem_sleep_ms : Z := 1.
Definition lowmem_only_kswapd_sleep : Z := 1.

Definition LOWMEM_DEATHPENDING_DEPTH : nat := 3.

(** ARRAY_SIZE(lowmem_adj) *)
Definition ARRAY_SIZE_lowmem_adj : Z := 6.

Definition MIN_FREESWAP_PAGES : Z := 8192.
Definition MIN_RECLAIM_PAGES : Z := 512.

(** *** Field updates *)

Definition with_lmk_running (v : Z) (r : struct_soft_reclaim) : struct_soft_reclaim :=
  {| nr_total_soft_reclaimed := nr_total_soft_reclaimed r;
     nr_total_soft_scanned := nr_total_soft_scanned r;
     nr_last_soft_reclaimed := nr_last_soft_reclaimed r;
     nr_last_soft_scanned := nr_last_soft_scanned r;
     nr_empty_reclaimed := nr_empty_reclaimed r;
     kcompcached_running := kcompcached_running r;
     need_to_reclaim := need_to_reclaim r;
     lmk_running := v;
     kcompcached_enable := kcompcached_enable r;
     idle_report := idle_report r;
     kcompcached := kcompcached r;
     rtcc_daemon := rtcc_daemon r |}.

Definition with_need_to_reclaim (v : Z) (r : struct_soft_reclaim) : struct_soft_reclaim :=
  {| nr_total_soft_reclaimed := nr_total_soft_reclaimed r;
     nr_total_soft_scanned := nr_total_soft_scanned r;
     nr_last_soft_reclaimed := nr_last_soft_reclaimed r;
     nr_last_soft_scanned := nr_last_soft_scanned r;
     nr_empty_reclaimed := nr_empty_reclaimed r;
     kcompcached_running := kcompcached_running r;
     need_to_reclaim := v;
     lmk_running := lmk_running r;
     kcompcached_enable := kcompcached_enable r;
     idle_report := idle_report r;
     kcompcached := kcompcached r;
     rtcc_daemon := rtcc_daemon r |}.

Definition with_kcompcached_running (v : Z) (r : struct_soft_reclaim) : struct_soft_reclaim :=
  {| nr_total_soft_reclaimed := nr_total_soft_reclaimed r;
     nr_total_soft_scanned := nr_total_soft_scanned r;
     nr_last_soft_reclaimed := nr_last_soft_reclaimed r;
     nr_last_soft_scanned := nr_last_soft_scanned r;
     nr_empty_reclaimed := nr_empty_reclaimed r;
     kcompcached_running := v;
     need_to_reclaim := need_to_reclaim r;
     lmk_running := lmk_running r;
     kcompcached_enable := kcompcached_enable r;
     idle_report := idle_report r;
     kcompcached := kcompcached r;
     rtcc_daemon := rtcc_daemon r |}.

Definition with_idle_report (v : Z) (r : struct_soft_reclaim) : struct_soft_reclaim :=
  {| nr_total_soft_reclaimed := nr_total_soft_reclaimed r;
     nr_total_soft_scanned := nr_total_soft_scanned r;
     nr_last_soft_reclaimed := nr_last_soft_reclaimed r;
     nr_last_soft_scanned := nr_last_soft_scanned r;
     nr_empty_reclaimed := nr_empty_reclaimed r;
     kcompcached_running := kcompcached_running r;
     need_to_reclaim := need_to_reclaim r;
     lmk_running := lmk_running r;
     kcompcached_enable := kcompcached_enable r;
     idle_report := v;
     kcompcached := kcompcached r;
     rtcc_daemon := rtcc_daemon r |}.

(** The four counters [soft_reclaim] keeps per zone. *)
Definition with_soft_counters (tr ts lr ls : Z) (r : struct_soft_reclaim) : struct_soft_reclaim :=
  {| nr_total_soft_reclaimed := tr;
     nr_total_soft_scanned := ts;
     nr_last_soft_reclaimed := lr;
     nr_last_soft_scanned := ls;
     nr_empty_reclaimed := nr_empty_reclaimed r;
     kcompcached_running := kcompcached_running r;
     need_to_reclaim := need_to_reclaim r;
     lmk_running := lmk_running r;
     kcompcached_enable := kcompcached_enable r;
     idle_report := idle_report r;
     kcompcached := kcompcached r;
     rtcc_daemon := rtcc_daemon r |}.

Definition with_s_reclaim (r : struct_soft_reclaim) (g : lmk) : lmk :=
  {| s_reclaim := r;
     prev_jiffy := prev_jiffy g;
     hidden_cgroup_counter := hidden_cgroup_counter g;
     minimum_freeswap_pages := minimum_freeswap_pages g;
     minimun_reclaim_pages := minimun_reclaim_pages g;
     minimum_interval_time := minimum_interval_time g;
     lmk_count := lmk_count g;
     lowmem_adj := lowmem_adj g;
     lowmem_adj_size := lowmem_adj_size g;
     lowmem_minfree := lowmem_minfree g;
     lowmem_minfree_size := lowmem_minfree_size g;
     lowmem_fork_boost_minfree := lowmem_fork_boost_minfree g;
     lowmem_fork_boost_minfree_size := lowmem_fork_boost_minfree_size g;
     minfree_tmp := minfree_tmp g;
     lowmem_deathpending_timeout := lowmem_deathpending_timeout g;
     lowmem_fork_boost_timeout := lowmem_fork_boost_timeout g;
     lowmem_fork_boost := lowmem_fork_boost g;
     scan_mutex := scan_mutex g |}.

Definition with_prev_jiffy (v : Z) (g : lmk) : lmk :=
  {| s_reclaim := s_reclaim g;
     prev_jiffy := v;
     hidden_cgroup_counter := hidden_cgroup_counter g;
     minimum_freeswap_pages := minimum_freeswap_pages g;
     minimun_reclaim_pages := minimun_reclaim_pages g;
     minimum_interval_time := minimum_interval_time g;
     lmk_count := lmk_count g;
     lowmem_adj := lowmem_adj g;
     lowmem_adj_size := lowmem_adj_size g;
     lowmem_minfree := lowmem_minfree g;
     lowmem_minfree_size := lowmem_minfree_size g;
     lowmem_fork_boost_minfree := lowmem_fork_boost_minfree g;
     lowmem_fork_boost_minfree_size := lowmem_fork_boost_minfree_size g;
     minfree_tmp := minfree_tmp g;
     lowmem_deathpending_timeout := lowmem_deathpending_timeout g;
     lowmem_fork_boost_timeout := lowmem_fork_boost_timeout g;
     lowmem_fork_boost := lowmem_fork_boost g;
     scan_mutex := scan_mutex g |}.

Definition with_hidden_cgroup_counter (v : Z) (g : lmk) : lmk :=
  {| s_reclaim := s_reclaim g;
     prev_jiffy := prev_jiffy g;
     hidden_cgroup_counter := v;
     minimum_freeswap_pages := minimum_freeswap_pages g;
     minimun_reclaim_pages := minimun_reclaim_pages g;
     minimum_interval_time := minimum_interval_time g;
     lmk_count := lmk_count g;
     lowmem_adj := lowmem_adj g;
     lowmem_adj_size := lowmem_adj_size g;
     lowmem_minfree := lowmem_minfree g;
     lowmem_minfree_size := lowmem_minfree_size g;
     lowmem_fork_boost_minfree := lowmem_fork_boost_minfree g;
     lowmem_fork_boost_minfree_size := lowmem_fork_boost_minfree_size g;
     minfree_tmp := minfree_tmp g;
     lowmem_deathpending_timeout := lowmem_deathpending_timeout g;
     lowmem_fork_boost_timeout := lowmem_fork_boost_timeout g;
     lowmem_fork_boost := lowmem_fork_boost g;
     scan_mutex := scan_mutex g |}.

Definition with_lmk_count (v : Z) (g : lmk) : lmk :=
  {| s_reclaim := s_reclaim g;
     prev_jiffy := prev_jiffy g;
     hidden_cgroup_counter := hidden_cgroup_counter g;
     minimum_freeswap_pages := minimum_freeswap_pages g;
     minimun_reclaim_pages := minimun_reclaim_pages g;
     minimum_interval_time := minimum_interval_time g;
     lmk_count := v;
     lowmem_adj := lowmem_adj g;
     lowmem_adj_size := lowmem_adj_size g;
     lowmem_minfree := lowmem_minfree g;
     lowmem_minfree_size := lowmem_minfree_size g;
     lowmem_fork_boost_minfree := lowmem_fork_boost_minfree g;
     lowmem_fork_boost_minfree_size := lowmem_fork_boost_minfree_size g;
     minfree_tmp := minfree_tmp g;
     lowmem_deathpending_timeout := lowmem_deathpending_timeout g;
     lowmem_fork_boost_timeout := lowmem_fork_boost_timeout g;
     lowmem_fork_boost := lowmem_fork_boost g;
     scan_mutex := scan_mutex g |}.

Definition with_lowmem_adj (a : list Z) (n : Z) (g : lmk) : lmk :=
  {| s_reclaim := s_reclaim g;
     prev_jiffy := prev_jiffy g;
     hidden_cgroup_counter := hidden_cgroup_counter g;
     minimum_freeswap_pages := minimum_freeswap_pages g;
     minimun_reclaim_pages := minimun_reclaim_pages g;
     minimum_interval_time := minimum_interval_time g;
     lmk_count := lmk_count g;
     lowmem_adj := a;
     lowmem_adj_size := n;
     lowmem_minfree := lowmem_minfree g;
     lowmem_minfree_size := lowmem_minfree_size g;
     lowmem_fork_boost_minfree := lowmem_fork_boost_minfree g;
     lowmem_fork_boost_minfree_size := lowmem_fork_boost_minfree_size g;
     minfree_tmp := minfree_tmp g;
     lowmem_deathpending_timeout := lowmem_deathpending_timeout g;
     lowmem_fork_boost_timeout := lowmem_fork_boost_timeout g;
     lowmem_fork_boost := lowmem_fork_boost g;
     scan_mutex := scan_mutex g |}.

Definition with_lowmem_minfree (a : list Z) (n : Z) (g : lmk) : lmk :=
  {| s_reclaim := s_reclaim g;
     prev_jiffy := prev_jiffy g;
     hidden_cgroup_counter := hidden_cgroup_counter g;
     minimum_freeswap_pages := minimum_freeswap_pages g;
     minimun_reclaim_pages := minimun_reclaim_pages g;
     minimum_interval_time := minimum_interval_time g;
     lmk_count := lmk_count g;
     lowmem_adj := lowmem_adj g;
     lowmem_adj_size := lowmem_adj_size g;
     lowmem_minfree := a;
     lowmem_minfree_size := n;
     lowmem_fork_boost_minfree := lowmem_fork_boost_minfree g;
     lowmem_fork_boost_minfree_size := lowmem_fork_boost_minfree_size g;
     minfree_tmp := minfree_tmp g;
     lowmem_deathpending_timeout := lowmem_deathpending_timeout g;
     lowmem_fork_boost_timeout := lowmem_fork_boost_timeout g;
     lowmem_fork_boost := lowmem_fork_boost g;
     scan_mutex := scan_mutex g |}.

Definition with_lowmem_fork_boost_minfree (a : list Z) (n : Z) (g : lmk) : lmk :=
  {| s_reclaim := s_reclaim g;
     prev_jiffy := prev_jiffy g;
     hidden_cgroup_counter := hidden_cgroup_counter g;
     minimum_freeswap_pages := minimum_freeswap_pages g;
     minimun_reclaim_pages := minimun_reclaim_pages g;
     minimum_interval_time := minimum_interval_time g;
     lmk_count := lmk_count g;
     lowmem_adj := lowmem_adj g;
     lowmem_adj_size := lowmem_adj_size g;
     lowmem_minfree := lowmem_minfree g;
     lowmem_minfree_size := lowmem_minfree_size g;
     lowmem_fork_boost_minfree := a;
     lowmem_fork_boost_minfree_size := n;
     minfree_tmp := minfree_tmp g;
     lowmem_deathpending_timeout := lowmem_deathpending_timeout g;
     lowmem_fork_boost_timeout := lowmem_fork_boost_timeout g;
     lowmem_fork_boost := lowmem_fork_boost g;
     scan_mutex := scan_mutex g |}.

Definition with_minfree_tmp (a : list Z) (g : lmk) : lmk :=
  {| s_reclaim := s_reclaim g;
     prev_jiffy := prev_jiffy g;
     hidden_cgroup_counter := hidden_cgroup_counter g;
     minimum_freeswap_pages := minimum_freeswap_pages g;
     minimun_reclaim_pages := minimun_reclaim_pages g;
     minimum_interval_time := minimum_interval_time g;
     lmk_count := lmk_count g;
     lowmem_adj := lowmem_adj g;
     lowmem_adj_size := lowmem_adj_size g;
     lowmem_minfree := lowmem_minfree g;
     lowmem_minfree_size := lowmem_minfree_size g;
     lowmem_fork_boost_minfree := lowmem_fork_boost_minfree g;
     lowmem_fork_boost_minfree_size := lowmem_fork_boost_minfree_size g;
     minfree_tmp := a;
     lowmem_deathpending_timeout := lowmem_deathpending_timeout g;
     lowmem_fork_boost_timeout := lowmem_fork_boost_timeout g;
     lowmem_fork_boost := lowmem_fork_boost g;
     scan_mutex := scan_mutex g |}.

Definition with_lowmem_deathpending_timeout (v : Z) (g : lmk) : lmk :=
  {| s_reclaim := s_reclaim g;
     prev_jiffy := prev_jiffy g;
     hidden_cgroup_counter := hidden_cgroup_counter g;
     minimum_freeswap_pages := minimum_freeswap_pages g;
     minimun_reclaim_pages := minimun_reclaim_pages g;
     minimum_interval_time := minimum_interval_time g;
     lmk_count := lmk_count g;
     lowmem_adj := lowmem_adj g;
     lowmem_adj_size := lowmem_adj_size g;
     lowmem_minfree := lowmem_minfree g;
     lowmem_minfree_size := lowmem_minfree_size g;
     lowmem_fork_boost_minfree := lowmem_fork_boost_minfree g;
     lowmem_fork_boost_minfree_size := lowmem_fork_boost_minfree_size g;
     minfree_tmp := minfree_tmp g;
     lowmem_deathpending_timeout := v;
     lowmem_fork_boost_timeout := lowmem_fork_boost_timeout g;
     lowmem_fork_boost := lowmem_fork_boost g;
     scan_mutex := scan_mutex g |}.

Definition with_lowmem_fork_boost_timeout (v : Z) (g : lmk) : lmk :=
  {| s_reclaim := s_reclaim g;
     prev_jiffy := prev_jiffy g;
     hidden_cgroup_counter := hidden_cgroup_counter g;
     minimum_freeswap_pages := minimum_freeswap_pages g;
     minimun_reclaim_pages := minimun_reclaim_pages g;
     minimum_interval_time := minimum_interval_time g;
     lmk_count := lmk_count g;
     lowmem_adj := lowmem_adj g;
     lowmem_adj_size := lowmem_adj_size g;
     lowmem_minfree := lowmem_minfree g;
     lowmem_minfree_size := lowmem_minfree_size g;
     lowmem_fork_boost_minfree := lowmem_fork_boost_minfree g;
     lowmem_fork_boost_minfree_size := lowmem_fork_boost_minfree_size g;
     minfree_tmp := minfree_tmp g;
     lowmem_deathpending_timeout := lowmem_deathpending_timeout g;
     lowmem_fork_boost_timeout := v;
     lowmem_fork_boost := lowmem_fork_boost g;
     scan_mutex := scan_mutex g |}.

Definition with_scan_mutex (v : bool) (g : lmk) : lmk :=
  {| s_reclaim := s_reclaim g;
     prev_jiffy := prev_jiffy g;
     hidden_cgroup_counter := hidden_cgroup_counter g;
     minimum_freeswap_pages := minimum_freeswap_pages g;
     minimun_reclaim_pages := minimun_reclaim_pages g;
     minimum_interval_time := minimum_interval_time g;
     lmk_count := lmk_count g;
     lowmem_adj := lowmem_adj g;
     lowmem_adj_size := lowmem_adj_size g;
     lowmem_minfree := lowmem_minfree g;
     lowmem_minfree_size := lowmem_minfree_size g;
     lowmem_fork_boost_minfree := lowmem_fork_boost_minfree g;
     lowmem_fork_boost_minfree_size := lowmem_fork_boost_minfree_size g;
     minfree_tmp := minfree_tmp g;
     lowmem_deathpending_timeout := lowmem_deathpending_timeout g;
     lowmem_fork_boost_timeout := lowmem_fork_boost_timeout g;
     lowmem_fork_boost := lowmem_fork_boost g;
     scan_mutex := v |}.

(** The initialisers of the file, with the zero-filled tail of every
    array written out. *)
Definition s_reclaim_init : struct_soft_reclaim :=
  {| nr_total_soft_reclaimed := 0;
     nr_total_soft_scanned := 0;
     nr_last_soft_reclaimed := 0;
     nr_last_soft_scanned := 0;
     nr_empty_reclaimed := 0;
     kcompcached_running := 0;
     need_to_reclaim := 0;
     lmk_running := 0;
     kcompcached_enable := 0;
     idle_report := 0;
     kcompcached := None;
     rtcc_daemon := None |}.

(** ** What the driver reads from the kernel *)

(** A memory zone, as far as [lowmem_shrink] looks at it:
    [watermark[WMARK_MIN]] and [lowmem_reserve[_ZONE]]. *)
Record zone := {
  is_normal : bool;
  watermark_WMARK_MIN : Z;
  lowmem_reserve_ZONE : Z
}.

(** A process of [for_each_process].  [TIF_MEMDIE] is the flag of the
    process itself and [thread_group_MEMDIE] the flags of the other
    threads [while_each_thread] visits.  [find_lock_task_mm] is the pid of
    the thread that owns the address space, if any; [oom_score_adj] is
    [p->signal->oom_score_adj] and [get_mm_rss] the resident page count
    of that address space. *)
Record task_struct := {
  pid : Z;
  PF_KTHREAD : bool;
  TIF_MEMDIE : bool;
  thread_group_MEMDIE : list bool;
  find_lock_task_mm : option Z;
  oom_score_adj : Z;
  get_mm_rss : Z
}.

(** A zone of a node as [soft_reclaim] sees it, with what
    [mem_cgroup_soft_limit_reclaim] reports for it. *)
Record reclaim_zone := {
  populated_zone : bool;
  all_unreclaimable : bool;
  nr_soft_reclaimed : Z;
  nr_soft_scanned : Z
}.

(** One reading of the kernel: the clock, the caller, the page counters
    of [global_page_state], the zones and the process table, and what
    [could_cswap] and [soft_reclaim] consult. *)
Record host := {
  jiffies : Z;
  current_is_kswapd : bool;
  zones : list zone;
  NR_FREE_PAGES : Z;
  NR_FILE_PAGES : Z;
  NR_SHMEM : Z;
  NR_MLOCK : Z;
  total_swapcache_pages : Z;
  NR_ACTIVE_ANON : Z;
  NR_ACTIVE_FILE : Z;
  NR_INACTIVE_ANON : Z;
  NR_INACTIVE_FILE : Z;
  tasks : list task_struct;
  kswapd_thread_on : Z;
  nr_swap_pages : Z;
  kcompcached_cpu_idle : bool;
  this_cpu_loadx_4 : Z;
  node_zones : list (reclaim_zone * reclaim_zone)
}.

(** ** What the driver does to the kernel *)

Inductive signal := SIGKILL | SIGUSR1.

Inductive event :=
  | msleep_interruptible (ms : Z)
  | send_sig (sig : signal) (p : Z)
  | set_tsk_thread_flag_MEMDIE (p : Z)
  | wake_up_process (p : Z)
  | atomic_set_lmk_running (v : Z).

(** The result of a call: the returned value, the globals afterwards and
    the calls made into the kernel, in order. *)
Record outcome := {
  ret : Z;
  globals : lmk;
  trace : list event
}.

Definition is_kill (e : event) : bool :=
  match e with
  | send_sig _ _ | set_tsk_thread_flag_MEMDIE _ => true
  | _ => false
  end.

(** The values written to [s_reclaim.lmk_running], in order. *)
Fixpoint flag_writes (tr : list event) : list Z :=
  match tr with
  | [] => []
  | atomic_set_lmk_running v :: tr' => v :: flag_writes tr'
  | _ :: tr' => flag_writes tr'
  end.

(** ** Reading the arrays *)

(** [a[i]] for an [int] or [size_t] array.  With sizes of at most six
    the driver never reads outside its six-cell arrays, nor outside the
    three cells of the pool; a read out of range has no meaning here. *)
Definition cell (a : list Z) (i : nat) : Z := a !!! i.

(** [test_task_flag(p, TIF_MEMDIE)]: the do-while loop tests the task
    itself and then every other thread of its group. *)
Definition test_task_flag (p : task_struct) : bool :=
  TIF_MEMDIE p || existsb id (thread_group_MEMDIE p).

(** ** The threshold lookup (lowmem_shrink, lines 252-290) *)

(** [for_each_zone]: the first normal zone decides [reserved_free]. *)
Fixpoint reserved_free_of (zs : list zone) : Z :=
  match zs with
  | [] => 0
  | z :: zs' =>
      if is_normal z
      then int32 (wrap32 (watermark_WMARK_MIN z + lowmem_reserve_ZONE z))
      else reserved_free_of zs'
  end.

Definition other_free_of (h : host) : Z := int32 (NR_FREE_PAGES h).

(** The subtractions are done on [unsigned long] and stored in an [int]. *)
Definition other_file_of (h : host) : Z :=
  int32 (int32 (wrap32 (NR_FILE_PAGES h - NR_SHMEM h - NR_MLOCK h))
         - total_swapcache_pages h).

Definition fork_boosted (g : lmk) (h : host) : bool :=
  negb (lowmem_fork_boost g =? 0)
  && time_before_eq (jiffies h) (lowmem_fork_boost_timeout g).

(** The loop that fills [minfree_tmp]; the sum is a [size_t]. *)
Definition boost_minfree (g : lmk) : list Z :=
  foldl (fun tmp i =>
           <[i := wrap32 (cell (lowmem_minfree g) i
                          + cell (lowmem_fork_boost_minfree g) i)]> tmp)
        (minfree_tmp g)
        (seq 0 (Z.to_nat (lowmem_minfree_size g))).

(** [min_array] is a [size_t *]: the [int] cells of [lowmem_minfree] are
    read as unsigned. *)
Definition min_array_of (g : lmk) (boosted : bool) : list Z :=
  if boosted then boost_minfree g else wrap32 <$> lowmem_minfree g.

Definition array_size_of (g : lmk) : Z :=
  let array_size := ARRAY_SIZE_lowmem_adj in
  let array_size :=
    if lowmem_adj_size g <? array_size then lowmem_adj_size g else array_size in
  if lowmem_minfree_size g <? array_size then lowmem_minfree_size g else array_size.

(** The test of one entry.  Both operands of each [<] are converted to
    [size_t], the type of [min_array[i]]. *)
Definition tier_crossed (other_free reserved_free other_file thr : Z) : bool :=
  (wrap32 (int32 (other_free - reserved_free)) <? thr)
  && (wrap32 other_file <? thr).

(** The [for] loop with its [break]: the first index that crosses. *)
Fixpoint scan_thresholds (crossed : nat -> bool) (idxs : list nat) : option nat :=
  match idxs with
  | [] => None
  | i :: idxs' => if crossed i then Some i else scan_thresholds crossed idxs'
  end.

Definition lowmem_tier (g : lmk) (h : host) : option nat :=
  let min_array := min_array_of g (fork_boosted g h) in
  scan_thresholds
    (fun i => tier_crossed (other_free_of h) (reserved_free_of (zones h))
                (other_file_of h) (cell min_array i))
    (seq 0 (Z.to_nat (array_size_of g))).

(** The test of entry [i] as [lowmem_shrink] evaluates it. *)
Definition entry_crossed (g : lmk) (h : host) (i : nat) : bool :=
  tier_crossed (other_free_of h) (reserved_free_of (zones h)) (other_file_of h)
    (cell (min_array_of g (fork_boosted g h)) i).

(** ** The victim pool (lowmem_shrink, lines 363-399) *)

(** The three parallel arrays, the fill count and the index of the
    weakest slot.  A selected task is recorded by its pid. *)
Record pool := {
  selected : list (option Z);
  selected_tasksize : list Z;
  selected_oom_score_adj : list Z;
  all_selected_oom : Z;
  max_selected_oom_idx : nat
}.

(** The arrays after the loop of lines 311-312. *)
Definition pool_init (min_score_adj : Z) : pool :=
  {| selected := replicate LOWMEM_DEATHPENDING_DEPTH None;
     selected_tasksize := replicate LOWMEM_DEATHPENDING_DEPTH 0;
     selected_oom_score_adj := replicate LOWMEM_DEATHPENDING_DEPTH min_score_adj;
     all_selected_oom := 0;
     max_selected_oom_idx := 0 |}.

(** Lines 365-371: the first slot that is still NULL. *)
Fixpoint first_free (sel : list (option Z)) (idxs : list nat) : option nat :=
  match idxs with
  | [] => None
  | i :: idxs' =>
      match sel !!! i with
      | None => Some i
      | Some _ => first_free sel idxs'
      end
  end.

(** One round of the loop of lines 387-393. *)
Definition weakest_step (adjs sizes : list Z) (idx i : nat) : nat :=
  if cell adjs i <? cell adjs idx then i
  else if (cell adjs i =? cell adjs idx) && (cell sizes i <? cell sizes idx)
       then i
       else idx.

Definition weakest_slot (adjs sizes : list Z) (idx : nat) : nat :=
  foldl (weakest_step adjs sizes) idx (seq 0 LOWMEM_DEATHPENDING_DEPTH).

(** Lines 364-376: does the task enter the pool, and at which index. *)
Definition pool_admit (pl : pool) (adj tasksize : Z) : bool * nat :=
  let idx := max_selected_oom_idx pl in
  if all_selected_oom pl <? Z.of_nat LOWMEM_DEATHPENDING_DEPTH then
    match first_free (selected pl) (seq 0 LOWMEM_DEATHPENDING_DEPTH) with
    | Some i => (true, i)
    | None => (false, idx)
    end
  else if (cell (selected_oom_score_adj pl) idx <? adj)
          || ((cell (selected_oom_score_adj pl) idx =? adj)
              && (cell (selected_tasksize pl) idx <? tasksize))
       then (true, idx)
       else (false, idx).

(** Lines 364-399 for one eligible task [p]. *)
Definition pool_step (pl : pool) (c : Z * Z * Z) : pool :=
  let '(p, adj, tasksize) := c in
  let '(is_exist_oom_task, idx) := pool_admit pl adj tasksize in
  if is_exist_oom_task then
    let sel := <[idx := Some p]> (selected pl) in
    let sizes := <[idx := tasksize]> (selected_tasksize pl) in
    let adjs := <[idx := adj]> (selected_oom_score_adj pl) in
    let all :=
      if all_selected_oom pl <? Z.of_nat LOWMEM_DEATHPENDING_DEPTH
      then all_selected_oom pl + 1 else all_selected_oom pl in
    let idx' :=
      if all =? Z.of_nat LOWMEM_DEATHPENDING_DEPTH
      then weakest_slot adjs sizes idx else idx in
    {| selected := sel;
       selected_tasksize := sizes;
       selected_oom_score_adj := adjs;
       all_selected_oom := all;
       max_selected_oom_idx := idx' |}
  else
    {| selected := selected pl;
       selected_tasksize := selected_tasksize pl;
       selected_oom_score_adj := selected_oom_score_adj pl;
       all_selected_oom := all_selected_oom pl;
       max_selected_oom_idx := idx |}.

(** The pool after a sequence of eligible tasks (pid, oom_score_adj,
    tasksize), in the order [for_each_process] presents them. *)
Definition pool_run (min_score_adj : Z) (cands : list (Z * Z * Z)) : pool :=
  foldl pool_step (pool_init min_score_adj) cands.

(** What a slot holds: nothing while [selected[i]] is NULL. *)
Definition slot_entry (s : option Z * (Z * Z)) : option (Z * Z * Z) :=
  match s with
  | (Some p, (adj, size)) => Some (p, adj, size)
  | (None, _) => None
  end.

Definition entries_of (sel : list (option Z)) (adjs sizes : list Z)
    : list (Z * Z * Z) :=
  omap slot_entry (zip sel (zip adjs sizes)).

(** The occupied slots, in slot order, as (pid, oom_score_adj, tasksize):
    what the kill loop of lines 418-433 walks over. *)
Definition pool_entries (pl : pool) : list (Z * Z * Z) :=
  entries_of (selected pl) (selected_oom_score_adj pl) (selected_tasksize pl).

Definition cand_key (c : Z * Z * Z) : Z * Z := (c.1.2, c.2).

Definition pool_keys (pl : pool) : list (Z * Z) := cand_key <$> pool_entries pl.

(** *** The ranking of candidates *)

(** [x] ranks at least as high as [y]: a higher [oom_score_adj], or the
    same and a resident size at least as large. *)
Definition outranks (x y : Z * Z) : Prop :=
  y.1 < x.1 \/ (y.1 = x.1 /\ y.2 <= x.2).

Global Instance outranks_dec : RelDecision outranks :=
  fun x y => decide (y.1 < x.1 \/ (y.1 = x.1 /\ y.2 <= x.2)).

(** The [k] highest-ranked of a list of (oom_score_adj, tasksize). *)
Definition top_ranked (k : nat) (keys : list (Z * Z)) : list (Z * Z) :=
  take k (merge_sort outranks keys).

Definition key_of (adjs sizes : list Z) (i : nat) : Z * Z :=
  (cell adjs i, cell sizes i).

Definition key_at (pl : pool) (i : nat) : Z * Z :=
  key_of (selected_oom_score_adj pl) (selected_tasksize pl) i.

(** The state the pool is in after the candidates [seen], [n] of the
    slots being filled and [rej] the candidates left out. *)
Definition pool_inv (pl : pool) (seen rej : list (Z * Z * Z)) (n : nat) : Prop :=
  length (selected pl) = LOWMEM_DEATHPENDING_DEPTH
  /\ length (selected_tasksize pl) = LOWMEM_DEATHPENDING_DEPTH
  /\ length (selected_oom_score_adj pl) = LOWMEM_DEATHPENDING_DEPTH
  /\ (n <= LOWMEM_DEATHPENDING_DEPTH)%nat
  /\ all_selected_oom pl = Z.of_nat n
  /\ (forall i, (i < n)%nat -> exists q, selected pl !! i = Some (Some q))
  /\ (forall i, (n <= i < LOWMEM_DEATHPENDING_DEPTH)%nat ->
                selected pl !! i = Some None)
  /\ length (pool_entries pl) = n
  /\ seen ≡ₚ pool_entries pl ++ rej
  /\ ((n < LOWMEM_DEATHPENDING_DEPTH)%nat -> rej = [])
  /\ (n = LOWMEM_DEATHPENDING_DEPTH ->
      (max_selected_oom_idx pl < LOWMEM_DEATHPENDING_DEPTH)%nat
      /\ (forall i, (i < LOWMEM_DEATHPENDING_DEPTH)%nat ->
                    outranks (key_at pl i) (key_at pl (max_selected_oom_idx pl)))
      /\ (forall r, r ∈ rej ->
                    outranks (key_at pl (max_selected_oom_idx pl)) (cand_key r))).

(** ** The process scan (lowmem_shrink, lines 322-415) *)

(** How the loop ends: by the return of line 345 or by running out of
    processes.  Either way [pl] is what the local arrays hold at that
    point. *)
Inductive scan :=
  | scan_abort (pl : pool)
  | scan_done (pl : pool).

(** [now] is the reading of [jiffies] and [timeout] the value of
    [lowmem_deathpending_timeout], which the loop does not write. *)
Fixpoint scan_tasks (min_score_adj now timeout : Z)
    (ts : list task_struct) (pl : pool) : scan :=
  match ts with
  | [] => scan_done pl
  | tsk :: ts' =>
      if PF_KTHREAD tsk then scan_tasks min_score_adj now timeout ts' pl
      else if time_before_eq now timeout && test_task_flag tsk then scan_abort pl
      else
        match find_lock_task_mm tsk with
        | None => scan_tasks min_score_adj now timeout ts' pl
        | Some p =>
            if oom_score_adj tsk <? min_score_adj
            then scan_tasks min_score_adj now timeout ts' pl
            else
              let tasksize := int32 (get_mm_rss tsk) in
              if tasksize <=? 0
              then scan_tasks min_score_adj now timeout ts' pl
              else scan_tasks min_score_adj now timeout ts'
                     (pool_step pl (p, oom_score_adj tsk, tasksize))
        end
  end.

(** The tasks that reach the pool, in scan order. *)
Definition eligible (min_score_adj : Z) (tsk : task_struct) : option (Z * Z * Z) :=
  if PF_KTHREAD tsk then None
  else
    match find_lock_task_mm tsk with
    | None => None
    | Some p =>
        if oom_score_adj tsk <? min_score_adj then None
        else if int32 (get_mm_rss tsk) <=? 0 then None
        else Some (p, oom_score_adj tsk, int32 (get_mm_rss tsk))
    end.

(** The sleep taken on contention and on the hysteresis abort. *)
Definition backoff_sleep (h : host) : list event :=
  if negb (negb (lowmem_only_kswapd_sleep =? 0) && negb (current_is_kswapd h))
  then [msleep_interruptible lowmem_sleep_ms]
  else [].

Definition mutex_unlock (g : lmk) : lmk := with_scan_mutex false g.

Definition set_lmk_running (v : Z) (g : lmk) : lmk :=
  with_s_reclaim (with_lmk_running v (s_reclaim g)) g.

Definition cancel_soft_reclaim (g : lmk) : lmk :=
  with_s_reclaim (with_need_to_reclaim 0 (s_reclaim g)) g.

Definition need_soft_reclaim (g : lmk) : lmk :=
  with_s_reclaim (with_need_to_reclaim 1 (s_reclaim g)) g.

Section Kernel.

(** The constants of the kernel headers the driver is compiled against:
    the tick rate and the largest [oom_score_adj]. *)
Variable HZ : Z.
Variable OOM_SCORE_ADJ_MAX : Z.

Definition MIN_CSWAP_INTERVAL : Z := 10 * HZ.

Definition lmk_init : lmk :=
  {| s_reclaim := s_reclaim_init;
     prev_jiffy := 0;
     hidden_cgroup_counter := 0;
     minimum_freeswap_pages := MIN_FREESWAP_PAGES;
     minimun_reclaim_pages := MIN_RECLAIM_PAGES;
     minimum_interval_time := wrap32 MIN_CSWAP_INTERVAL;
     lmk_count := 0;
     lowmem_adj := [0; 1; 6; 12; 0; 0];
     lowmem_adj_size := 4;
     lowmem_minfree := [3 * 512; 2 * 1024; 4 * 1024; 16 * 1024; 0; 0];
     lowmem_minfree_size := 4;
     lowmem_fork_boost_minfree := [0; 0; 0; 5120; 6177; 6177];
     lowmem_fork_boost_minfree_size := 6;
     minfree_tmp := [0; 0; 0; 0; 0; 0];
     lowmem_deathpending_timeout := 0;
     lowmem_fork_boost_timeout := 0;
     lowmem_fork_boost := 0;
     scan_mutex := false |}.

Definition task_fork_notify_func (g : lmk) (h : host) : lmk :=
  with_lowmem_fork_boost_timeout (wrap32 (jiffies h + Z.shiftl HZ 1)) g.

(** [min_score_adj] after the lookup loop. *)
Definition min_score_adj_of (g : lmk) (h : host) : Z :=
  match lowmem_tier g h with
  | Some i => cell (lowmem_adj g) i
  | None => OOM_SCORE_ADJ_MAX + 1
  end.

(** [fork_boost] after the lookup loop; the enhanced routine only
    computes it. *)
Definition fork_boost_of (g : lmk) (h : host) : Z :=
  match lowmem_tier g h with
  | Some i => int32 (cell (lowmem_fork_boost_minfree g) i)
  | None => 0
  end.

(** [rem] before the kills. *)
Definition rem_of (h : host) : Z :=
  int32 (wrap32 (NR_ACTIVE_ANON h + NR_ACTIVE_FILE h
                 + NR_INACTIVE_ANON h + NR_INACTIVE_FILE h)).

(** One round of the kill loop of lines 418-433. *)
Definition kill_step (now : Z) (pl : pool)
    (acc : Z * lmk * list event) (i : nat) : Z * lmk * list event :=
  let '(rem, g, tr) := acc in
  match selected pl !!! i with
  | Some p =>
      (int32 (rem - cell (selected_tasksize pl) i),
       with_lmk_count (wrap32 (lmk_count g + 1))
         (with_lowmem_deathpending_timeout (wrap32 (now + HZ)) g),
       tr ++ [send_sig SIGKILL p; set_tsk_thread_flag_MEMDIE p])
  | None => acc
  end.

Definition kill_selected (now : Z) (pl : pool)
    (acc : Z * lmk * list event) : Z * lmk * list event :=
  foldl (kill_step now pl) acc (seq 0 LOWMEM_DEATHPENDING_DEPTH).

(** ** lowmem_shrink *)

Definition lowmem_shrink (g : lmk) (h : host) (nr_to_scan : Z) : outcome :=
  if (0 <? nr_to_scan) && scan_mutex g then
    (* mutex_trylock failed *)
    {| ret := 0; globals := g; trace := backoff_sleep h |}
  else
    let g := if 0 <? nr_to_scan then with_scan_mutex true g else g in
    let min_score_adj := min_score_adj_of g h in
    let g := if fork_boosted g h then with_minfree_tmp (boost_minfree g) g else g in
    let rem := rem_of h in
    if (nr_to_scan <=? 0) || (min_score_adj =? OOM_SCORE_ADJ_MAX + 1) then
      {| ret := rem;
         globals := if 0 <? nr_to_scan then mutex_unlock g else g;
         trace := [] |}
    else
      let g := set_lmk_running 1 g in
      match scan_tasks min_score_adj (jiffies h) (lowmem_deathpending_timeout g)
              (tasks h) (pool_init min_score_adj) with
      | scan_abort _ =>
          {| ret := 0;
             globals := mutex_unlock (set_lmk_running 0 g);
             trace := [atomic_set_lmk_running 1; atomic_set_lmk_running 0]
                      ++ backoff_sleep h |}
      | scan_done pl =>
          let '(rem, g, tr) :=
            kill_selected (jiffies h) pl (rem, g, [atomic_set_lmk_running 1]) in
          {| ret := rem;
             globals := mutex_unlock (set_lmk_running 0 g);
             trace := tr ++ [atomic_set_lmk_running 0] |}
      end.

(** ** The background trigger and the soft-reclaim worker *)

Definition could_cswap (g : lmk) (h : host) : lmk * list event :=
  let r := s_reclaim g in
  if (hidden_cgroup_counter g <=? 0) && negb (need_to_reclaim r =? 1) then (g, [])
  else if time_before (jiffies h) (wrap32 (prev_jiffy g + minimum_interval_time g))
  then (g, [])
  else if (lmk_running r =? 1) || (kswapd_thread_on h =? 1) then (g, [])
  else if wrap32 (nr_swap_pages h) <? minimum_freeswap_pages g then (g, [])
  else
    match kcompcached r with
    | None => (g, [])
    | Some worker =>
        if kcompcached_enable r =? 0 then (g, [])
        else if kcompcached_cpu_idle h && (this_cpu_loadx_4 h =? 0) then
          match (if (idle_report r =? 1) && (0 <? hidden_cgroup_counter g)
                 then rtcc_daemon r else None) with
          | Some daemon =>
              (with_prev_jiffy (jiffies h)
                 (with_s_reclaim (with_idle_report 0 r)
                    (with_hidden_cgroup_counter
                       (int32 (hidden_cgroup_counter g - 1)) g)),
               [send_sig SIGUSR1 daemon])
          | None =>
              if negb (need_to_reclaim r =? 1) then
                (with_s_reclaim (with_idle_report 1 r) g, [])
              else if kcompcached_running r =? 0 then
                (with_prev_jiffy (jiffies h)
                   (with_s_reclaim
                      (with_idle_report 1 (with_kcompcached_running 1 r)) g),
                 [wake_up_process worker])
              else (g, [])
          end
        else (g, [])
    end.

(** The body of the zone loop of [soft_reclaim]. *)
Definition soft_reclaim_zone (acc : struct_soft_reclaim * Z) (z : reclaim_zone)
    : struct_soft_reclaim * Z :=
  let '(r, nr_reclaimed) := acc in
  if negb (populated_zone z) then acc
  else if all_unreclaimable z then acc
  else
    (with_soft_counters
       (wrap32 (nr_total_soft_reclaimed r + nr_soft_reclaimed z))
       (wrap32 (nr_total_soft_scanned r + nr_soft_scanned z))
       (nr_soft_reclaimed z)
       (nr_soft_scanned z) r,
     wrap32 (nr_reclaimed + nr_soft_reclaimed z)).

(** [soft_reclaim]: zones 0 and 1 of every node; the [unsigned long]
    total is returned as an [int]. *)
Definition soft_reclaim (g : lmk) (h : host) : lmk * Z :=
  let '(r, nr_reclaimed) :=
    foldl (fun acc nd => soft_reclaim_zone (soft_reclaim_zone acc nd.1) nd.2)
          (s_reclaim g, 0) (node_zones h) in
  (with_s_reclaim r g, int32 nr_reclaimed).

(** One round of the loop of [do_compcache], from the call of
    [soft_reclaim] to [schedule].  The [int] result is compared with a
    [uint32_t], that is, as unsigned. *)
Definition do_compcache_pass (g : lmk) (h : host) : lmk :=
  let '(g, reclaimed) := soft_reclaim g h in
  let g :=
    if wrap32 reclaimed <? minimun_reclaim_pages g
    then cancel_soft_reclaim g else g in
  with_s_reclaim (with_kcompcached_running 0 (s_reclaim g)) g.

(** [do_compcache]: every wake-up brings the answer of
    [kthread_should_stop] and a reading of the kernel. *)
Fixpoint do_compcache (g : lmk) (wakes : list (bool * host)) : lmk :=
  match wakes with
  | [] => g
  | (should_stop, h) :: wakes' =>
      if should_stop then g else do_compcache (do_compcache_pass g h) wakes'
  end.

(** Completed calls of [lowmem_shrink], one after the other. *)
Definition run_scans (g : lmk) (calls : list (host * Z)) : lmk :=
  foldl (fun g c => globals (lowmem_shrink g c.1 c.2)) g calls.

(** The pages one pass of the worker reclaims: the reports of the zones
    [soft_reclaim] visits, added up as numbers. *)
Definition zone_reclaimed (z : reclaim_zone) : Z :=
  if negb (populated_zone z) then 0
  else if all_unreclaimable z then 0
  else nr_soft_reclaimed z.

Definition pages_reclaimed (h : host) : Z :=
  foldr (fun nd acc => zone_reclaimed nd.1 + zone_reclaimed nd.2 + acc)
        0 (node_zones h).

(** The calls that kill a list of victims (pid, oom_score_adj,
    tasksize): a SIGKILL and the TIF_MEMDIE flag for each. *)
Fixpoint kill_events (victims : list (Z * Z * Z)) : list event :=
  match victims with
  | [] => []
  | (p, _, _) :: victims' =>
      send_sig SIGKILL p :: set_tsk_thread_flag_MEMDIE p :: kill_events victims'
  end.

(** ** The rest of the driver *)

Definition with_kcompcached_enable (v : Z) (r : struct_soft_reclaim)
    : struct_soft_reclaim :=
  {| nr_total_soft_reclaimed := nr_total_soft_reclaimed r;
     nr_total_soft_scanned := nr_total_soft_scanned r;
     nr_last_soft_reclaimed := nr_last_soft_reclaimed r;
     nr_last_soft_scanned := nr_last_soft_scanned r;
     nr_empty_reclaimed := nr_empty_reclaimed r;
     kcompcached_running := kcompcached_running r;
     need_to_reclaim := need_to_reclaim r;
     lmk_running := lmk_running r;
     kcompcached_enable := v;
     idle_report := idle_report r;
     kcompcached := kcompcached r;
     rtcc_daemon := rtcc_daemon r |}.

Definition with_kcompcached (t : option Z) (r : struct_soft_reclaim)
    : struct_soft_reclaim :=
  {| nr_total_soft_reclaimed := nr_total_soft_reclaimed r;
     nr_total_soft_scanned := nr_total_soft_scanned r;
     nr_last_soft_reclaimed := nr_last_soft_reclaimed r;
     nr_last_soft_scanned := nr_last_soft_scanned r;
     nr_empty_reclaimed := nr_empty_reclaimed r;
     kcompcached_running := kcompcached_running r;
     need_to_reclaim := need_to_reclaim r;
     lmk_running := lmk_running r;
     kcompcached_enable := kcompcached_enable r;
     idle_report := idle_report r;
     kcompcached := t;
     rtcc_daemon := rtcc_daemon r |}.

Definition with_rtcc_daemon (d : option Z) (r : struct_soft_reclaim)
    : struct_soft_reclaim :=
  {| nr_total_soft_reclaimed := nr_total_soft_reclaimed r;
     nr_total_soft_scanned := nr_total_soft_scanned r;
     nr_last_soft_reclaimed := nr_last_soft_reclaimed r;
     nr_last_soft_scanned := nr_last_soft_scanned r;
     nr_empty_reclaimed := nr_empty_reclaimed r;
     kcompcached_running := kcompcached_running r;
     need_to_reclaim := need_to_reclaim r;
     lmk_running := lmk_running r;
     kcompcached_enable := kcompcached_enable r;
     idle_report := idle_report r;
     kcompcached := kcompcached r;
     rtcc_daemon := d |}.

Definition with_lowmem_fork_boost (v : Z) (g : lmk) : lmk :=
  {| s_reclaim := s_reclaim g;
     prev_jiffy := prev_jiffy g;
     hidden_cgroup_counter := hidden_cgroup_counter g;
     minimum_freeswap_pages := minimum_freeswap_pages g;
     minimun_reclaim_pages := minimun_reclaim_pages g;
     minimum_interval_time := minimum_interval_time g;
     lmk_count := lmk_count g;
     lowmem_adj := lowmem_adj g;
     lowmem_adj_size := lowmem_adj_size g;
     lowmem_minfree := lowmem_minfree g;
     lowmem_minfree_size := lowmem_minfree_size g;
     lowmem_fork_boost_minfree := lowmem_fork_boost_minfree g;
     lowmem_fork_boost_minfree_size := lowmem_fork_boost_minfree_size g;
     minfree_tmp := minfree_tmp g;
     lowmem_deathpending_timeout := lowmem_deathpending_timeout g;
     lowmem_fork_boost_timeout := lowmem_fork_boost_timeout g;
     lowmem_fork_boost := v;
     scan_mutex := scan_mutex g |}.

Definition enable_soft_reclaim (g : lmk) : lmk :=
  with_s_reclaim (with_kcompcached_enable 1 (s_reclaim g)) g.

Definition disable_soft_reclaim (g : lmk) : lmk :=
  with_s_reclaim (with_kcompcached_enable 0 (s_reclaim g)) g.

Definition get_soft_reclaim_status (g : lmk) : Z :=
  kcompcached_running (s_reclaim g).

(** The constants of linux/oom.h that the conversion of the [adj]
    parameter uses. *)
Variable OOM_ADJUST_MAX : Z.
Variable OOM_DISABLE : Z.

(** [lowmem_oom_adj_to_oom_score_adj]; the division of two [int]s
    truncates towards zero. *)
Definition lowmem_oom_adj_to_oom_score_adj (oom_adj : Z) : Z :=
  if oom_adj =? OOM_ADJUST_MAX then OOM_SCORE_ADJ_MAX
  else int32 (Z.quot (int32 (oom_adj * OOM_SCORE_ADJ_MAX))
                     (int32 (- OOM_DISABLE))).

(** The loop of [lowmem_autodetect_oom_adj_values]: every cell below
    [array_size] is read, converted and written back. *)
Definition convert_cells (a : list Z) (n : nat) : list Z :=
  foldl (fun a i => <[i := lowmem_oom_adj_to_oom_score_adj (cell a i)]> a)
        a (seq 0 n).

Definition lowmem_autodetect_oom_adj_values (g : lmk) : lmk :=
  let array_size := ARRAY_SIZE_lowmem_adj in
  let array_size :=
    if lowmem_adj_size g <? array_size then lowmem_adj_size g else array_size in
  if array_size <=? 0 then g
  else
    let oom_adj := cell (lowmem_adj g) (Z.to_nat (array_size - 1)) in
    if OOM_ADJUST_MAX <? oom_adj then g
    else
      let oom_score_adj := lowmem_oom_adj_to_oom_score_adj oom_adj in
      if oom_score_adj <=? OOM_ADJUST_MAX then g
      else
        with_lowmem_adj
          (convert_cells (lowmem_adj g) (Z.to_nat array_size))
          (lowmem_adj_size g) g.


(** [lowmem_adj_array_set]: [param_array_ops.set], which is not among
    the sources, is the argument [param_array_set]; it answers with its
    return value and the globals it leaves. *)
Definition lowmem_adj_array_set (param_array_set : lmk -> Z * lmk) (g : lmk)
    : Z * lmk :=
  let '(ret, g) := param_array_set g in
  (ret, lowmem_autodetect_oom_adj_values g).

(** The search of [rtcc_daemon_store] through [for_each_process]; a
    process is its pid and whether [strstr] finds RTCC_DAEMON_PROC in
    its name. *)
Fixpoint find_rtccd (p : Z) (procs : list (Z * bool)) : bool :=
  match procs with
  | [] => false
  | (q, named) :: procs' =>
      if (p =? q) && named then true else find_rtccd p procs'
  end.

(** [rtcc_daemon_store] after its [sscanf]: [val] and [magic_sign] are
    the two [long]s as [sscanf] leaves them (-1 where it assigned
    nothing) and [count] is the length of the write. *)
Definition rtcc_daemon_store (g : lmk) (procs : list (Z * bool))
    (val magic_sign count : Z) : Z * lmk :=
  if (val <? 0) || negb (int32 (int32 (val * val) - 1) =? magic_sign)
  then (count, g)
  else if find_rtccd (int32 val) procs
       then (count,
             with_s_reclaim
               (with_idle_report 1
                  (with_rtcc_daemon (Some (int32 val)) (s_reclaim g))) g)
       else (count, g).

(** *** Vocabulary of the properties *)

(** The pids sent a SIGKILL, and the pids woken, in order. *)
Fixpoint killed (tr : list event) : list Z :=
  match tr with
  | [] => []
  | send_sig SIGKILL p :: tr' => p :: killed tr'
  | _ :: tr' => killed tr'
  end.

Fixpoint woken (tr : list event) : list Z :=
  match tr with
  | [] => []
  | wake_up_process p :: tr' => p :: woken tr'
  | _ :: tr' => woken tr'
  end.

(** The threshold of entry [i] as a number, and the entry's test on the
    readings as numbers. *)
Definition effective_threshold (g : lmk) (h : host) (i : nat) : Z :=
  cell (lowmem_minfree g) i
  + (if fork_boosted g h then cell (lowmem_fork_boost_minfree g) i else 0).

Definition in_deficit (g : lmk) (h : host) (i : nat) : Prop :=
  other_free_of h - reserved_free_of (zones h) < effective_threshold g h i
  /\ other_file_of h < effective_threshold g h i.

(** The pool a scan that is not stopped builds from the process table. *)
Definition victims_of (g : lmk) (h : host) : list (Z * Z * Z) :=
  pool_entries
    (pool_run (min_score_adj_of g h)
       (omap (eligible (min_score_adj_of g h)) (tasks h))).

Definition tasksize_sum (vs : list (Z * Z * Z)) : Z :=
  foldr (fun v acc => v.2 + acc) 0 vs.

(** What one round of the kill loop does for an occupied slot. *)
Definition kill_entry (now : Z) (acc : Z * lmk * list event) (e : Z * Z * Z)
    : Z * lmk * list event :=
  (int32 (acc.1.1 - e.2),
   with_lmk_count (wrap32 (lmk_count acc.1.2 + 1))
     (with_lowmem_deathpending_timeout (wrap32 (now + HZ)) acc.1.2),
   acc.2 ++ [send_sig SIGKILL e.1.1; set_tsk_thread_flag_MEMDIE e.1.1]).

(** The globals once the call holds the lock (when it asked for a scan)
    and has filled [minfree_tmp] (under a boost). *)
Definition entered (g : lmk) (h : host) (nr_to_scan : Z) : lmk :=
  let g := if 0 <? nr_to_scan then with_scan_mutex true g else g in
  if fork_boosted g h then with_minfree_tmp (boost_minfree g) g else g.

(** Calls of [could_cswap], one after the other. *)
Definition could_cswap_seq (g : lmk) (hs : list host) : lmk * list event :=
  foldl (fun acc h =>
           (( could_cswap acc.1 h).1, acc.2 ++ (could_cswap acc.1 h).2))
        (g, []) hs.

Definition zone_scanned (z : reclaim_zone) : Z :=
  if negb (populated_zone z) then 0
  else if all_unreclaimable z then 0
  else nr_soft_scanned z.

Definition pages_scanned (h : host) : Z :=
  foldr (fun nd acc => zone_scanned nd.1 + zone_scanned nd.2 + acc)
        0 (node_zones h).

(** The globals [g'] hold the tables of [g]; the scratch array
    [minfree_tmp] is the one of [g] or the one a boosted lookup on [g]
    leaves. *)
Definition same_tables (g g' : lmk) : Prop :=
  lowmem_adj g' = lowmem_adj g
  /\ lowmem_adj_size g' = lowmem_adj_size g
  /\ lowmem_minfree g' = lowmem_minfree g
  /\ lowmem_minfree_size g' = lowmem_minfree_size g
  /\ lowmem_fork_boost_minfree g' = lowmem_fork_boost_minfree g
  /\ lowmem_fork_boost_minfree_size g' = lowmem_fork_boost_minfree_size g
  /\ lowmem_fork_boost g' = lowmem_fork_boost g
  /\ lowmem_fork_boost_timeout g' = lowmem_fork_boost_timeout g
  /\ (minfree_tmp g' = minfree_tmp g \/ minfree_tmp g' = boost_minfree g).

Definition victim_pid (v : Z * Z * Z) : Z := v.1.1.

(** The pids sent a SIGUSR1, in order. *)
Fixpoint notified (tr : list event) : list Z :=
  match tr with
  | [] => []
  | send_sig SIGUSR1 p :: tr' => p :: notified tr'
  | _ :: tr' => notified tr'
  end.

(** ** Sample readings *)

Definition sample_task (p adj rss : Z) (memdie : bool) : task_struct :=
  {| pid := p;
     PF_KTHREAD := false;
     TIF_MEMDIE := memdie;
     thread_group_MEMDIE := [];
     find_lock_task_mm := Some p;
     oom_score_adj := adj;
     get_mm_rss := rss |}.

(** A kernel with one normal zone, 100 pages on the LRU lists and no
    shared, locked or swap-cache pages. *)
Definition sample_host (now free file reserved : Z) (kswapd : bool)
    (ts : list task_struct) : host :=
  {| jiffies := now;
     current_is_kswapd := kswapd;
     zones := [ {| is_normal := true;
                   watermark_WMARK_MIN := reserved;
                   lowmem_reserve_ZONE := 0 |} ];
     NR_FREE_PAGES := free;
     NR_FILE_PAGES := file;
     NR_SHMEM := 0;
     NR_MLOCK := 0;
     total_swapcache_pages := 0;
     NR_ACTIVE_ANON := 10;
     NR_ACTIVE_FILE := 20;
     NR_INACTIVE_ANON := 30;
     NR_INACTIVE_FILE := 40;
     tasks := ts;
     kswapd_thread_on := 0;
     nr_swap_pages := 0;
     kcompcached_cpu_idle := false;
     this_cpu_loadx_4 := 0;
     node_zones := [] |}.

(** The same kernel with two nodes whose zones report the given numbers
    of reclaimed pages. *)
Definition sample_reclaim_host (r1 r2 : Z) : host :=
  {| jiffies := 0;
     current_is_kswapd := false;
     zones := [];
     NR_FREE_PAGES := 0;
     NR_FILE_PAGES := 0;
     NR_SHMEM := 0;
     NR_MLOCK := 0;
     total_swapcache_pages := 0;
     NR_ACTIVE_ANON := 0;
     NR_ACTIVE_FILE := 0;
     NR_INACTIVE_ANON := 0;
     NR_INACTIVE_FILE := 0;
     tasks := [];
     kswapd_thread_on := 0;
     nr_swap_pages := 0;
     kcompcached_cpu_idle := false;
     this_cpu_loadx_4 := 0;
     node_zones :=
       [ ({| populated_zone := true; all_unreclaimable := false;
             nr_soft_reclaimed := r1; nr_soft_scanned := 2 * r1 |},
          {| populated_zone := false; all_unreclaimable := false;
             nr_soft_reclaimed := 7; nr_soft_scanned := 7 |});
         ({| populated_zone := true; all_unreclaimable := false;
             nr_soft_reclaimed := r2; nr_soft_scanned := 2 * r2 |},
          {| populated_zone := true; all_unreclaimable := true;
             nr_soft_reclaimed := 9; nr_soft_scanned := 9 |}) ] |}.

(** The readings of the scenarios: 1800 free and 500 file pages; both
    quantities exactly at the first threshold; fewer free pages than the
    reserve; plenty of memory; and memory short of the first threshold
    with one earlier victim and one other process. *)
Definition reading_1800_500 : host := sample_host 1000 1800 500 0 false [].

Definition reading_boundary : host := sample_host 1000 1536 1536 0 false [].

Definition reading_deficit : host :=
  sample_host 1000 100 50 200 false [sample_task 42 900 5000 false].

Definition reading_no_pressure : host :=
  sample_host 1000 100000 100000 0 true [sample_task 42 900 5000 false].

Definition reading_pressure : host :=
  sample_host 1050 1000 500 0 true
    [sample_task 7 900 4000 true; sample_task 8 900 6000 false].

Definition arrivals : list (Z * Z * Z) :=
  [(1, 5, 100); (2, 8, 50); (3, 8, 200); (4, 3, 900)].

Definition arrivals_swapped : list (Z * Z * Z) :=
  [(2, 8, 50); (1, 5, 100); (3, 8, 200); (4, 3, 900)].

(** The second scan of the hysteresis scenario: 50 ticks after
    [reading_pressure], with the first victim still flagged. *)
Definition reading_aftermath : host :=
  sample_host 1100 1000 500 0 true [sample_task 7 900 4000 true].

(** The same 50 ticks after a kill, the process still flagged coming
    second in the process list. *)
Definition reading_flagged_last : host :=
  sample_host 1050 1000 500 0 true
    [sample_task 8 900 6000 false; sample_task 7 900 4000 true].

(** The default thresholds with the boost switched on, 1000 pages of
    boost on the first entry, and a fork at the tick of
    [reading_1800_500]. *)
Definition state_boosted : lmk :=
  task_fork_notify_func
    (with_lowmem_fork_boost 1
       (with_lowmem_fork_boost_minfree [1000; 0; 0; 5120; 6177; 6177] 6
          lmk_init))
    reading_1800_500.

(** An idle cpu at tick [now], with [swap] free swap pages. *)
Definition reading_idle (now swap : Z) : host :=
  {| jiffies := now;
     current_is_kswapd := false;
     zones := [];
     NR_FREE_PAGES := 0;
     NR_FILE_PAGES := 0;
     NR_SHMEM := 0;
     NR_MLOCK := 0;
     total_swapcache_pages := 0;
     NR_ACTIVE_ANON := 0;
     NR_ACTIVE_FILE := 0;
     NR_INACTIVE_ANON := 0;
     NR_INACTIVE_FILE := 0;
     tasks := [];
     kswapd_thread_on := 0;
     nr_swap_pages := swap;
     kcompcached_cpu_idle := true;
     this_cpu_loadx_4 := 0;
     node_zones := [] |}.

(** The globals once the worker (pid 55) runs and is enabled, and a
    reclaim has been requested. *)
Definition state_requested : lmk :=
  need_soft_reclaim
    (enable_soft_reclaim
       (with_s_reclaim (with_kcompcached (Some 55) s_reclaim_init) lmk_init)).

(** The same with a daemon (pid 77) registered and two hidden cgroups. *)
Definition state_daemon : lmk :=
  with_hidden_cgroup_counter 2
    (rtcc_daemon_store state_requested [(77, true)] 77 (77 * 77 - 1) 2).2.

(** * Properties *)

(** ** Machine integers *)

Lemma wrap32_range z : 0 <= wrap32 z < 2 ^ 32.
Proof. unfold wrap32. apply Z.mod_pos_bound. lia. Qed.

Lemma wrap32_small z : 0 <= z < 2 ^ 32 -> wrap32 z = z.
Proof. intros Hz. unfold wrap32. apply Z.mod_small. exact Hz. Qed.

Lemma int32_small z : - 2 ^ 31 <= z < 2 ^ 31 -> int32 z = z.
Proof. intros Hz. unfold int32. rewrite Z.mod_small; lia. Qed.

Lemma int32_periodic z k : int32 (z + k * 2 ^ 32) = int32 z.
Proof.
  unfold int32.
  replace (z + k * 2 ^ 32 + 2 ^ 31) with (z + 2 ^ 31 + k * 2 ^ 32) by lia.
  rewrite Z_mod_plus_full. reflexivity.
Qed.

Lemma wrap32_periodic z k : wrap32 (z + k * 2 ^ 32) = wrap32 z.
Proof. unfold wrap32. apply Z_mod_plus_full. Qed.

Lemma wrap32_decompose z : wrap32 z = z + (- (z / 2 ^ 32)) * 2 ^ 32.
Proof. unfold wrap32. rewrite Z.mod_eq; lia. Qed.

Lemma int32_decompose z : int32 z = z + (- ((z + 2 ^ 31) / 2 ^ 32)) * 2 ^ 32.
Proof. unfold int32. rewrite Z.mod_eq; lia. Qed.

Lemma wrap32_int32 z : wrap32 (int32 z) = wrap32 z.
Proof. rewrite int32_decompose. apply wrap32_periodic. Qed.

Lemma int32_wrap32 z : int32 (wrap32 z) = int32 z.
Proof. rewrite wrap32_decompose. apply int32_periodic. Qed.

Lemma wrap32_add_l a b : wrap32 (wrap32 a + b) = wrap32 (a + b).
Proof.
  rewrite (wrap32_decompose a).
  replace (a + - (a / 2 ^ 32) * 2 ^ 32 + b)
    with (a + b + - (a / 2 ^ 32) * 2 ^ 32) by lia.
  apply wrap32_periodic.
Qed.

Lemma int32_sub_wrap32 a b : int32 (wrap32 a - wrap32 b) = int32 (a - b).
Proof.
  rewrite (wrap32_decompose a), (wrap32_decompose b).
  replace (a + - (a / 2 ^ 32) * 2 ^ 32 - (b + - (b / 2 ^ 32) * 2 ^ 32))
    with (a - b + (b / 2 ^ 32 - a / 2 ^ 32) * 2 ^ 32) by lia.
  apply int32_periodic.
Qed.

(** Inside a window shorter than half the counter range the wrapped
    comparison is the comparison of the elapsed ticks. *)
Lemma time_before_eq_window t d w :
  0 <= d <= w -> w < 2 ^ 31 ->
  time_before_eq (wrap32 (t + d)) (wrap32 (t + w)) = true.
Proof.
  intros Hd Hw. unfold time_before_eq.
  rewrite int32_sub_wrap32.
  replace (t + w - (t + d)) with (w - d) by lia.
  rewrite int32_small by lia.
  apply Z.leb_le. lia.
Qed.

(** ** The threshold lookup *)

Lemma scan_thresholds_Some crossed a n i :
  scan_thresholds crossed (seq a n) = Some i <->
  (a <= i < a + n)%nat /\ crossed i = true
  /\ (forall j, (a <= j < i)%nat -> crossed j = false).
Proof.
  revert a. induction n as [|n IH]; intros a; simpl.
  - split; [discriminate | lia].
  - destruct (crossed a) eqn:Ha.
    + split.
      * intros [= <-]. split; [lia|]. split; [exact Ha|]. intros j Hj. lia.
      * intros (Hi & Hc & Hlow).
        destruct (decide (i = a)) as [->|Hne]; [reflexivity|].
        rewrite (Hlow a) in Ha by lia. discriminate.
    + rewrite IH. split.
      * intros (Hi & Hc & Hlow). split; [lia|]. split; [exact Hc|].
        intros j Hj. destruct (decide (j = a)) as [->|Hne]; [exact Ha|].
        apply Hlow. lia.
      * intros (Hi & Hc & Hlow).
        assert (i <> a) by (intros ->; congruence).
        split; [lia|]. split; [exact Hc|]. intros j Hj. apply Hlow. lia.
Qed.

Lemma scan_thresholds_None crossed a n :
  scan_thresholds crossed (seq a n) = None <->
  (forall j, (a <= j < a + n)%nat -> crossed j = false).
Proof.
  revert a. induction n as [|n IH]; intros a; simpl.
  - split; [intros _ j Hj; lia | reflexivity].
  - destruct (crossed a) eqn:Ha.
    + split; [discriminate|]. intros Hall. rewrite Hall in Ha by lia. discriminate.
    + rewrite IH. split.
      * intros Hall j Hj. destruct (decide (j = a)) as [->|Hne]; [exact Ha|].
        apply Hall. lia.
      * intros Hall j Hj. apply Hall. lia.
Qed.

(** The lookup returns the first entry, in index order, whose test
    succeeds, and nothing when no test succeeds. *)
Lemma lowmem_tier_first g h i :
  lowmem_tier g h = Some i <->
  (Z.of_nat i < array_size_of g) /\ entry_crossed g h i = true
  /\ (forall j, (j < i)%nat -> entry_crossed g h j = false).
Proof.
  unfold lowmem_tier. rewrite scan_thresholds_Some. unfold entry_crossed.
  split; intros (Hi & Hc & Hlow); (split; [lia|]); (split; [exact Hc|]);
    intros j Hj; apply Hlow; lia.
Qed.

Lemma lowmem_tier_none g h :
  lowmem_tier g h = None <->
  (forall j, Z.of_nat j < array_size_of g -> entry_crossed g h j = false).
Proof.
  unfold lowmem_tier. rewrite scan_thresholds_None. unfold entry_crossed.
  split; intros Hall j Hj; apply Hall; lia.
Qed.

(** With readings that are not negative the converted operands are the
    readings themselves: the test is the conjunction of the two strict
    comparisons. *)
Lemma tier_crossed_nonneg other_free reserved_free other_file thr :
  0 <= other_free - reserved_free < 2 ^ 31 ->
  0 <= other_file < 2 ^ 31 ->
  tier_crossed other_free reserved_free other_file thr = true <->
  other_free - reserved_free < thr /\ other_file < thr.
Proof.
  intros Hf Hc. unfold tier_crossed.
  rewrite int32_small by lia. rewrite !wrap32_small by lia.
  rewrite andb_true_iff, !Z.ltb_lt. reflexivity.
Qed.

(** The cells the boost loop writes. *)
Lemma fill_cells_lookup (f : nat -> Z) n :
  forall a (tmp : list Z) j,
    (j < length tmp)%nat ->
    cell (foldl (fun tmp i => <[i := f i]> tmp) tmp (seq a n)) j
    = if decide (a <= j < a + n)%nat then f j else cell tmp j.
Proof.
  induction n as [|n IH]; intros a tmp j Hj; simpl.
  - destruct (decide _) as [Hr|_]; [lia | reflexivity].
  - rewrite IH by (rewrite length_insert; exact Hj).
    destruct (decide (S a <= j < S a + n)%nat) as [Hr|Hr].
    + destruct (decide _) as [_|Hr']; [reflexivity | lia].
    + unfold cell. destruct (decide (a = j)) as [->|Hne].
      * rewrite (list_lookup_total_insert_eq tmp j (f j) Hj).
        destruct (decide _) as [_|Hr']; [reflexivity | lia].
      * rewrite (list_lookup_total_insert_ne tmp a j (f a) Hne).
        destruct (decide _) as [Hr'|_]; [lia | reflexivity].
Qed.

(** The effective threshold of entry [i]: [lowmem_minfree[i]], plus
    [lowmem_fork_boost_minfree[i]] under a boost, as a [size_t]. *)
Lemma min_array_cell g boosted i :
  length (lowmem_minfree g) = 6%nat ->
  length (minfree_tmp g) = 6%nat ->
  lowmem_minfree_size g <= 6 ->
  Z.of_nat i < array_size_of g ->
  cell (min_array_of g boosted) i
  = wrap32 (cell (lowmem_minfree g) i
            + (if boosted then cell (lowmem_fork_boost_minfree g) i else 0)).
Proof.
  intros Hlm Hlt Hsz Hi.
  assert (Hi' : Z.of_nat i < lowmem_minfree_size g /\ Z.of_nat i < 6).
  { unfold array_size_of, ARRAY_SIZE_lowmem_adj in Hi.
    destruct (lowmem_adj_size g <? 6) eqn:E1;
      destruct (lowmem_minfree_size g <? _) eqn:E2;
      try apply Z.ltb_lt in E1; try apply Z.ltb_ge in E1;
      try apply Z.ltb_lt in E2; try apply Z.ltb_ge in E2; lia. }
  unfold min_array_of. destruct boosted.
  - unfold boost_minfree.
    rewrite (fill_cells_lookup
               (fun i => wrap32 (cell (lowmem_minfree g) i
                                 + cell (lowmem_fork_boost_minfree g) i)))
      by lia.
    destruct (decide _) as [_|Hr]; [reflexivity | lia].
  - unfold cell.
    rewrite (list_lookup_total_fmap wrap32 (lowmem_minfree g) i) by lia.
    rewrite Z.add_0_r. reflexivity.
Qed.

(** For readings that are not negative and thresholds a [size_t] holds,
    the lookup is the first-match rule over the conjunction of the two
    strict comparisons, and it finds nothing exactly when no entry
    satisfies the conjunction. *)
Lemma lookup_first_match g h :
  length (lowmem_minfree g) = 6%nat ->
  length (minfree_tmp g) = 6%nat ->
  lowmem_minfree_size g <= 6 ->
  0 <= other_free_of h - reserved_free_of (zones h) < 2 ^ 31 ->
  0 <= other_file_of h < 2 ^ 31 ->
  let effective i :=
    cell (lowmem_minfree g) i
    + (if fork_boosted g h then cell (lowmem_fork_boost_minfree g) i else 0) in
  let deficit i :=
    other_free_of h - reserved_free_of (zones h) < effective i
    /\ other_file_of h < effective i in
  (forall i, Z.of_nat i < array_size_of g -> 0 <= effective i < 2 ^ 32) ->
  (forall i,
      lowmem_tier g h = Some i <->
      Z.of_nat i < array_size_of g /\ deficit i
      /\ (forall j, (j < i)%nat -> ~ deficit j))
  /\ (lowmem_tier g h = None <->
      (forall j, Z.of_nat j < array_size_of g -> ~ deficit j)).
Proof.
  intros Hlm Hlt Hsz Hfree Hfile effective deficit Heff.
  assert (Hcross : forall i, Z.of_nat i < array_size_of g ->
                     (entry_crossed g h i = true <-> deficit i)).
  { intros i Hi. unfold entry_crossed.
    rewrite (min_array_cell g _ i Hlm Hlt Hsz Hi).
    fold (effective i). rewrite (wrap32_small _ (Heff i Hi)).
    apply tier_crossed_nonneg; assumption. }
  split.
  - intros i. rewrite lowmem_tier_first. split.
    + intros (Hi & Hc & Hlow). split; [exact Hi|].
      split; [apply Hcross; assumption|].
      intros j Hj Hd. apply Hcross in Hd; [|lia].
      rewrite (Hlow j Hj) in Hd. discriminate.
    + intros (Hi & Hd & Hlow). split; [exact Hi|].
      split; [apply Hcross; assumption|].
      intros j Hj. apply not_true_is_false. intros Hc.
      apply (Hlow j Hj). apply Hcross; [lia | exact Hc].
  - rewrite lowmem_tier_none. split.
    + intros Hall j Hj Hd. apply Hcross in Hd; [|exact Hj].
      rewrite (Hall j Hj) in Hd. discriminate.
    + intros Hall j Hj. apply not_true_is_false. intros Hc.
      apply (Hall j Hj). apply Hcross; assumption.
Qed.

(** C4 (as amended): with the default table, 1800 free pages, 500 file
    pages, nothing reserved and no boost, the lookup stops at the second
    entry and returns its cutoff, 1: the first entry is not crossed,
    since 1800 is not below 1536. *)
Theorem lookup_default_table_1800_500 (h : host) :
  NR_FREE_PAGES h = 1800 ->
  NR_FILE_PAGES h = 500 ->
  NR_SHMEM h = 0 -> NR_MLOCK h = 0 -> total_swapcache_pages h = 0 ->
  reserved_free_of (zones h) = 0 ->
  lowmem_tier lmk_init h = Some 1%nat
  /\ min_score_adj_of lmk_init h = 1
  /\ entry_crossed lmk_init h 0 = false.
Proof.
  intros Hfree Hfile Hshm Hml Hsw Hres.
  assert (Hc0 : entry_crossed lmk_init h 0 = false).
  { unfold entry_crossed, other_free_of, other_file_of.
    rewrite Hfree, Hfile, Hshm, Hml, Hsw, Hres. reflexivity. }
  assert (Hc1 : entry_crossed lmk_init h 1 = true).
  { unfold entry_crossed, other_free_of, other_file_of.
    rewrite Hfree, Hfile, Hshm, Hml, Hsw, Hres. reflexivity. }
  assert (Ht : lowmem_tier lmk_init h = Some 1%nat).
  { apply lowmem_tier_first. split; [reflexivity|]. split; [exact Hc1|].
    intros j Hj. replace j with 0%nat by lia. exact Hc0. }
  split; [exact Ht|]. split; [|exact Hc0].
  unfold min_score_adj_of. rewrite Ht. reflexivity.
Qed.

(** C5 (as amended): a reading in which a compared quantity is exactly
    equal to the threshold of an entry does not cross that entry: the
    comparisons are strict, and the lookup never selects the entry. *)
Theorem boundary_reading_not_crossed (g : lmk) (h : host) (i : nat) :
  let thr := cell (min_array_of g (fork_boosted g h)) i in
  wrap32 (int32 (other_free_of h - reserved_free_of (zones h))) = thr
  \/ wrap32 (other_file_of h) = thr ->
  entry_crossed g h i = false /\ lowmem_tier g h <> Some i.
Proof.
  intros thr Heq.
  assert (Hc : entry_crossed g h i = false).
  { unfold entry_crossed, tier_crossed. fold thr.
    apply andb_false_iff. destruct Heq as [-> | ->]; [left|right];
      apply Z.ltb_irrefl. }
  split; [exact Hc|].
  intros Ht. apply lowmem_tier_first in Ht as (_ & Hc' & _). congruence.
Qed.

(** C6: a call that asks for a scan while the scan lock is held returns
    0 at once: the globals are untouched, no process is signalled, and
    the only call into the kernel is the sleep of [lowmem_sleep_ms]
    milliseconds, taken when the caller is kswapd. *)
Theorem trylock_contention (g : lmk) (h : host) (nr_to_scan : Z) :
  0 < nr_to_scan ->
  scan_mutex g = true ->
  let o := lowmem_shrink g h nr_to_scan in
  ret o = 0
  /\ globals o = g
  /\ trace o = (if current_is_kswapd h
                then [msleep_interruptible lowmem_sleep_ms] else [])
  /\ existsb is_kill (trace o) = false.
Proof.
  intros Hnr Hlock o. subst o. unfold lowmem_shrink.
  apply Z.ltb_lt in Hnr. rewrite Hnr, Hlock. simpl.
  unfold backoff_sleep. simpl.
  destruct (current_is_kswapd h); simpl; auto.
Qed.

(** ** The paths of lowmem_shrink *)

Lemma min_score_adj_of_locked b g h :
  min_score_adj_of (with_scan_mutex b g) h = min_score_adj_of g h.
Proof. reflexivity. Qed.

Lemma fork_boosted_locked b g h :
  fork_boosted (with_scan_mutex b g) h = fork_boosted g h.
Proof. reflexivity. Qed.

(** The kill loop leaves the soft-reclaim structure alone and only adds
    signals to the trace. *)
Lemma kill_fold_s_reclaim now pl idxs acc :
  s_reclaim (foldl (kill_step now pl) acc idxs).1.2 = s_reclaim acc.1.2.
Proof.
  revert acc. induction idxs as [|i idxs IH]; intros acc; simpl; [reflexivity|].
  rewrite IH. destruct acc as [[rem g] tr]. unfold kill_step.
  destruct (selected pl !!! i); reflexivity.
Qed.

Lemma kill_fold_trace now pl idxs acc :
  exists t, (foldl (kill_step now pl) acc idxs).2 = acc.2 ++ t
            /\ Forall (fun e => is_kill e = true) t.
Proof.
  revert acc. induction idxs as [|i idxs IH]; intros acc; simpl.
  - exists []. split; [symmetry; apply app_nil_r | constructor].
  - destruct (IH (kill_step now pl acc i)) as (t & Ht & Hk).
    rewrite Ht. destruct acc as [[rem g] tr]. unfold kill_step.
    destruct (selected pl !!! i) as [p|]; simpl.
    + exists ([send_sig SIGKILL p; set_tsk_thread_flag_MEMDIE p] ++ t).
      split; [rewrite <- !app_assoc; reflexivity|].
      repeat constructor. exact Hk.
    + exists t. split; [reflexivity | exact Hk].
Qed.

Lemma flag_writes_app t1 t2 :
  flag_writes (t1 ++ t2) = flag_writes t1 ++ flag_writes t2.
Proof.
  induction t1 as [|e t1 IH]; simpl; [reflexivity|].
  destruct e; simpl; rewrite IH; reflexivity.
Qed.

Lemma flag_writes_kills t :
  Forall (fun e => is_kill e = true) t -> flag_writes t = [].
Proof.
  induction 1 as [|e t He _ IH]; simpl; [reflexivity|].
  destruct e; simpl in *; try discriminate; exact IH.
Qed.

Lemma flag_writes_backoff h : flag_writes (backoff_sleep h) = [].
Proof. unfold backoff_sleep. destruct (negb _); reflexivity. Qed.

(** Either the call wrote the flag twice, 1 and then 0, and left it at
    0, or it did not write it at all. *)
Lemma lowmem_shrink_flag g h nr_to_scan :
  let o := lowmem_shrink g h nr_to_scan in
  (flag_writes (trace o) = [1; 0] /\ lmk_running (s_reclaim (globals o)) = 0)
  \/ (flag_writes (trace o) = []
      /\ lmk_running (s_reclaim (globals o)) = lmk_running (s_reclaim g)).
Proof.
  intros o. subst o. unfold lowmem_shrink.
  destruct ((0 <? nr_to_scan) && scan_mutex g) eqn:Hbusy; simpl.
  { right. split; [apply flag_writes_backoff | reflexivity]. }
  match goal with
  | |- context [if ?c then {| ret := rem_of h; globals := _; trace := [] |} else _] =>
      destruct c eqn:Hquiet
  end.
  { right. split; [reflexivity|].
    destruct (0 <? nr_to_scan); destruct (fork_boosted _ h); reflexivity. }
  match goal with
  | |- context [scan_tasks ?m ?n ?t ?ts ?pl0] =>
      destruct (scan_tasks m n t ts pl0) as [|pl]
  end.
  - left. simpl. rewrite flag_writes_backoff. split; reflexivity.
  - left.
    match goal with
    | |- context [kill_selected ?n pl ?acc] =>
        pose proof (kill_fold_trace n pl (seq 0 LOWMEM_DEATHPENDING_DEPTH) acc)
          as (t & Ht & Hk);
        unfold kill_selected;
        destruct (foldl (kill_step n pl) acc (seq 0 LOWMEM_DEATHPENDING_DEPTH))
          as [[rem' g'] tr'] eqn:Hfold
    end.
    simpl in Ht. subst tr'. simpl.
    rewrite flag_writes_app, (flag_writes_kills t Hk). split; reflexivity.
Qed.

(** C9 (as amended): a query ([nr_to_scan] not positive), and a scan that
    takes the lock and finds [min_score_adj] still at
    [OOM_SCORE_ADJ_MAX + 1], signal nobody and return the sum of the four
    LRU page counters, the sum being one an [int] holds. *)
Theorem no_pressure_returns_lru_pages (g : lmk) (h : host) (nr_to_scan : Z) :
  nr_to_scan <= 0
  \/ (scan_mutex g = false /\ min_score_adj_of g h = OOM_SCORE_ADJ_MAX + 1) ->
  0 <= NR_ACTIVE_ANON h + NR_ACTIVE_FILE h
       + NR_INACTIVE_ANON h + NR_INACTIVE_FILE h <= INT_MAX ->
  let o := lowmem_shrink g h nr_to_scan in
  ret o = NR_ACTIVE_ANON h + NR_ACTIVE_FILE h
          + NR_INACTIVE_ANON h + NR_INACTIVE_FILE h
  /\ trace o = []
  /\ lmk_count (globals o) = lmk_count g
  /\ lowmem_deathpending_timeout (globals o) = lowmem_deathpending_timeout g
  /\ scan_mutex (globals o) = scan_mutex g.
Proof.
  intros Hpath Hsum o. subst o.
  assert (Hrem : rem_of h = NR_ACTIVE_ANON h + NR_ACTIVE_FILE h
                            + NR_INACTIVE_ANON h + NR_INACTIVE_FILE h).
  { unfold rem_of. unfold INT_MAX in Hsum.
    rewrite wrap32_small by lia. apply int32_small. lia. }
  unfold lowmem_shrink.
  destruct (Z.ltb_spec 0 nr_to_scan) as [Hpos|Hnpos].
  - destruct Hpath as [Hq | [Hfree Hmin]]; [lia|].
    rewrite Hfree. simpl.
    rewrite min_score_adj_of_locked, Hmin, Z.eqb_refl, orb_true_r. simpl.
    rewrite Hrem, fork_boosted_locked.
    destruct (fork_boosted g h); simpl; rewrite ?Hfree; auto.
  - simpl. apply Z.leb_le in Hnpos. rewrite Hnpos. simpl.
    rewrite Hrem. destruct (fork_boosted g h); simpl; auto.
Qed.

(** C10: a call of [lowmem_shrink] that writes 1 to [lmk_running] writes
    0 to it afterwards, on the hysteresis abort and on completion alike,
    and leaves it at 0; a flag that is 0 stays 0 over any sequence of
    completed calls; and [could_cswap] does nothing while the flag is 1. *)
Theorem lmk_running_reset :
  (forall g h nr_to_scan,
      In 1 (flag_writes (trace (lowmem_shrink g h nr_to_scan))) ->
      flag_writes (trace (lowmem_shrink g h nr_to_scan)) = [1; 0]
      /\ lmk_running (s_reclaim (globals (lowmem_shrink g h nr_to_scan))) = 0)
  /\ (forall g calls,
        lmk_running (s_reclaim g) = 0 ->
        lmk_running (s_reclaim (run_scans g calls)) = 0)
  /\ (forall g h,
        lmk_running (s_reclaim g) = 1 -> could_cswap g h = (g, [])).
Proof.
  split; [|split].
  - intros g h nr Hin.
    destruct (lowmem_shrink_flag g h nr) as [Hset | [Hnone _]]; [exact Hset|].
    rewrite Hnone in Hin. destruct Hin.
  - intros g calls. revert g.
    induction calls as [|[h nr] calls IH]; intros g Hg; simpl; [exact Hg|].
    apply IH.
    destruct (lowmem_shrink_flag g h nr) as [[_ H0] | [_ Hsame]];
      [exact H0 | rewrite Hsame; exact Hg].
  - intros g h Hrun. unfold could_cswap.
    destruct (_ && _); [reflexivity|].
    destruct (time_before _ _); [reflexivity|].
    rewrite Hrun. reflexivity.
Qed.

(** ** The hysteresis abort *)

(** While the death-pending window is open, a flagged process that is
    not a kernel thread stops the scan, wherever it is in the list. *)
Lemma scan_tasks_abort min_score_adj now timeout ts victim :
  time_before_eq now timeout = true ->
  In victim ts ->
  PF_KTHREAD victim = false ->
  test_task_flag victim = true ->
  forall pl, exists pl',
    scan_tasks min_score_adj now timeout ts pl = scan_abort pl'.
Proof.
  intros Hopen Hin Hk Hflag.
  induction ts as [|tsk ts IH]; [destruct Hin|].
  intros pl. simpl. rewrite Hopen. simpl.
  destruct Hin as [<- | Hin].
  - rewrite Hk, Hflag. eexists. reflexivity.
  - specialize (IH Hin).
    destruct (PF_KTHREAD tsk); [apply IH|].
    destruct (test_task_flag tsk); [eexists; reflexivity|].
    destruct (find_lock_task_mm tsk); [|apply IH].
    destruct (_ <? _); [apply IH|].
    destruct (_ <=? _); apply IH.
Qed.

(** C3: a scan that starts [d] ticks after a kill, with [d] below the
    window of [HZ] ticks that the kill recorded, and that meets a process
    still flagged TIF_MEMDIE, returns 0: it signals nobody and leaves
    the kill counter and the deadline as they were, and it releases the
    lock and clears [lmk_running].  The gate is inside the loop over the
    processes, so the processes met before the flagged one may already
    be in the local arrays; they are dropped with the return and none
    of them is signalled. *)
Theorem hysteresis_abort (g : lmk) (h : host) (nr_to_scan t_kill d : Z)
    (victim : task_struct) :
  0 < nr_to_scan ->
  scan_mutex g = false ->
  min_score_adj_of g h <> OOM_SCORE_ADJ_MAX + 1 ->
  HZ < 2 ^ 31 ->
  lowmem_deathpending_timeout g = wrap32 (t_kill + HZ) ->
  jiffies h = wrap32 (t_kill + d) ->
  0 <= d < HZ ->
  In victim (tasks h) ->
  PF_KTHREAD victim = false ->
  test_task_flag victim = true ->
  let o := lowmem_shrink g h nr_to_scan in
  ret o = 0
  /\ existsb is_kill (trace o) = false
  /\ lmk_count (globals o) = lmk_count g
  /\ lowmem_deathpending_timeout (globals o) = lowmem_deathpending_timeout g
  /\ scan_mutex (globals o) = false
  /\ lmk_running (s_reclaim (globals o)) = 0.
Proof.
  intros Hnr Hfree Hmin Hhz Hdead Hnow Hd Hin Hk Hflag o. subst o.
  assert (Hopen : time_before_eq (jiffies h) (lowmem_deathpending_timeout g) = true).
  { rewrite Hdead, Hnow. apply time_before_eq_window; lia. }
  unfold lowmem_shrink.
  apply Z.ltb_lt in Hnr. rewrite Hnr, Hfree. simpl.
  rewrite min_score_adj_of_locked.
  assert (Hle : (nr_to_scan <=? 0) = false) by (apply Z.leb_gt, Z.ltb_lt, Hnr).
  rewrite Hle. apply Z.eqb_neq in Hmin. rewrite Hmin. simpl.
  rewrite fork_boosted_locked.
  match goal with
  | |- context [scan_tasks ?m ?n ?t ?ts ?pl0] =>
      destruct (scan_tasks_abort m n t ts victim) with (pl := pl0)
        as [pl' ->]; try assumption
  end.
  - destruct (fork_boosted g h); exact Hopen.
  - simpl. unfold backoff_sleep.
    destruct (fork_boosted g h); destruct (negb _); simpl; auto 10.
Qed.

(** ** The soft-reclaim worker *)

Lemma wrap32_idem z : wrap32 (wrap32 z) = wrap32 z.
Proof. apply wrap32_small, wrap32_range. Qed.

Lemma soft_reclaim_zone_spec r n z :
  let acc := soft_reclaim_zone (r, n) z in
  wrap32 acc.2 = wrap32 (n + zone_reclaimed z)
  /\ need_to_reclaim acc.1 = need_to_reclaim r.
Proof.
  unfold soft_reclaim_zone, zone_reclaimed.
  destruct (populated_zone z); simpl.
  - destruct (all_unreclaimable z); simpl.
    + rewrite Z.add_0_r. auto.
    + rewrite wrap32_idem. auto.
  - rewrite Z.add_0_r. auto.
Qed.

Lemma soft_reclaim_nodes_spec nodes r n :
  let acc :=
    foldl (fun acc nd => soft_reclaim_zone (soft_reclaim_zone acc nd.1) nd.2)
          (r, n) nodes in
  wrap32 acc.2
  = wrap32 (n + foldr (fun nd acc => zone_reclaimed nd.1 + zone_reclaimed nd.2 + acc)
                      0 nodes)
  /\ need_to_reclaim acc.1 = need_to_reclaim r.
Proof.
  revert r n. induction nodes as [|nd nodes IH]; intros r n; cbn [foldl foldr].
  - simpl. rewrite Z.add_0_r. auto.
  - destruct (soft_reclaim_zone (r, n) nd.1) as [r1 n1] eqn:H1.
    destruct (soft_reclaim_zone (r1, n1) nd.2) as [r2 n2] eqn:H2.
    pose proof (soft_reclaim_zone_spec r n nd.1) as [Ha Hb].
    pose proof (soft_reclaim_zone_spec r1 n1 nd.2) as [Hc Hd].
    rewrite H1 in Ha, Hb. rewrite H2 in Hc, Hd. simpl in Ha, Hb, Hc, Hd.
    destruct (IH r2 n2) as [He Hf].
    split; [|etrans; [exact Hf|]; etrans; [exact Hd | exact Hb]].
    rewrite He.
    rewrite <- (wrap32_add_l n2), Hc, wrap32_add_l.
    rewrite <- Z.add_assoc, <- (wrap32_add_l n1), Ha, wrap32_add_l.
    f_equal. lia.
Qed.

(** What [soft_reclaim] hands to its caller. *)
Lemma soft_reclaim_spec g h :
  wrap32 (soft_reclaim g h).2 = wrap32 (pages_reclaimed h)
  /\ minimun_reclaim_pages (soft_reclaim g h).1 = minimun_reclaim_pages g
  /\ need_to_reclaim (s_reclaim (soft_reclaim g h).1)
     = need_to_reclaim (s_reclaim g).
Proof.
  unfold soft_reclaim, pages_reclaimed.
  pose proof (soft_reclaim_nodes_spec (node_zones h) (s_reclaim g) 0) as [Ha Hb].
  destruct (foldl _ _ (node_zones h)) as [r n]. simpl in *.
  rewrite wrap32_int32, Ha. auto.
Qed.

(** C7: when a pass of the worker reclaims fewer pages than
    [minimun_reclaim_pages] the worker clears [need_to_reclaim] before
    it goes to sleep, and when the pass reclaims at least that many the
    worker leaves the flag as it found it.  The page count of a pass is
    one an [unsigned long] holds. *)
Theorem do_compcache_clears_flag (g : lmk) (h : host) :
  0 <= pages_reclaimed h < 2 ^ 32 ->
  let g' := do_compcache_pass g h in
  (pages_reclaimed h < minimun_reclaim_pages g ->
   need_to_reclaim (s_reclaim g') = 0)
  /\ (minimun_reclaim_pages g <= pages_reclaimed h ->
      need_to_reclaim (s_reclaim g') = need_to_reclaim (s_reclaim g))
  /\ kcompcached_running (s_reclaim g') = 0.
Proof.
  intros Hrange g'. subst g'. unfold do_compcache_pass.
  pose proof (soft_reclaim_spec g h) as (Hret & Hmin & Hflag).
  destruct (soft_reclaim g h) as [g1 reclaimed]. simpl in *.
  rewrite Hret, (wrap32_small _ Hrange), Hmin.
  destruct (Z.ltb_spec (pages_reclaimed h) (minimun_reclaim_pages g)) as [Hlt|Hge];
    simpl.
  - split; [reflexivity|]. split; [lia | reflexivity].
  - split; [lia|]. split; [intros _; exact Hflag | reflexivity].
Qed.

(** ** The victim pool *)

Lemma outranks_refl : Reflexive outranks.
Proof. intros [a s]. unfold outranks. simpl. lia. Qed.

Lemma outranks_trans : Transitive outranks.
Proof. intros [a1 s1] [a2 s2] [a3 s3]. unfold outranks. simpl. lia. Qed.

Lemma outranks_antisymm : AntiSymm (=) outranks.
Proof.
  intros [a1 s1] [a2 s2]. unfold outranks. simpl. intros H1 H2.
  f_equal; lia.
Qed.

Lemma outranks_total : Total outranks.
Proof. intros [a1 s1] [a2 s2]. unfold outranks. simpl. lia. Qed.

#[local] Existing Instance outranks_refl.
#[local] Existing Instance outranks_trans.
#[local] Existing Instance outranks_antisymm.
#[local] Existing Instance outranks_total.

(** One comparison of the weakest-slot loop keeps the weaker of the two
    slots. *)
Lemma weakest_step_spec adjs sizes idx i :
  (weakest_step adjs sizes idx i = idx \/ weakest_step adjs sizes idx i = i)
  /\ outranks (key_of adjs sizes idx) (key_of adjs sizes (weakest_step adjs sizes idx i))
  /\ outranks (key_of adjs sizes i) (key_of adjs sizes (weakest_step adjs sizes idx i)).
Proof.
  unfold weakest_step, outranks, key_of. simpl.
  destruct (Z.ltb_spec (cell adjs i) (cell adjs idx)) as [H1|H1].
  { split; [right; reflexivity | lia]. }
  destruct (Z.eqb_spec (cell adjs i) (cell adjs idx)) as [H2|H2]; simpl.
  - destruct (Z.ltb_spec (cell sizes i) (cell sizes idx)) as [H3|H3].
    + split; [right; reflexivity | lia].
    + split; [left; reflexivity | lia].
  - split; [left; reflexivity | lia].
Qed.

Lemma weakest_fold_spec adjs sizes idxs idx :
  (foldl (weakest_step adjs sizes) idx idxs = idx
   \/ foldl (weakest_step adjs sizes) idx idxs ∈ idxs)
  /\ outranks (key_of adjs sizes idx)
       (key_of adjs sizes (foldl (weakest_step adjs sizes) idx idxs))
  /\ (forall i, i ∈ idxs ->
        outranks (key_of adjs sizes i)
          (key_of adjs sizes (foldl (weakest_step adjs sizes) idx idxs))).
Proof.
  revert idx. induction idxs as [|i idxs IH]; intros idx; simpl.
  - split; [left; reflexivity|]. split; [reflexivity|].
    intros i Hi. apply elem_of_nil in Hi. destruct Hi.
  - destruct (weakest_step_spec adjs sizes idx i) as (Hm & H1 & H2).
    destruct (IH (weakest_step adjs sizes idx i)) as (Hm' & H1' & H2').
    split; [|split].
    + destruct Hm' as [Heq | Hin].
      * rewrite Heq. destruct Hm as [-> | ->]; [left; reflexivity|].
        right. apply elem_of_cons. left. reflexivity.
      * right. apply elem_of_cons. right. exact Hin.
    + etrans; [exact H1 | exact H1'].
    + intros j Hj. apply elem_of_cons in Hj as [-> | Hj].
      * etrans; [exact H2 | exact H1'].
      * apply H2'. exact Hj.
Qed.

(** After the loop of lines 387-393 [max_selected_oom_idx] is a slot no
    other slot ranks below. *)
Lemma weakest_slot_spec adjs sizes idx :
  (idx < LOWMEM_DEATHPENDING_DEPTH)%nat ->
  (weakest_slot adjs sizes idx < LOWMEM_DEATHPENDING_DEPTH)%nat
  /\ (forall i, (i < LOWMEM_DEATHPENDING_DEPTH)%nat ->
        outranks (key_of adjs sizes i)
          (key_of adjs sizes (weakest_slot adjs sizes idx))).
Proof.
  intros Hidx. unfold weakest_slot.
  destruct (weakest_fold_spec adjs sizes (seq 0 LOWMEM_DEATHPENDING_DEPTH) idx)
    as (Hm & _ & Hall).
  split.
  - destruct Hm as [-> | Hin]; [exact Hidx|].
    apply elem_of_seq in Hin. lia.
  - intros i Hi. apply Hall. apply elem_of_seq. lia.
Qed.

(** The loop of lines 365-371 finds the first empty slot. *)
Lemma first_free_spec (sel : list (option Z)) a m n :
  (a <= n < a + m)%nat ->
  (forall i, (a <= i < n)%nat -> exists q, sel !! i = Some (Some q)) ->
  sel !! n = Some None ->
  first_free sel (seq a m) = Some n.
Proof.
  revert a. induction m as [|m IH]; intros a Hr Hfull Hn; [lia|].
  simpl. destruct (decide (a = n)) as [->|Hne].
  - rewrite (list_lookup_total_correct _ _ _ Hn). reflexivity.
  - destruct (Hfull a) as [q Hq]; [lia|].
    rewrite (list_lookup_total_correct _ _ _ Hq).
    apply IH; [lia | intros i Hi; apply Hfull; lia | exact Hn].
Qed.

(** Overwriting one cell of a list changes what [omap] keeps of it by
    the entry written and the entry overwritten. *)
Lemma omap_insert_Permutation {A B} (f : A -> option B) (l : list A) i x y old :
  l !! i = Some old ->
  f x = Some y ->
  omap f (<[i:=x]> l) ++ option_list (f old) ≡ₚ y :: omap f l.
Proof.
  intros Hi Hx.
  assert (Hlen : (i < length l)%nat) by (eapply lookup_lt_Some; exact Hi).
  rewrite insert_take_drop by exact Hlen.
  rewrite <- (take_drop_middle l i old Hi) at 3.
  rewrite !omap_app. simpl. rewrite Hx.
  destruct (f old) as [b|]; simpl.
  - rewrite <- app_assoc. simpl.
    rewrite <- !Permutation_middle. rewrite app_nil_r. reflexivity.
  - rewrite app_nil_r, <- Permutation_middle. reflexivity.
Qed.

Lemma slots_lookup (sel : list (option Z)) (adjs sizes : list Z) i s a z :
  sel !! i = Some s -> adjs !! i = Some a -> sizes !! i = Some z ->
  zip sel (zip adjs sizes) !! i = Some (s, (a, z)).
Proof.
  intros Hs Ha Hz. apply lookup_zip_with_Some.
  exists s, (a, z). split; [reflexivity|]. split; [exact Hs|].
  apply lookup_zip_with_Some. exists a, z. auto.
Qed.

Lemma cell_lookup (a : list Z) i :
  (i < length a)%nat -> a !! i = Some (cell a i).
Proof.
  intros Hi. destruct (lookup_lt_is_Some_2 a i Hi) as [x Hx].
  unfold cell. rewrite (list_lookup_total_correct _ _ _ Hx). exact Hx.
Qed.

(** Writing a task into slot [i] of the three arrays. *)
Lemma entries_insert sel adjs sizes i p a z old :
  length adjs = length sel -> length sizes = length sel ->
  sel !! i = Some old ->
  entries_of (<[i:=Some p]> sel) (<[i:=a]> adjs) (<[i:=z]> sizes)
  ++ option_list (slot_entry (old, key_of adjs sizes i))
  ≡ₚ (p, a, z) :: entries_of sel adjs sizes.
Proof.
  intros Hla Hlz Hold. unfold entries_of.
  assert (Hi : (i < length sel)%nat) by (eapply lookup_lt_Some; exact Hold).
  rewrite <- (insert_zip_with pair adjs sizes i a z).
  rewrite <- (insert_zip_with pair sel (zip adjs sizes) i (Some p) (a, z)).
  apply omap_insert_Permutation; [|reflexivity].
  apply slots_lookup; [exact Hold | apply cell_lookup; lia | apply cell_lookup; lia].
Qed.

(** Every entry of the pool sits in a slot. *)
Lemma pool_entries_key pl e :
  e ∈ pool_entries pl ->
  exists i, (i < length (selected pl))%nat /\ cand_key e = key_at pl i.
Proof.
  unfold pool_entries, entries_of. rewrite list_elem_of_omap.
  intros ([s [a z]] & Hin & Hs).
  apply list_elem_of_lookup in Hin as [i Hi].
  apply lookup_zip_with_Some in Hi as (s' & az & Heq & Hsel & Haz).
  apply lookup_zip_with_Some in Haz as (a' & z' & Heq2 & Ha & Hz).
  simplify_eq. destruct s' as [p|]; simpl in Hs; [|discriminate].
  injection Hs as <-. exists i. split; [eapply lookup_lt_Some; exact Hsel|].
  unfold cand_key, key_at, key_of, cell. simpl.
  rewrite (list_lookup_total_correct _ _ _ Ha).
  rewrite (list_lookup_total_correct _ _ _ Hz). reflexivity.
Qed.

Lemma key_of_insert adjs sizes i j a z :
  (i < length adjs)%nat -> (i < length sizes)%nat ->
  key_of (<[i:=a]> adjs) (<[i:=z]> sizes) j
  = if decide (i = j) then (a, z) else key_of adjs sizes j.
Proof.
  intros Ha Hz. unfold key_of, cell. destruct (decide (i = j)) as [->|Hne].
  - rewrite !list_lookup_total_insert_eq by assumption. reflexivity.
  - rewrite !list_lookup_total_insert_ne by assumption. reflexivity.
Qed.

Lemma pool_inv_init min_score_adj :
  pool_inv (pool_init min_score_adj) [] [] 0.
Proof.
  unfold pool_inv.
  split; [reflexivity|]. split; [reflexivity|]. split; [reflexivity|].
  split; [unfold LOWMEM_DEATHPENDING_DEPTH; lia|].
  split; [reflexivity|].
  split; [intros i Hi; lia|].
  split.
  { intros i Hi. unfold LOWMEM_DEATHPENDING_DEPTH in Hi.
    destruct i as [|[|[|i]]]; [reflexivity..|lia]. }
  split; [reflexivity|]. split; [reflexivity|]. split; [reflexivity|].
  intros Hn. discriminate Hn.
Qed.

(** While a slot is free the task takes the first free slot. *)
Lemma pool_step_fill pl seen rej n p a z :
  pool_inv pl seen rej n ->
  (n < LOWMEM_DEATHPENDING_DEPTH)%nat ->
  pool_inv (pool_step pl (p, a, z)) (seen ++ [(p, a, z)]) rej (S n).
Proof.
  intros (Hls & Hlz & Hla & Hn & Hall & Hfull & Hempty & Hlen & Hperm & Hrej & _) Hlt.
  specialize (Hrej Hlt). subst rej.
  assert (Hroom : (all_selected_oom pl <? Z.of_nat LOWMEM_DEATHPENDING_DEPTH) = true)
    by (rewrite Hall; apply Z.ltb_lt; lia).
  assert (Hfree : first_free (selected pl) (seq 0 LOWMEM_DEATHPENDING_DEPTH) = Some n).
  { apply first_free_spec; [lia | intros i Hi; apply Hfull; lia | apply Hempty; lia]. }
  assert (E : entries_of (<[n:=Some p]> (selected pl))
                (<[n:=a]> (selected_oom_score_adj pl))
                (<[n:=z]> (selected_tasksize pl))
              ≡ₚ (p, a, z) :: pool_entries pl).
  { rewrite <- (entries_insert (selected pl) (selected_oom_score_adj pl)
                 (selected_tasksize pl) n p a z None); [|lia|lia|apply Hempty; lia].
    simpl. rewrite app_nil_r. reflexivity. }
  unfold pool_step, pool_admit. rewrite Hroom, Hfree.
  unfold pool_inv, pool_entries, key_at.
  cbn [selected selected_tasksize selected_oom_score_adj all_selected_oom
       max_selected_oom_idx].
  rewrite !length_insert.
  split; [exact Hls|]. split; [exact Hlz|]. split; [exact Hla|].
  split; [lia|]. split; [lia|].
  split.
  { intros i Hi. destruct (decide (i = n)) as [->|Hne].
    - exists p. apply list_lookup_insert_eq. lia.
    - rewrite list_lookup_insert_ne by congruence. apply Hfull. lia. }
  split.
  { intros i Hi. rewrite list_lookup_insert_ne by lia. apply Hempty. lia. }
  split.
  { rewrite E. simpl. rewrite Hlen. reflexivity. }
  split.
  { rewrite E, app_nil_r. rewrite Hperm, app_nil_r.
    symmetry. apply Permutation_cons_append. }
  split; [reflexivity|].
  intros Hfullnow.
  assert (Hk : (all_selected_oom pl + 1 =? Z.of_nat LOWMEM_DEATHPENDING_DEPTH) = true)
    by (apply Z.eqb_eq; lia).
  rewrite Hk.
  destruct (weakest_slot_spec (<[n:=a]> (selected_oom_score_adj pl))
              (<[n:=z]> (selected_tasksize pl)) n Hlt) as [Hm Hdom].
  split; [exact Hm|]. split; [exact Hdom|].
  intros r Hr. apply elem_of_nil in Hr. destruct Hr.
Qed.

(** Once the pool is full the task replaces the weakest slot when it
    ranks strictly higher, and is left out otherwise. *)
Lemma pool_step_full pl seen rej p a z :
  pool_inv pl seen rej LOWMEM_DEATHPENDING_DEPTH ->
  exists rej',
    pool_inv (pool_step pl (p, a, z)) (seen ++ [(p, a, z)]) rej'
      LOWMEM_DEATHPENDING_DEPTH.
Proof.
  intros (Hls & Hlz & Hla & Hn & Hall & Hfull & Hempty & Hlen & Hperm & Hrej & Hweak).
  destruct (Hweak eq_refl) as (Hidx & Hdom & Hout). clear Hweak.
  set (idx := max_selected_oom_idx pl) in *.
  assert (Hroom : (all_selected_oom pl <? Z.of_nat LOWMEM_DEATHPENDING_DEPTH) = false)
    by (rewrite Hall; apply Z.ltb_ge; lia).
  unfold pool_step, pool_admit. rewrite Hroom. fold idx.
  destruct ((cell (selected_oom_score_adj pl) idx <? a)
            || (cell (selected_oom_score_adj pl) idx =? a)
               && (cell (selected_tasksize pl) idx <? z)) eqn:Htest.
  - (* the task replaces slot idx *)
    assert (Hbetter : outranks (a, z) (key_at pl idx)).
    { unfold outranks, key_at, key_of. simpl.
      apply orb_true_iff in Htest as [Ht | Ht].
      - apply Z.ltb_lt in Ht. lia.
      - apply andb_true_iff in Ht as [Ht1 Ht2].
        apply Z.eqb_eq in Ht1. apply Z.ltb_lt in Ht2. lia. }
    destruct (Hfull idx Hidx) as [q Hq].
    assert (E : entries_of (<[idx:=Some p]> (selected pl))
                  (<[idx:=a]> (selected_oom_score_adj pl))
                  (<[idx:=z]> (selected_tasksize pl))
                ++ [(q, cell (selected_oom_score_adj pl) idx,
                     cell (selected_tasksize pl) idx)]
                ≡ₚ (p, a, z) :: pool_entries pl).
    { apply (entries_insert (selected pl) (selected_oom_score_adj pl)
               (selected_tasksize pl) idx p a z (Some q)); [lia|lia|exact Hq]. }
    exists ((q, cell (selected_oom_score_adj pl) idx,
             cell (selected_tasksize pl) idx) :: rej).
    assert (Hk : (all_selected_oom pl =? Z.of_nat LOWMEM_DEATHPENDING_DEPTH) = true)
      by (apply Z.eqb_eq; exact Hall).
    unfold pool_inv, pool_entries, key_at.
    cbn [selected selected_tasksize selected_oom_score_adj all_selected_oom
         max_selected_oom_idx].
    rewrite Hk, !length_insert.
    split; [exact Hls|]. split; [exact Hlz|]. split; [exact Hla|].
    split; [lia|]. split; [exact Hall|].
    split.
    { intros i Hi. destruct (decide (i = idx)) as [->|Hne].
      - exists p. apply list_lookup_insert_eq. lia.
      - rewrite list_lookup_insert_ne by congruence. apply Hfull. exact Hi. }
    split; [intros i Hi; lia|].
    split.
    { apply Permutation_length in E. rewrite length_app in E. simpl in E.
      rewrite Hlen in E. lia. }
    split.
    { rewrite Hperm, <- Permutation_cons_append.
      change ((p, a, z) :: pool_entries pl ++ rej)
        with (((p, a, z) :: pool_entries pl) ++ rej).
      rewrite <- E, <- app_assoc. reflexivity. }
    split; [intros Hi; lia|].
    intros _.
    destruct (weakest_slot_spec (<[idx:=a]> (selected_oom_score_adj pl))
                (<[idx:=z]> (selected_tasksize pl)) idx Hidx) as [Hm Hdom'].
    set (m := weakest_slot _ _ idx) in *.
    split; [exact Hm|]. split; [exact Hdom'|].
    assert (Hm_old : outranks
                       (key_of (<[idx:=a]> (selected_oom_score_adj pl))
                          (<[idx:=z]> (selected_tasksize pl)) m)
                       (key_at pl idx)).
    { rewrite key_of_insert by lia.
      destruct (decide (idx = m)); [exact Hbetter | apply Hdom; exact Hm]. }
    intros r Hr. apply elem_of_cons in Hr as [-> | Hr].
    + exact Hm_old.
    + etrans; [exact Hm_old | apply Hout; exact Hr].
  - (* the task is left out *)
    assert (Hworse : outranks (key_at pl idx) (a, z)).
    { unfold outranks, key_at, key_of. simpl.
      apply orb_false_iff in Htest as [Ht1 Ht2].
      apply Z.ltb_ge in Ht1.
      apply andb_false_iff in Ht2 as [Ht2 | Ht2].
      - apply Z.eqb_neq in Ht2. lia.
      - apply Z.ltb_ge in Ht2. lia. }
    exists ((p, a, z) :: rej).
    unfold pool_inv, pool_entries, key_at.
    cbn [selected selected_tasksize selected_oom_score_adj all_selected_oom
         max_selected_oom_idx].
    split; [exact Hls|]. split; [exact Hlz|]. split; [exact Hla|].
    split; [lia|]. split; [exact Hall|]. split; [exact Hfull|].
    split; [exact Hempty|]. split; [exact Hlen|].
    split.
    { fold (pool_entries pl).
      rewrite Hperm, <- Permutation_cons_append, <- Permutation_middle.
      reflexivity. }
    split; [intros Hi; lia|].
    intros _. split; [exact Hidx|]. split; [exact Hdom|].
    intros r Hr. apply elem_of_cons in Hr as [-> | Hr];
      [exact Hworse | apply Hout; exact Hr].
Qed.

Lemma pool_inv_foldl cands :
  forall pl seen rej n,
    pool_inv pl seen rej n ->
    exists rej' n', pool_inv (foldl pool_step pl cands) (seen ++ cands) rej' n'.
Proof.
  induction cands as [|[[p a] z] cands IH]; intros pl seen rej n Hinv.
  - exists rej, n. rewrite app_nil_r. exact Hinv.
  - simpl. rewrite (cons_middle _ seen cands), app_assoc.
    destruct (decide (n < LOWMEM_DEATHPENDING_DEPTH)%nat) as [Hlt|Hge].
    + apply (IH _ _ rej (S n)). apply pool_step_fill; assumption.
    + assert (n = LOWMEM_DEATHPENDING_DEPTH) as -> by (destruct Hinv as (_&_&_&Hn&_); lia).
      destruct (pool_step_full pl seen rej p a z Hinv) as [rej' Hinv'].
      apply (IH _ _ rej' LOWMEM_DEATHPENDING_DEPTH). exact Hinv'.
Qed.

Lemma pool_run_inv min_score_adj cands :
  exists rej n, pool_inv (pool_run min_score_adj cands) cands rej n.
Proof.
  apply (pool_inv_foldl cands _ [] [] 0%nat), pool_inv_init.
Qed.

(** Every task in the pool ranks at least as high as every task left
    out. *)
Lemma pool_inv_dominates pl seen rej n e r :
  pool_inv pl seen rej n ->
  e ∈ pool_entries pl -> r ∈ rej ->
  outranks (cand_key e) (cand_key r).
Proof.
  intros (Hls & _ & _ & Hn & _ & _ & _ & _ & _ & Hrej & Hweak) He Hr.
  destruct (decide (n < LOWMEM_DEATHPENDING_DEPTH)%nat) as [Hlt|Hge].
  { rewrite (Hrej Hlt) in Hr. apply elem_of_nil in Hr. destruct Hr. }
  destruct Hweak as (_ & Hdom & Hout); [lia|].
  destruct (pool_entries_key pl e He) as (i & Hi & ->).
  etrans; [apply Hdom; lia | apply Hout; exact Hr].
Qed.

Lemma sorted_keys_app (l1 l2 : list (Z * Z)) :
  (forall x y, x ∈ l1 -> y ∈ l2 -> outranks x y) ->
  merge_sort outranks (l1 ++ l2) = merge_sort outranks l1 ++ merge_sort outranks l2.
Proof.
  intros Hdom. apply (Sorted_unique outranks).
  - apply Sorted_merge_sort, _.
  - apply StronglySorted_Sorted, StronglySorted_app_2.
    + intros x y Hx Hy. rewrite merge_sort_Permutation in Hx, Hy. auto.
    + apply StronglySorted_merge_sort; apply _.
    + apply StronglySorted_merge_sort; apply _.
  - rewrite !merge_sort_Permutation. reflexivity.
Qed.

Lemma pool_inv_top_ranked pl seen rej n :
  pool_inv pl seen rej n ->
  pool_keys pl ≡ₚ top_ranked LOWMEM_DEATHPENDING_DEPTH (cand_key <$> seen).
Proof.
  intros Hinv.
  pose proof Hinv as (_ & _ & _ & Hn & _ & _ & _ & Hlen & Hperm & Hrej & _).
  unfold top_ranked, pool_keys.
  assert (Hsort : merge_sort outranks (cand_key <$> seen)
                  = merge_sort outranks (cand_key <$> pool_entries pl)
                    ++ merge_sort outranks (cand_key <$> rej)).
  { rewrite <- sorted_keys_app.
    - apply (Sorted_unique outranks); [apply Sorted_merge_sort, _ ..|].
      rewrite !merge_sort_Permutation, Hperm, fmap_app. reflexivity.
    - intros x y Hx Hy.
      apply list_elem_of_fmap in Hx as (e & -> & He).
      apply list_elem_of_fmap in Hy as (r & -> & Hr).
      eapply pool_inv_dominates; eassumption. }
  rewrite Hsort.
  assert (HlenA : length (merge_sort outranks (cand_key <$> pool_entries pl)) = n).
  { rewrite merge_sort_Permutation, length_fmap. exact Hlen. }
  destruct (decide (n < LOWMEM_DEATHPENDING_DEPTH)%nat) as [Hlt|Hge].
  - rewrite (Hrej Hlt). simpl. rewrite app_nil_r, take_ge by lia.
    symmetry. apply merge_sort_Permutation.
  - rewrite take_app_length' by lia.
    symmetry. apply merge_sort_Permutation.
Qed.

(** The scan feeds the pool the eligible tasks, in order, unless the
    hysteresis gate stops it. *)
Lemma scan_tasks_done min_score_adj now timeout ts :
  (forall t, In t ts ->
     PF_KTHREAD t = true
     \/ time_before_eq now timeout && test_task_flag t = false) ->
  forall pl,
    scan_tasks min_score_adj now timeout ts pl
    = scan_done (foldl pool_step pl (omap (eligible min_score_adj) ts)).
Proof.
  induction ts as [|tsk ts IH]; intros Hok pl; [reflexivity|].
  assert (IH' := IH (fun t Ht => Hok t (or_intror Ht))).
  cbn [scan_tasks omap list_omap]. unfold eligible at 1.
  destruct (PF_KTHREAD tsk) eqn:Hk; [apply IH'|].
  destruct (Hok tsk (or_introl eq_refl)) as [Hc | Hc]; [congruence|].
  rewrite Hc.
  destruct (find_lock_task_mm tsk) as [p|]; [|apply IH'].
  destruct (oom_score_adj tsk <? min_score_adj); [apply IH'|].
  destruct (int32 (get_mm_rss tsk) <=? 0); apply IH'.
Qed.

(** C2: whatever the order in which the eligible tasks arrive, the pool
    ends up holding the three highest-ranked of them (all of them when
    there are fewer), ranked by [oom_score_adj] and then by resident
    size, and its members are tasks that were offered; for the arrivals
    (5,100), (8,50), (8,200), (3,900) it holds (5,100), (8,50), (8,200)
    and not (3,900). *)
Theorem pool_keeps_highest_ranked :
  (forall (min_score_adj : Z) (cands : list (Z * Z * Z)),
      pool_keys (pool_run min_score_adj cands)
      ≡ₚ top_ranked LOWMEM_DEATHPENDING_DEPTH (cand_key <$> cands)
      /\ (exists rej, cands ≡ₚ pool_entries (pool_run min_score_adj cands) ++ rej)
      /\ (forall cands',
            cands' ≡ₚ cands ->
            pool_keys (pool_run min_score_adj cands')
            ≡ₚ pool_keys (pool_run min_score_adj cands)))
  /\ (forall (min_score_adj p1 p2 p3 p4 : Z),
        pool_entries
          (pool_run min_score_adj
             [(p1, 5, 100); (p2, 8, 50); (p3, 8, 200); (p4, 3, 900)])
        = [(p1, 5, 100); (p2, 8, 50); (p3, 8, 200)]).
Proof.
  split; [|reflexivity].
  intros m cands.
  destruct (pool_run_inv m cands) as (rej & n & Hinv).
  split; [eapply pool_inv_top_ranked; exact Hinv|].
  split; [exists rej; apply Hinv|].
  intros cands' Hp.
  destruct (pool_run_inv m cands') as (rej' & n' & Hinv').
  rewrite (pool_inv_top_ranked _ _ _ _ Hinv), (pool_inv_top_ranked _ _ _ _ Hinv').
  unfold top_ranked.
  replace (merge_sort outranks (cand_key <$> cands'))
    with (merge_sort outranks (cand_key <$> cands)); [reflexivity|].
  apply (Sorted_unique outranks); [apply Sorted_merge_sort, _ ..|].
  rewrite !merge_sort_Permutation, Hp. reflexivity.
Qed.

(** ** The kills of a completed scan *)

Lemma kill_events_app v1 v2 :
  kill_events (v1 ++ v2) = kill_events v1 ++ kill_events v2.
Proof.
  induction v1 as [|[[p a] z] v1 IH]; simpl; [reflexivity|].
  rewrite IH. reflexivity.
Qed.

(** The kill loop signals the occupied slots, in slot order. *)
Lemma kill_fold_prefix now pl acc k :
  length (selected pl) = LOWMEM_DEATHPENDING_DEPTH ->
  length (selected_tasksize pl) = LOWMEM_DEATHPENDING_DEPTH ->
  length (selected_oom_score_adj pl) = LOWMEM_DEATHPENDING_DEPTH ->
  (k <= LOWMEM_DEATHPENDING_DEPTH)%nat ->
  (foldl (kill_step now pl) acc (seq 0 k)).2
  = acc.2 ++ kill_events
               (omap slot_entry
                  (take k (zip (selected pl)
                             (zip (selected_oom_score_adj pl)
                                (selected_tasksize pl))))).
Proof.
  intros Hls Hlz Hla. induction k as [|k IH]; intros Hk.
  - simpl. rewrite app_nil_r. reflexivity.
  - rewrite seq_S, foldl_app. simpl.
    assert (Hslot : zip (selected pl)
                      (zip (selected_oom_score_adj pl) (selected_tasksize pl)) !! k
                    = Some (selected pl !!! k,
                            (cell (selected_oom_score_adj pl) k,
                             cell (selected_tasksize pl) k))).
    { apply slots_lookup; [|apply cell_lookup; lia|apply cell_lookup; lia].
      apply list_lookup_lookup_total_lt. lia. }
    rewrite (take_S_r _ _ _ Hslot), omap_app, kill_events_app, app_assoc.
    rewrite <- IH by lia.
    destruct (foldl (kill_step now pl) acc (seq 0 k)) as [[rem g] tr].
    unfold kill_step. simpl.
    destruct (selected pl !!! k) as [p|]; simpl.
    + reflexivity.
    + rewrite app_nil_r. reflexivity.
Qed.

Lemma kill_selected_trace now pl acc :
  length (selected pl) = LOWMEM_DEATHPENDING_DEPTH ->
  length (selected_tasksize pl) = LOWMEM_DEATHPENDING_DEPTH ->
  length (selected_oom_score_adj pl) = LOWMEM_DEATHPENDING_DEPTH ->
  (kill_selected now pl acc).2 = acc.2 ++ kill_events (pool_entries pl).
Proof.
  intros Hls Hlz Hla. unfold kill_selected.
  rewrite kill_fold_prefix by (assumption || lia).
  rewrite take_ge; [reflexivity|].
  rewrite length_zip_with, length_zip_with. lia.
Qed.

(** A scan that takes the lock, finds a tier crossed and is not stopped
    by the hysteresis gate signals the tasks of the pool built from the
    eligible processes, and nobody else. *)
Lemma completed_scan_kills_pool g h nr_to_scan :
  0 < nr_to_scan ->
  scan_mutex g = false ->
  min_score_adj_of g h <> OOM_SCORE_ADJ_MAX + 1 ->
  (forall t, In t (tasks h) ->
     PF_KTHREAD t = true
     \/ time_before_eq (jiffies h) (lowmem_deathpending_timeout g)
        && test_task_flag t = false) ->
  trace (lowmem_shrink g h nr_to_scan)
  = [atomic_set_lmk_running 1]
    ++ kill_events
         (pool_entries
            (pool_run (min_score_adj_of g h)
               (omap (eligible (min_score_adj_of g h)) (tasks h))))
    ++ [atomic_set_lmk_running 0].
Proof.
  intros Hnr Hfree Hmin Hok. unfold lowmem_shrink.
  apply Z.ltb_lt in Hnr. rewrite Hnr, Hfree. simpl.
  rewrite min_score_adj_of_locked.
  assert (Hle : (nr_to_scan <=? 0) = false) by (apply Z.leb_gt, Z.ltb_lt, Hnr).
  rewrite Hle. apply Z.eqb_neq in Hmin. rewrite Hmin. simpl.
  rewrite fork_boosted_locked.
  match goal with
  | |- context [scan_tasks ?m ?n ?t ?ts ?pl0] =>
      replace (scan_tasks m n t ts pl0)
        with (scan_done (pool_run m (omap (eligible m) ts)))
  end.
  2:{ symmetry. apply scan_tasks_done.
      destruct (fork_boosted g h); exact Hok. }
  destruct (pool_run_inv (min_score_adj_of g h)
              (omap (eligible (min_score_adj_of g h)) (tasks h)))
    as (rej & n & (Hls & Hlz & Hla & _)).
  match goal with
  | |- context [kill_selected ?n ?pl ?acc] =>
      pose proof (kill_selected_trace n pl acc Hls Hlz Hla) as Htr;
      destruct (kill_selected n pl acc) as [[rem' g'] tr']
  end.
  simpl in Htr. subst tr'. simpl. reflexivity.
Qed.

(** * Further properties of the driver *)

(** ** The kill loop over the occupied slots *)

Lemma int32_idem z : int32 (int32 z) = int32 z.
Proof. rewrite (int32_decompose z) at 1. apply int32_periodic. Qed.

Lemma int32_sub_l a b : int32 (int32 a - b) = int32 (a - b).
Proof.
  rewrite (int32_decompose a).
  replace (a + - ((a + 2 ^ 31) / 2 ^ 32) * 2 ^ 32 - b)
    with (a - b + - ((a + 2 ^ 31) / 2 ^ 32) * 2 ^ 32) by lia.
  apply int32_periodic.
Qed.

(** The loop over the slot indices is a loop over the occupied slots. *)
Lemma kill_fold_entries now pl acc k :
  length (selected pl) = LOWMEM_DEATHPENDING_DEPTH ->
  length (selected_tasksize pl) = LOWMEM_DEATHPENDING_DEPTH ->
  length (selected_oom_score_adj pl) = LOWMEM_DEATHPENDING_DEPTH ->
  (k <= LOWMEM_DEATHPENDING_DEPTH)%nat ->
  foldl (kill_step now pl) acc (seq 0 k)
  = foldl (kill_entry now) acc
      (omap slot_entry
         (take k (zip (selected pl)
                    (zip (selected_oom_score_adj pl) (selected_tasksize pl))))).
Proof.
  intros Hls Hlz Hla. induction k as [|k IH]; intros Hk; [reflexivity|].
  rewrite seq_S, foldl_app. cbn [foldl]. simpl (0 + k)%nat.
  assert (Hslot : zip (selected pl)
                    (zip (selected_oom_score_adj pl) (selected_tasksize pl)) !! k
                  = Some (selected pl !!! k,
                          (cell (selected_oom_score_adj pl) k,
                           cell (selected_tasksize pl) k))).
  { apply slots_lookup; [|apply cell_lookup; lia|apply cell_lookup; lia].
    apply list_lookup_lookup_total_lt. lia. }
  rewrite (take_S_r _ _ _ Hslot), omap_app, foldl_app, <- IH by lia.
  destruct (foldl (kill_step now pl) acc (seq 0 k)) as [[rem g] tr].
  unfold kill_step. cbn [omap list_omap slot_entry].
  destruct (selected pl !!! k) as [p|]; reflexivity.
Qed.

Lemma kill_selected_entries now pl acc :
  length (selected pl) = LOWMEM_DEATHPENDING_DEPTH ->
  length (selected_tasksize pl) = LOWMEM_DEATHPENDING_DEPTH ->
  length (selected_oom_score_adj pl) = LOWMEM_DEATHPENDING_DEPTH ->
  kill_selected now pl acc = foldl (kill_entry now) acc (pool_entries pl).
Proof.
  intros Hls Hlz Hla. unfold kill_selected.
  rewrite kill_fold_entries by (assumption || lia).
  rewrite take_ge; [reflexivity|].
  rewrite length_zip_with, length_zip_with. lia.
Qed.

(** What the kill loop leaves: the estimate, the counter, the deadline
    and the trace; every other global is as before. *)
Lemma kill_entries_spec now vs :
  forall rem g tr,
    int32 rem = rem ->
    let r := foldl (kill_entry now) (rem, g, tr) vs in
    r.1.1 = int32 (rem - tasksize_sum vs)
    /\ r.2 = tr ++ kill_events vs
    /\ wrap32 (lmk_count r.1.2) = wrap32 (lmk_count g + Z.of_nat (length vs))
    /\ lowmem_deathpending_timeout r.1.2
       = (if decide (vs = []) then lowmem_deathpending_timeout g
          else wrap32 (now + HZ))
    /\ s_reclaim r.1.2 = s_reclaim g
    /\ scan_mutex r.1.2 = scan_mutex g
    /\ lowmem_adj r.1.2 = lowmem_adj g
    /\ lowmem_adj_size r.1.2 = lowmem_adj_size g
    /\ lowmem_minfree r.1.2 = lowmem_minfree g
    /\ lowmem_minfree_size r.1.2 = lowmem_minfree_size g
    /\ lowmem_fork_boost_minfree r.1.2 = lowmem_fork_boost_minfree g
    /\ minfree_tmp r.1.2 = minfree_tmp g
    /\ lowmem_fork_boost r.1.2 = lowmem_fork_boost g
    /\ lowmem_fork_boost_timeout r.1.2 = lowmem_fork_boost_timeout g.
Proof.
  induction vs as [|[[p a] z] vs IH]; intros rem g tr Hrem; cbn [foldl].
  - simpl. rewrite Z.sub_0_r, Hrem, app_nil_r, Z.add_0_r. repeat split.
  - specialize (IH (int32 (rem - z))
                  (with_lmk_count (wrap32 (lmk_count g + 1))
                     (with_lowmem_deathpending_timeout (wrap32 (now + HZ)) g))
                  (tr ++ [send_sig SIGKILL p; set_tsk_thread_flag_MEMDIE p])
                  (int32_idem _)).
    cbn zeta in IH.
    assert (Hstep : kill_entry now (rem, g, tr) (p, a, z)
                    = (int32 (rem - z),
                       with_lmk_count (wrap32 (lmk_count g + 1))
                         (with_lowmem_deathpending_timeout (wrap32 (now + HZ)) g),
                       tr ++ [send_sig SIGKILL p; set_tsk_thread_flag_MEMDIE p]))
      by reflexivity.
    rewrite Hstep. cbn zeta.
    destruct IH as (H1 & H2 & H3 & H4 & Hrest).
    split; [|split; [|split; [|split]]].
    + rewrite H1, int32_sub_l. f_equal. simpl. lia.
    + rewrite H2, <- app_assoc. reflexivity.
    + rewrite H3. cbn [lmk_count with_lmk_count].
      rewrite wrap32_add_l. f_equal. cbn [length]. lia.
    + rewrite H4. destruct (decide (vs = [])); reflexivity.
    + exact Hrest.
Qed.

Lemma rem_of_int32 h : int32 (rem_of h) = rem_of h.
Proof. unfold rem_of. apply int32_idem. Qed.

(** A scan that is not stopped has offered the pool every eligible
    process, in order. *)
Lemma scan_tasks_done_inv min_score_adj now timeout ts :
  forall pl pl',
    scan_tasks min_score_adj now timeout ts pl = scan_done pl' ->
    pl' = foldl pool_step pl (omap (eligible min_score_adj) ts).
Proof.
  induction ts as [|tsk ts IH]; intros pl pl' Hscan.
  - injection Hscan as <-. reflexivity.
  - cbn [scan_tasks] in Hscan. cbn [omap list_omap]. unfold eligible at 1.
    destruct (PF_KTHREAD tsk); [apply IH; exact Hscan|].
    destruct (time_before_eq now timeout && test_task_flag tsk); [discriminate|].
    destruct (find_lock_task_mm tsk) as [p|]; [|apply IH; exact Hscan].
    destruct (oom_score_adj tsk <? min_score_adj); [apply IH; exact Hscan|].
    destruct (int32 (get_mm_rss tsk) <=? 0); apply IH; exact Hscan.
Qed.

(** The paths of [lowmem_shrink], with the kill loop written over the
    victims. *)
Lemma lowmem_shrink_paths g h nr_to_scan :
  lowmem_shrink g h nr_to_scan
  = if (0 <? nr_to_scan) && scan_mutex g then
      {| ret := 0; globals := g; trace := backoff_sleep h |}
    else if (nr_to_scan <=? 0)
            || (min_score_adj_of g h =? OOM_SCORE_ADJ_MAX + 1) then
      {| ret := rem_of h;
         globals := if 0 <? nr_to_scan
                    then mutex_unlock (entered g h nr_to_scan)
                    else entered g h nr_to_scan;
         trace := [] |}
    else
      match scan_tasks (min_score_adj_of g h) (jiffies h)
              (lowmem_deathpending_timeout g) (tasks h)
              (pool_init (min_score_adj_of g h)) with
      | scan_abort _ =>
          {| ret := 0;
             globals := mutex_unlock
                          (set_lmk_running 0
                             (set_lmk_running 1 (entered g h nr_to_scan)));
             trace := [atomic_set_lmk_running 1; atomic_set_lmk_running 0]
                      ++ backoff_sleep h |}
      | scan_done _ =>
          let r := foldl (kill_entry (jiffies h))
                     (rem_of h, set_lmk_running 1 (entered g h nr_to_scan),
                      [atomic_set_lmk_running 1])
                     (victims_of g h) in
          {| ret := r.1.1;
             globals := mutex_unlock (set_lmk_running 0 r.1.2);
             trace := r.2 ++ [atomic_set_lmk_running 0] |}
      end.
Proof.
  unfold lowmem_shrink, entered.
  destruct ((0 <? nr_to_scan) && scan_mutex g); [reflexivity|].
  assert (Hm : min_score_adj_of
                 (if 0 <? nr_to_scan then with_scan_mutex true g else g) h
               = min_score_adj_of g h)
    by (destruct (0 <? nr_to_scan); reflexivity).
  rewrite Hm.
  destruct ((nr_to_scan <=? 0)
            || (min_score_adj_of g h =? OOM_SCORE_ADJ_MAX + 1)); [reflexivity|].
  assert (Hd : lowmem_deathpending_timeout
                 (set_lmk_running 1
                    (if fork_boosted
                          (if 0 <? nr_to_scan then with_scan_mutex true g else g) h
                     then with_minfree_tmp
                            (boost_minfree
                               (if 0 <? nr_to_scan then with_scan_mutex true g else g))
                            (if 0 <? nr_to_scan then with_scan_mutex true g else g)
                     else if 0 <? nr_to_scan then with_scan_mutex true g else g))
               = lowmem_deathpending_timeout g)
    by (destruct (0 <? nr_to_scan); destruct (fork_boosted _ h); reflexivity).
  rewrite Hd.
  destruct (scan_tasks _ _ _ _ _) as [|pl] eqn:Hscan; [reflexivity|].
  apply scan_tasks_done_inv in Hscan. fold (pool_run (min_score_adj_of g h)
    (omap (eligible (min_score_adj_of g h)) (tasks h))) in Hscan.
  destruct (pool_run_inv (min_score_adj_of g h)
              (omap (eligible (min_score_adj_of g h)) (tasks h)))
    as (rej & n & (Hls & Hlz & Hla & _)).
  rewrite <- Hscan in Hls, Hlz, Hla.
  rewrite (kill_selected_entries _ pl _ Hls Hlz Hla).
  unfold victims_of. rewrite <- Hscan.
  destruct (foldl _ _ (pool_entries pl)) as [[rem' g'] tr']. reflexivity.
Qed.

(** ** What a call of lowmem_shrink can do *)

Lemma killed_app t1 t2 : killed (t1 ++ t2) = killed t1 ++ killed t2.
Proof.
  induction t1 as [|e t1 IH]; [reflexivity|].
  destruct e as [ms|[|] p|p|p|v]; simpl; rewrite IH; reflexivity.
Qed.

Lemma killed_kill_events vs : killed (kill_events vs) = victim_pid <$> vs.
Proof.
  induction vs as [|[[p a] z] vs IH]; [reflexivity|].
  simpl. rewrite IH. reflexivity.
Qed.

Lemma killed_backoff h : killed (backoff_sleep h) = [].
Proof. unfold backoff_sleep. destruct (negb _); reflexivity. Qed.

Lemma entered_fields g h nr_to_scan :
  lmk_count (entered g h nr_to_scan) = lmk_count g
  /\ lowmem_deathpending_timeout (entered g h nr_to_scan)
     = lowmem_deathpending_timeout g
  /\ s_reclaim (entered g h nr_to_scan) = s_reclaim g
  /\ scan_mutex (entered g h nr_to_scan)
     = (if 0 <? nr_to_scan then true else scan_mutex g)
  /\ same_tables g (entered g h nr_to_scan).
Proof.
  unfold entered, same_tables.
  destruct (0 <? nr_to_scan).
  - rewrite fork_boosted_locked.
    destruct (fork_boosted g h); cbn; auto 20.
  - destruct (fork_boosted g h); cbn; auto 20.
Qed.

(** A call either signals nobody and leaves the kill counter and the
    deadline alone, or it is a scan that took the lock with a tier
    crossed and went through the kill loop over its victims. *)
Lemma lowmem_shrink_cases g h nr_to_scan :
  let o := lowmem_shrink g h nr_to_scan in
  (killed (trace o) = []
   /\ lmk_count (globals o) = lmk_count g
   /\ lowmem_deathpending_timeout (globals o) = lowmem_deathpending_timeout g)
  \/ (0 < nr_to_scan /\ scan_mutex g = false
      /\ min_score_adj_of g h <> OOM_SCORE_ADJ_MAX + 1
      /\ trace o = [atomic_set_lmk_running 1]
                   ++ kill_events (victims_of g h)
                   ++ [atomic_set_lmk_running 0]
      /\ ret o = int32 (rem_of h - tasksize_sum (victims_of g h))
      /\ wrap32 (lmk_count (globals o))
         = wrap32 (lmk_count g + Z.of_nat (length (victims_of g h)))
      /\ lowmem_deathpending_timeout (globals o)
         = (if decide (victims_of g h = []) then lowmem_deathpending_timeout g
            else wrap32 (jiffies h + HZ))).
Proof.
  intros o. subst o. rewrite lowmem_shrink_paths.
  destruct (entered_fields g h nr_to_scan) as (Hc & Hd & Hs & Hm & Ht).
  destruct ((0 <? nr_to_scan) && scan_mutex g) eqn:Hbusy.
  { left. cbn. rewrite killed_backoff. auto. }
  destruct ((nr_to_scan <=? 0)
            || (min_score_adj_of g h =? OOM_SCORE_ADJ_MAX + 1)) eqn:Hquiet.
  { left. cbn. destruct (0 <? nr_to_scan); cbn; auto. }
  apply orb_false_iff in Hquiet as [Hnr Hmin].
  apply Z.leb_gt in Hnr. apply Z.eqb_neq in Hmin.
  assert (Hfree : scan_mutex g = false).
  { apply andb_false_iff in Hbusy as [Hb | Hb]; [|exact Hb].
    apply Z.ltb_ge in Hb. lia. }
  destruct (scan_tasks _ _ _ _ _) as [|pl].
  { left. cbn. rewrite killed_backoff. auto. }
  right. cbn zeta.
  pose proof (kill_entries_spec (jiffies h) (victims_of g h) (rem_of h)
                (set_lmk_running 1 (entered g h nr_to_scan))
                [atomic_set_lmk_running 1] (rem_of_int32 h))
    as (H1 & H2 & H3 & H4 & _).
  cbn zeta in H1, H2, H3, H4. cbn [ret globals trace].
  split; [exact Hnr|]. split; [exact Hfree|]. split; [exact Hmin|].
  split; [rewrite H2, <- app_assoc; reflexivity|].
  split; [exact H1|].
  split.
  - etrans; [exact H3|]. cbn. rewrite Hc. reflexivity.
  - etrans; [exact H4|]. cbn. rewrite Hd. reflexivity.
Qed.

Lemma lowmem_shrink_mutex (g : lmk) (h : host) (nr_to_scan : Z) :
  scan_mutex (globals (lowmem_shrink g h nr_to_scan)) = scan_mutex g.
Proof.
  rewrite lowmem_shrink_paths.
  destruct (entered_fields g h nr_to_scan) as (_ & _ & _ & Hm & _).
  destruct (Z.ltb_spec 0 nr_to_scan) as [Hpos|Hnpos].
  - destruct (scan_mutex g) eqn:Hlock; cbn; [exact Hlock|].
    destruct (_ || _); [reflexivity|].
    destruct (scan_tasks _ _ _ _ _); reflexivity.
  - cbn. apply Z.leb_le in Hnpos. rewrite Hnpos. cbn. exact Hm.
Qed.

(** X3: every call of [lowmem_shrink] leaves the scan lock as it found
    it: a call that takes the lock releases it on each of its exits, and
    a call that does not take it does not release it. *)
Theorem lowmem_shrink_lock_balanced (g : lmk) (h : host) (nr_to_scan : Z) :
  scan_mutex (globals (lowmem_shrink g h nr_to_scan)) = scan_mutex g.
Proof. exact (lowmem_shrink_mutex g h nr_to_scan). Qed.

Lemma victims_of_inv g h :
  exists rej n,
    pool_inv (pool_run (min_score_adj_of g h)
                (omap (eligible (min_score_adj_of g h)) (tasks h)))
      (omap (eligible (min_score_adj_of g h)) (tasks h)) rej n.
Proof. apply pool_run_inv. Qed.

Lemma victims_of_length g h :
  (length (victims_of g h) <= LOWMEM_DEATHPENDING_DEPTH)%nat.
Proof.
  destruct (victims_of_inv g h) as (rej & n & (_ & _ & _ & Hn & _ & _ & _ & Hlen & _)).
  unfold victims_of. rewrite Hlen. exact Hn.
Qed.

Lemma lowmem_shrink_killed g h nr_to_scan :
  killed (trace (lowmem_shrink g h nr_to_scan)) = []
  \/ killed (trace (lowmem_shrink g h nr_to_scan)) = victim_pid <$> victims_of g h.
Proof.
  destruct (lowmem_shrink_cases g h nr_to_scan) as [(Hk & _) | (_ & _ & _ & Htr & _)];
    [left; exact Hk|].
  right. rewrite Htr, !killed_app, killed_kill_events. cbn.
  apply app_nil_r.
Qed.

(** X4: no call of [lowmem_shrink] sends more than
    LOWMEM_DEATHPENDING_DEPTH (three) SIGKILLs. *)
Theorem at_most_three_kills (g : lmk) (h : host) (nr_to_scan : Z) :
  (length (killed (trace (lowmem_shrink g h nr_to_scan)))
   <= LOWMEM_DEATHPENDING_DEPTH)%nat.
Proof.
  destruct (lowmem_shrink_killed g h nr_to_scan) as [-> | ->].
  - simpl. lia.
  - rewrite length_fmap. apply victims_of_length.
Qed.

Lemma eligible_Some min_score_adj t c :
  eligible min_score_adj t = Some c ->
  PF_KTHREAD t = false
  /\ find_lock_task_mm t = Some c.1.1
  /\ min_score_adj <= oom_score_adj t
  /\ 0 < int32 (get_mm_rss t)
  /\ c.1.2 = oom_score_adj t
  /\ c.2 = int32 (get_mm_rss t).
Proof.
  unfold eligible.
  destruct (PF_KTHREAD t); [discriminate|].
  destruct (find_lock_task_mm t) as [p|]; [|discriminate].
  destruct (Z.ltb_spec (oom_score_adj t) min_score_adj); [discriminate|].
  destruct (Z.leb_spec (int32 (get_mm_rss t)) 0); [discriminate|].
  intros [= <-]. cbn. auto 10.
Qed.

Lemma victims_of_eligible g h v :
  v ∈ victims_of g h ->
  exists t, In t (tasks h) /\ eligible (min_score_adj_of g h) t = Some v.
Proof.
  intros Hv.
  destruct (victims_of_inv g h) as (rej & n & (_ & _ & _ & _ & _ & _ & _ & _ & Hperm & _)).
  assert (Hc : v ∈ omap (eligible (min_score_adj_of g h)) (tasks h)).
  { rewrite Hperm. apply elem_of_app. left. exact Hv. }
  apply list_elem_of_omap in Hc as (t & Ht & He).
  exists t. split; [apply list_elem_of_In; exact Ht | exact He].
Qed.

(** X5: whoever [lowmem_shrink] sends a SIGKILL is the owner of the
    address space of a process of the table that is not a kernel
    thread, whose [oom_score_adj] is at least the cutoff of the tier
    crossed and whose resident size is positive. *)
Theorem only_eligible_killed (g : lmk) (h : host) (nr_to_scan p : Z) :
  In p (killed (trace (lowmem_shrink g h nr_to_scan))) ->
  exists t,
    In t (tasks h)
    /\ PF_KTHREAD t = false
    /\ find_lock_task_mm t = Some p
    /\ min_score_adj_of g h <= oom_score_adj t
    /\ 0 < int32 (get_mm_rss t).
Proof.
  intros Hin.
  destruct (lowmem_shrink_killed g h nr_to_scan) as [Hk | Hk];
    rewrite Hk in Hin; [destruct Hin|].
  apply list_elem_of_In, list_elem_of_fmap in Hin as (v & -> & Hv).
  destruct (victims_of_eligible g h v Hv) as (t & Ht & He).
  apply eligible_Some in He as (Hk' & Hmm & Hadj & Hrss & _).
  exists t. auto.
Qed.

Lemma eligible_pids_sublist min_score_adj ts :
  victim_pid <$> omap (eligible min_score_adj) ts
  `sublist_of` omap find_lock_task_mm ts.
Proof.
  induction ts as [|t ts IH]; [constructor|].
  cbn [omap list_omap]. destruct (eligible min_score_adj t) as [c|] eqn:He.
  - apply eligible_Some in He as (_ & Hmm & _). rewrite Hmm. cbn.
    apply sublist_skip. exact IH.
  - destruct (find_lock_task_mm t); [apply sublist_cons|]; exact IH.
Qed.

(** X6: when the processes of the table have their address spaces owned
    by different threads, no thread is sent two SIGKILLs in one call. *)
Theorem no_double_kill (g : lmk) (h : host) (nr_to_scan : Z) :
  NoDup (omap find_lock_task_mm (tasks h)) ->
  NoDup (killed (trace (lowmem_shrink g h nr_to_scan))).
Proof.
  intros Hnd.
  destruct (lowmem_shrink_killed g h nr_to_scan) as [-> | ->]; [constructor|].
  destruct (victims_of_inv g h) as (rej & n & (_ & _ & _ & _ & _ & _ & _ & _ & Hperm & _)).
  assert (Hc : NoDup (victim_pid <$> omap (eligible (min_score_adj_of g h)) (tasks h))).
  { eapply sublist_NoDup; [exact Hnd | apply eligible_pids_sublist]. }
  rewrite Hperm, fmap_app in Hc. apply NoDup_app in Hc as (Hv & _).
  exact Hv.
Qed.

(** X7: a scan that takes the lock, finds a tier crossed and is not
    stopped by the hysteresis gate sends its SIGKILLs to the victims of
    the pool, returns the LRU page count less their resident sizes (as
    an [int]), adds their number to [lmk_count] (as a [uint32_t]) and,
    when there is a victim, sets the deadline to [jiffies + HZ]; without
    a victim the deadline stays. *)
Theorem completed_scan_accounting (g : lmk) (h : host) (nr_to_scan : Z) :
  0 < nr_to_scan ->
  scan_mutex g = false ->
  min_score_adj_of g h <> OOM_SCORE_ADJ_MAX + 1 ->
  (forall t, In t (tasks h) ->
     PF_KTHREAD t = true
     \/ time_before_eq (jiffies h) (lowmem_deathpending_timeout g)
        && test_task_flag t = false) ->
  let o := lowmem_shrink g h nr_to_scan in
  killed (trace o) = victim_pid <$> victims_of g h
  /\ ret o = int32 (rem_of h - tasksize_sum (victims_of g h))
  /\ wrap32 (lmk_count (globals o))
     = wrap32 (lmk_count g + Z.of_nat (length (victims_of g h)))
  /\ lowmem_deathpending_timeout (globals o)
     = (if decide (victims_of g h = []) then lowmem_deathpending_timeout g
        else wrap32 (jiffies h + HZ)).
Proof.
  intros Hnr Hfree Hmin Hok o. subst o. rewrite lowmem_shrink_paths.
  destruct (entered_fields g h nr_to_scan) as (Hc & Hd & _).
  assert (H1 : (0 <? nr_to_scan) && scan_mutex g = false)
    by (rewrite Hfree; apply andb_false_r).
  assert (H2 : (nr_to_scan <=? 0)
               || (min_score_adj_of g h =? OOM_SCORE_ADJ_MAX + 1) = false).
  { apply orb_false_iff. split; [apply Z.leb_gt; exact Hnr|].
    apply Z.eqb_neq. exact Hmin. }
  rewrite H1, H2, (scan_tasks_done _ _ _ _ Hok). cbn zeta.
  pose proof (kill_entries_spec (jiffies h) (victims_of g h) (rem_of h)
                (set_lmk_running 1 (entered g h nr_to_scan))
                [atomic_set_lmk_running 1] (rem_of_int32 h))
    as (E1 & E2 & E3 & E4 & _).
  cbn zeta in E1, E2, E3, E4. cbn [ret globals trace].
  split.
  { rewrite E2, !killed_app, killed_kill_events. cbn. apply app_nil_r. }
  split; [exact E1|].
  split.
  - etrans; [exact E3|]. cbn. rewrite Hc. reflexivity.
  - etrans; [exact E4|]. cbn. rewrite Hd. reflexivity.
Qed.

(** ** The tables across calls *)

Lemma fill_cells_length (f : nat -> Z) n :
  forall a (tmp : list Z),
    length (foldl (fun tmp i => <[i := f i]> tmp) tmp (seq a n)) = length tmp.
Proof.
  induction n as [|n IH]; intros a tmp; [reflexivity|].
  cbn [seq foldl]. rewrite IH. apply length_insert.
Qed.

Lemma fill_cells_lookup_any (f : nat -> Z) n :
  forall a (tmp : list Z) j,
    cell (foldl (fun tmp i => <[i := f i]> tmp) tmp (seq a n)) j
    = if decide ((a <= j < a + n)%nat /\ (j < length tmp)%nat)
      then f j else cell tmp j.
Proof.
  intros a tmp j. destruct (decide (j < length tmp)%nat) as [Hj|Hj].
  - rewrite fill_cells_lookup by exact Hj.
    destruct (decide (a <= j < a + n)%nat) as [Hr|Hr];
      destruct (decide _) as [Hr'|Hr']; try reflexivity; exfalso; tauto.
  - destruct (decide _) as [[_ Hr]|_]; [contradiction|].
    revert a tmp Hj. induction n as [|n IH]; intros a tmp Hj; [reflexivity|].
    cbn [seq foldl]. rewrite IH by (rewrite length_insert; exact Hj).
    unfold cell. destruct (decide (a = j)) as [->|Hne].
    + rewrite list_insert_ge by lia. reflexivity.
    + rewrite (list_lookup_total_insert_ne tmp a j (f a) Hne). reflexivity.
Qed.

Lemma scan_thresholds_ext (c1 c2 : nat -> bool) idxs :
  (forall i, i ∈ idxs -> c1 i = c2 i) ->
  scan_thresholds c1 idxs = scan_thresholds c2 idxs.
Proof.
  induction idxs as [|i idxs IH]; intros Hext; [reflexivity|].
  cbn [scan_thresholds]. rewrite (Hext i) by (apply elem_of_cons; auto).
  rewrite IH; [reflexivity|].
  intros j Hj. apply Hext. apply elem_of_cons. auto.
Qed.

(** The lookup reads the tables, not what an earlier boosted lookup left
    in [minfree_tmp]. *)
Lemma same_tables_lookup g g' h :
  same_tables g g' -> lowmem_tier g' h = lowmem_tier g h.
Proof.
  intros (Ha & Has & Hm & Hms & Hb & _ & Hfb & Hft & Htmp).
  assert (Hboost : fork_boosted g' h = fork_boosted g h)
    by (unfold fork_boosted; rewrite Hfb, Hft; reflexivity).
  assert (Hsize : array_size_of g' = array_size_of g)
    by (unfold array_size_of; rewrite Has, Hms; reflexivity).
  unfold lowmem_tier. rewrite Hboost, Hsize.
  apply scan_thresholds_ext. intros i Hi. apply elem_of_seq in Hi.
  f_equal. unfold min_array_of.
  destruct (fork_boosted g h); [|rewrite Hm; reflexivity].
  unfold boost_minfree. rewrite Hm, Hb, Hms.
  destruct Htmp as [-> | ->]; [reflexivity|].
  unfold boost_minfree.
  rewrite !fill_cells_lookup_any, fill_cells_length.
  destruct (decide _); reflexivity.
Qed.

Lemma kill_entries_boost_size now vs :
  forall acc,
    lowmem_fork_boost_minfree_size (foldl (kill_entry now) acc vs).1.2
    = lowmem_fork_boost_minfree_size acc.1.2.
Proof.
  induction vs as [|[[p a] z] vs IH]; intros [[rem g] tr]; cbn [foldl];
    [reflexivity|].
  rewrite IH. reflexivity.
Qed.

Lemma lowmem_shrink_same_tables g h nr_to_scan :
  same_tables g (globals (lowmem_shrink g h nr_to_scan)).
Proof.
  rewrite lowmem_shrink_paths.
  destruct (entered_fields g h nr_to_scan) as (_ & _ & _ & _ & Ht).
  assert (Hg : same_tables g g) by (unfold same_tables; auto 10).
  destruct (_ && _); [exact Hg|].
  destruct (_ || _); [destruct (0 <? nr_to_scan); exact Ht|].
  destruct (scan_tasks _ _ _ _ _); [exact Ht|].
  cbn zeta.
  pose proof (kill_entries_spec (jiffies h) (victims_of g h) (rem_of h)
                (set_lmk_running 1 (entered g h nr_to_scan))
                [atomic_set_lmk_running 1] (rem_of_int32 h))
    as (_ & _ & _ & _ & _ & _ & K1 & K2 & K3 & K4 & K5 & K6 & K7 & K8).
  cbn zeta in K1, K2, K3, K4, K5, K6, K7, K8.
  destruct Ht as (T1 & T2 & T3 & T4 & T5 & Ts & T6 & T7 & T8).
  unfold same_tables. cbn [globals].
  split; [etrans; [exact K1 | exact T1]|].
  split; [etrans; [exact K2 | exact T2]|].
  split; [etrans; [exact K3 | exact T3]|].
  split; [etrans; [exact K4 | exact T4]|].
  split; [etrans; [exact K5 | exact T5]|].
  split; [etrans; [apply kill_entries_boost_size | exact Ts]|].
  split; [etrans; [exact K7 | exact T6]|].
  split; [etrans; [exact K8 | exact T7]|].
  destruct T8 as [T8 | T8]; [left | right]; (etrans; [exact K6 | exact T8]).
Qed.

Lemma lookup_after_scan (g : lmk) (h h' : host) (nr_to_scan : Z) :
  lowmem_tier (globals (lowmem_shrink g h nr_to_scan)) h' = lowmem_tier g h'
  /\ min_score_adj_of (globals (lowmem_shrink g h nr_to_scan)) h'
     = min_score_adj_of g h'.
Proof.
  pose proof (lowmem_shrink_same_tables g h nr_to_scan) as Ht.
  pose proof (same_tables_lookup _ _ h' Ht) as Hl.
  split; [exact Hl|].
  unfold min_score_adj_of. rewrite Hl.
  destruct Ht as (-> & _). reflexivity.
Qed.

(** X8: a call of [lowmem_shrink] changes none of the three tables,
    none of their sizes, and neither the boost switch nor the boost
    deadline; and the scratch array a boosted call fills does not reach
    a later lookup: on any reading, the lookup after the call finds the
    tier, and the cutoff, it would have found before the call. *)
Theorem lookup_unchanged_by_scan (g : lmk) (h h' : host) (nr_to_scan : Z) :
  let g' := globals (lowmem_shrink g h nr_to_scan) in
  (lowmem_adj g' = lowmem_adj g
   /\ lowmem_adj_size g' = lowmem_adj_size g
   /\ lowmem_minfree g' = lowmem_minfree g
   /\ lowmem_minfree_size g' = lowmem_minfree_size g
   /\ lowmem_fork_boost_minfree g' = lowmem_fork_boost_minfree g
   /\ lowmem_fork_boost_minfree_size g' = lowmem_fork_boost_minfree_size g
   /\ lowmem_fork_boost g' = lowmem_fork_boost g
   /\ lowmem_fork_boost_timeout g' = lowmem_fork_boost_timeout g)
  /\ lowmem_tier g' h' = lowmem_tier g h'
  /\ min_score_adj_of g' h' = min_score_adj_of g h'.
Proof.
  intros g'. subst g'.
  destruct (lowmem_shrink_same_tables g h nr_to_scan)
    as (T1 & T2 & T3 & T4 & T5 & T6 & T7 & T8 & _).
  split; [auto 10|].
  exact (lookup_after_scan g h h' nr_to_scan).
Qed.

(** ** Two scans in a row *)

Lemma lowmem_shrink_aborts g h nr_to_scan victim :
  0 < nr_to_scan ->
  scan_mutex g = false ->
  min_score_adj_of g h <> OOM_SCORE_ADJ_MAX + 1 ->
  time_before_eq (jiffies h) (lowmem_deathpending_timeout g) = true ->
  In victim (tasks h) ->
  PF_KTHREAD victim = false ->
  test_task_flag victim = true ->
  ret (lowmem_shrink g h nr_to_scan) = 0
  /\ killed (trace (lowmem_shrink g h nr_to_scan)) = [].
Proof.
  intros Hnr Hfree Hmin Hopen Hin Hk Hflag. rewrite lowmem_shrink_paths.
  assert (H1 : (0 <? nr_to_scan) && scan_mutex g = false)
    by (rewrite Hfree; apply andb_false_r).
  assert (H2 : (nr_to_scan <=? 0)
               || (min_score_adj_of g h =? OOM_SCORE_ADJ_MAX + 1) = false).
  { apply orb_false_iff. split; [apply Z.leb_gt; exact Hnr|].
    apply Z.eqb_neq. exact Hmin. }
  rewrite H1, H2.
  destruct (scan_tasks_abort (min_score_adj_of g h) _ _ _ victim
              Hopen Hin Hk Hflag (pool_init (min_score_adj_of g h)))
    as [pl' ->].
  cbn. rewrite killed_backoff. auto.
Qed.

(** X9: after a call that has killed, a scan started within [HZ] ticks
    that meets a process still flagged TIF_MEMDIE returns 0 and kills
    nobody, whatever the pressure: the first call left the lock free and
    the deadline at its own [jiffies + HZ]. *)
Theorem second_scan_within_window (g : lmk) (h1 h2 : host)
    (nr1 nr2 d : Z) (victim : task_struct) :
  killed (trace (lowmem_shrink g h1 nr1)) <> [] ->
  0 < nr2 ->
  HZ < 2 ^ 31 ->
  jiffies h2 = wrap32 (jiffies h1 + d) ->
  0 <= d <= HZ ->
  min_score_adj_of g h2 <> OOM_SCORE_ADJ_MAX + 1 ->
  In victim (tasks h2) ->
  PF_KTHREAD victim = false ->
  test_task_flag victim = true ->
  ret (lowmem_shrink (globals (lowmem_shrink g h1 nr1)) h2 nr2) = 0
  /\ killed (trace (lowmem_shrink (globals (lowmem_shrink g h1 nr1)) h2 nr2)) = [].
Proof.
  intros Hkill Hnr Hhz Hnow Hd Hmin Hin Hk Hflag.
  destruct (lowmem_shrink_cases g h1 nr1)
    as [(Hnone & _) | (_ & Hfree & _ & Htr & _ & _ & Hdead)];
    [contradiction|].
  assert (Hv : victims_of g h1 <> []).
  { intros Hv. apply Hkill. rewrite Htr, Hv. reflexivity. }
  destruct (decide (victims_of g h1 = [])) as [Hv'|_]; [contradiction|].
  apply (lowmem_shrink_aborts _ h2 nr2 victim); try assumption.
  - rewrite lowmem_shrink_mutex. exact Hfree.
  - rewrite (proj2 (lookup_after_scan g h1 h2 nr1)). exact Hmin.
  - rewrite Hdead, Hnow.
    rewrite <- (wrap32_add_l (jiffies h1) d), <- (wrap32_add_l (jiffies h1) HZ).
    apply time_before_eq_window; lia.
Qed.

(** ** The background trigger *)

Lemma woken_app t1 t2 : woken (t1 ++ t2) = woken t1 ++ woken t2.
Proof.
  induction t1 as [|e t1 IH]; [reflexivity|].
  destruct e; simpl; rewrite IH; reflexivity.
Qed.

Lemma could_cswap_wake_state (g : lmk) (h : host) (w : Z) :
  In w (woken (could_cswap g h).2) ->
  (need_to_reclaim (s_reclaim g) = 1
   /\ time_before (jiffies h)
        (wrap32 (prev_jiffy g + minimum_interval_time g)) = false
   /\ lmk_running (s_reclaim g) <> 1
   /\ kswapd_thread_on h <> 1
   /\ minimum_freeswap_pages g <= wrap32 (nr_swap_pages h)
   /\ kcompcached (s_reclaim g) = Some w
   /\ kcompcached_enable (s_reclaim g) <> 0
   /\ kcompcached_cpu_idle h = true
   /\ this_cpu_loadx_4 h = 0
   /\ kcompcached_running (s_reclaim g) = 0)
  /\ (could_cswap g h).2 = [wake_up_process w]
  /\ kcompcached_running (s_reclaim (could_cswap g h).1) = 1
  /\ prev_jiffy (could_cswap g h).1 = jiffies h.
Proof.
  unfold could_cswap.
  destruct ((hidden_cgroup_counter g <=? 0)
            && negb (need_to_reclaim (s_reclaim g) =? 1)) eqn:E1;
    [intros []|].
  destruct (time_before _ _) eqn:E2; [intros []|].
  destruct ((lmk_running (s_reclaim g) =? 1) || (kswapd_thread_on h =? 1)) eqn:E3;
    [intros []|].
  destruct (wrap32 (nr_swap_pages h) <? minimum_freeswap_pages g) eqn:E4;
    [intros []|].
  destruct (kcompcached (s_reclaim g)) as [worker|] eqn:E5; [|intros []].
  destruct (kcompcached_enable (s_reclaim g) =? 0) eqn:E6; [intros []|].
  destruct (kcompcached_cpu_idle h && (this_cpu_loadx_4 h =? 0)) eqn:E7;
    [|intros []].
  destruct (if (idle_report (s_reclaim g) =? 1) && (0 <? hidden_cgroup_counter g)
            then rtcc_daemon (s_reclaim g) else None) as [daemon|] eqn:E8;
    [intros []|].
  destruct (negb (need_to_reclaim (s_reclaim g) =? 1)) eqn:E9; [intros []|].
  destruct (kcompcached_running (s_reclaim g) =? 0) eqn:E10; [|intros []].
  cbn. intros [<- | []].
  apply negb_false_iff, Z.eqb_eq in E9.
  apply orb_false_iff in E3 as [E3a E3b].
  apply Z.eqb_neq in E3a, E3b, E6. apply Z.ltb_ge in E4.
  apply andb_true_iff in E7 as [E7a E7b]. apply Z.eqb_eq in E7b, E10.
  auto 20.
Qed.

(** X10: [could_cswap] wakes the reclaim thread only when a reclaim is
    requested, the interval since [prev_jiffy] has passed, neither the
    low memory killer nor kswapd runs, enough swap is free, the thread
    exists, is enabled and is not running yet, and the cpu is idle; it
    then marks the thread as running and restarts the interval. *)
Theorem could_cswap_wakes_only_when (g : lmk) (h : host) (w : Z) :
  In w (woken (could_cswap g h).2) ->
  (need_to_reclaim (s_reclaim g) = 1
   /\ time_before (jiffies h)
        (wrap32 (prev_jiffy g + minimum_interval_time g)) = false
   /\ lmk_running (s_reclaim g) <> 1
   /\ kswapd_thread_on h <> 1
   /\ minimum_freeswap_pages g <= wrap32 (nr_swap_pages h)
   /\ kcompcached (s_reclaim g) = Some w
   /\ kcompcached_enable (s_reclaim g) <> 0
   /\ kcompcached_cpu_idle h = true
   /\ this_cpu_loadx_4 h = 0
   /\ kcompcached_running (s_reclaim g) = 0)
  /\ (could_cswap g h).2 = [wake_up_process w]
  /\ kcompcached_running (s_reclaim (could_cswap g h).1) = 1
  /\ prev_jiffy (could_cswap g h).1 = jiffies h.
Proof. exact (could_cswap_wake_state g h w). Qed.

Lemma could_cswap_acted g h :
  (could_cswap g h).2 <> [] ->
  prev_jiffy (could_cswap g h).1 = jiffies h
  /\ minimum_interval_time (could_cswap g h).1 = minimum_interval_time g.
Proof.
  unfold could_cswap.
  repeat match goal with
         | |- context [if ?c then _ else _] => destruct c
         | |- context [match ?c with Some _ => _ | None => _ end] => destruct c
         end; cbn; intros Hne; try (exfalso; apply Hne; reflexivity); auto.
Qed.

Lemma could_cswap_cooldown g h :
  time_before (jiffies h) (wrap32 (prev_jiffy g + minimum_interval_time g)) = true ->
  could_cswap g h = (g, []).
Proof.
  intros Hcool. unfold could_cswap. rewrite Hcool.
  destruct (_ && _); reflexivity.
Qed.

Lemma time_before_window t d w :
  0 <= d < w -> w < 2 ^ 31 ->
  time_before (wrap32 (t + d)) (wrap32 (t + w)) = true.
Proof.
  intros Hd Hw. unfold time_before. rewrite int32_sub_wrap32.
  replace (t + d - (t + w)) with (d - w) by lia.
  rewrite int32_small by lia. apply Z.ltb_lt. lia.
Qed.

(** X11: once [could_cswap] has signalled the daemon or woken the
    thread, it does nothing at all for the next [minimum_interval_time]
    ticks. *)
Theorem could_cswap_rests_after_acting (g : lmk) (h1 h2 : host) (d : Z) :
  (could_cswap g h1).2 <> [] ->
  jiffies h2 = wrap32 (jiffies h1 + d) ->
  0 <= d < minimum_interval_time g ->
  minimum_interval_time g < 2 ^ 31 ->
  could_cswap (could_cswap g h1).1 h2 = ((could_cswap g h1).1, []).
Proof.
  intros Hact Hnow Hd Hint.
  destruct (could_cswap_acted g h1 Hact) as [Hprev Hsame].
  apply could_cswap_cooldown. rewrite Hprev, Hsame, Hnow.
  rewrite <- (wrap32_add_l (jiffies h1) d).
  rewrite <- (wrap32_add_l (jiffies h1) (minimum_interval_time g)).
  rewrite !(wrap32_add_l (jiffies h1)).
  apply time_before_window; assumption.
Qed.

Lemma could_cswap_running g h :
  kcompcached_running (s_reclaim g) <> 0 ->
  woken (could_cswap g h).2 = []
  /\ kcompcached_running (s_reclaim (could_cswap g h).1)
     = kcompcached_running (s_reclaim g).
Proof.
  intros Hrun. apply Z.eqb_neq in Hrun. unfold could_cswap. rewrite Hrun.
  repeat match goal with
         | |- context [if ?c then _ else _] => destruct c
         | |- context [match ?c with Some _ => _ | None => _ end] => destruct c
         end; cbn; auto.
Qed.

Lemma could_cswap_seq_running hs :
  forall g tr,
    kcompcached_running (s_reclaim g) <> 0 ->
    woken tr = [] ->
    let r := foldl (fun acc h =>
                      ((could_cswap acc.1 h).1, acc.2 ++ (could_cswap acc.1 h).2))
                   (g, tr) hs in
    woken r.2 = []
    /\ kcompcached_running (s_reclaim r.1) = kcompcached_running (s_reclaim g).
Proof.
  induction hs as [|h hs IH]; intros g tr Hrun Htr; [cbn; auto|].
  cbn [foldl fst snd].
  destruct (could_cswap_running g h Hrun) as [Hw Hsame].
  specialize (IH (could_cswap g h).1 (tr ++ (could_cswap g h).2)).
  cbn zeta in *. rewrite Hsame in IH. apply IH; [exact Hrun|].
  rewrite woken_app, Htr, Hw. reflexivity.
Qed.

(** X12: from a wake-up to the end of the pass it starts, whatever the
    calls of [could_cswap] in between, the thread is not woken again and
    [get_soft_reclaim_status] answers 1; the pass of [do_compcache]
    sets it back to 0. *)
Theorem one_wake_per_pass (g : lmk) (h0 h' : host) (hs : list host) (w : Z) :
  In w (woken (could_cswap g h0).2) ->
  woken (could_cswap_seq (could_cswap g h0).1 hs).2 = []
  /\ get_soft_reclaim_status (could_cswap_seq (could_cswap g h0).1 hs).1 = 1
  /\ get_soft_reclaim_status
       (do_compcache_pass (could_cswap_seq (could_cswap g h0).1 hs).1 h') = 0.
Proof.
  intros Hw.
  destruct (could_cswap_wake_state g h0 w Hw) as (_ & _ & Hrun & _).
  assert (Hne : kcompcached_running (s_reclaim (could_cswap g h0).1) <> 0)
    by (rewrite Hrun; discriminate).
  destruct (could_cswap_seq_running hs (could_cswap g h0).1 [] Hne eq_refl)
    as [Hnone Hsame].
  unfold could_cswap_seq, get_soft_reclaim_status.
  split; [exact Hnone|]. split; [rewrite Hsame; exact Hrun|].
  unfold do_compcache_pass.
  destruct (soft_reclaim _ h') as [g1 reclaimed].
  destruct (_ <? _); reflexivity.
Qed.

(** X13: while soft reclaim is disabled no sequence of calls of
    [could_cswap] signals or wakes anybody or changes a global. *)
Theorem disabled_could_cswap_is_idle (g : lmk) (hs : list host) :
  could_cswap_seq (disable_soft_reclaim g) hs = (disable_soft_reclaim g, []).
Proof.
  unfold could_cswap_seq.
  assert (Hone : forall h,
             could_cswap (disable_soft_reclaim g) h = (disable_soft_reclaim g, [])).
  { intros h. unfold could_cswap. cbn.
    repeat match goal with
           | |- context [if ?c then _ else _] => destruct c
           | |- context [match ?c with Some _ => _ | None => _ end] => destruct c
           end; reflexivity. }
  induction hs as [|h hs IH]; [reflexivity|].
  cbn [foldl fst snd]. rewrite Hone. exact IH.
Qed.

(** ** The counters of soft_reclaim *)

Lemma soft_reclaim_zone_counters r n z :
  let acc := soft_reclaim_zone (r, n) z in
  wrap32 (nr_total_soft_reclaimed acc.1)
  = wrap32 (nr_total_soft_reclaimed r + zone_reclaimed z)
  /\ wrap32 (nr_total_soft_scanned acc.1)
     = wrap32 (nr_total_soft_scanned r + zone_scanned z)
  /\ kcompcached_running acc.1 = kcompcached_running r
  /\ lmk_running acc.1 = lmk_running r
  /\ kcompcached_enable acc.1 = kcompcached_enable r
  /\ idle_report acc.1 = idle_report r
  /\ kcompcached acc.1 = kcompcached r
  /\ rtcc_daemon acc.1 = rtcc_daemon r.
Proof.
  unfold soft_reclaim_zone, zone_reclaimed, zone_scanned.
  destruct (populated_zone z); cbn.
  - destruct (all_unreclaimable z); cbn.
    + rewrite !Z.add_0_r. auto 10.
    + rewrite !wrap32_idem. auto 10.
  - rewrite !Z.add_0_r. auto 10.
Qed.

Lemma soft_reclaim_nodes_counters nodes :
  forall r n,
    let acc :=
      foldl (fun acc nd => soft_reclaim_zone (soft_reclaim_zone acc nd.1) nd.2)
            (r, n) nodes in
    wrap32 (nr_total_soft_reclaimed acc.1)
    = wrap32 (nr_total_soft_reclaimed r
              + foldr (fun nd acc => zone_reclaimed nd.1 + zone_reclaimed nd.2 + acc)
                      0 nodes)
    /\ wrap32 (nr_total_soft_scanned acc.1)
       = wrap32 (nr_total_soft_scanned r
                 + foldr (fun nd acc => zone_scanned nd.1 + zone_scanned nd.2 + acc)
                         0 nodes)
    /\ kcompcached_running acc.1 = kcompcached_running r
    /\ lmk_running acc.1 = lmk_running r
    /\ kcompcached_enable acc.1 = kcompcached_enable r
    /\ idle_report acc.1 = idle_report r
    /\ kcompcached acc.1 = kcompcached r
    /\ rtcc_daemon acc.1 = rtcc_daemon r.
Proof.
  induction nodes as [|nd nodes IH]; intros r n; cbn [foldl foldr].
  - cbn. rewrite !Z.add_0_r. auto 10.
  - destruct (soft_reclaim_zone (r, n) nd.1) as [r1 n1] eqn:H1.
    destruct (soft_reclaim_zone (r1, n1) nd.2) as [r2 n2] eqn:H2.
    pose proof (soft_reclaim_zone_counters r n nd.1) as Z1.
    pose proof (soft_reclaim_zone_counters r1 n1 nd.2) as Z2.
    rewrite H1 in Z1. rewrite H2 in Z2. cbn in Z1, Z2.
    destruct Z1 as (A1 & A2 & A3 & A4 & A5 & A6 & A7 & A8).
    destruct Z2 as (B1 & B2 & B3 & B4 & B5 & B6 & B7 & B8).
    destruct (IH r2 n2) as (C1 & C2 & C3 & C4 & C5 & C6 & C7 & C8).
    split.
    { rewrite C1, <- (wrap32_add_l (nr_total_soft_reclaimed r2)), B1, wrap32_add_l.
      rewrite <- Z.add_assoc, <- (wrap32_add_l (nr_total_soft_reclaimed r1)), A1.
      rewrite wrap32_add_l. f_equal. lia. }
    split.
    { rewrite C2, <- (wrap32_add_l (nr_total_soft_scanned r2)), B2, wrap32_add_l.
      rewrite <- Z.add_assoc, <- (wrap32_add_l (nr_total_soft_scanned r1)), A2.
      rewrite wrap32_add_l. f_equal. lia. }
    split; [congruence|]. split; [congruence|]. split; [congruence|].
    split; [congruence|]. split; congruence.
Qed.

(** X14: one call of [soft_reclaim] adds the pages reclaimed and the
    pages scanned in the zones it visits to the two running totals, as
    [unsigned long]s, and touches no flag of the reclaim state. *)
Theorem soft_reclaim_accumulates (g : lmk) (h : host) :
  let r := s_reclaim g in
  let r' := s_reclaim (soft_reclaim g h).1 in
  wrap32 (nr_total_soft_reclaimed r')
  = wrap32 (nr_total_soft_reclaimed r + pages_reclaimed h)
  /\ wrap32 (nr_total_soft_scanned r')
     = wrap32 (nr_total_soft_scanned r + pages_scanned h)
  /\ kcompcached_running r' = kcompcached_running r
  /\ need_to_reclaim r' = need_to_reclaim r
  /\ lmk_running r' = lmk_running r
  /\ kcompcached_enable r' = kcompcached_enable r
  /\ idle_report r' = idle_report r
  /\ kcompcached r' = kcompcached r
  /\ rtcc_daemon r' = rtcc_daemon r.
Proof.
  intros r r'. subst r r'.
  pose proof (soft_reclaim_spec g h) as (_ & _ & Hneed).
  unfold soft_reclaim, pages_reclaimed, pages_scanned in *.
  pose proof (soft_reclaim_nodes_counters (node_zones h) (s_reclaim g) 0)
    as (C1 & C2 & C3 & C4 & C5 & C6 & C7 & C8).
  destruct (foldl _ _ (node_zones h)) as [r n]. cbn in *.
  auto 10.
Qed.

(** ** The fork boost *)

Lemma time_before_eq_past t d w :
  w < d <= 2 ^ 31 + w ->
  time_before_eq (wrap32 (t + d)) (wrap32 (t + w)) = false.
Proof.
  intros Hd. unfold time_before_eq. rewrite int32_sub_wrap32.
  replace (t + w - (t + d)) with (w - d) by lia.
  rewrite int32_small by lia. apply Z.leb_gt. lia.
Qed.

(** X15: with [lowmem_fork_boost] set, a fork notification boosts the
    lookups of the next [2 * HZ] ticks, the last one included, and no
    lookup after them (up to half the range of [jiffies]). *)
Theorem fork_boost_window (g : lmk) (h0 h : host) (d : Z) :
  lowmem_fork_boost g <> 0 ->
  0 <= HZ -> 2 * HZ < 2 ^ 31 ->
  jiffies h = wrap32 (jiffies h0 + d) ->
  0 <= d <= 2 ^ 31 ->
  fork_boosted (task_fork_notify_func g h0) h = (d <=? 2 * HZ).
Proof.
  intros Hon Hhz Hhz2 Hnow Hd.
  unfold fork_boosted, task_fork_notify_func. cbn.
  apply Z.eqb_neq in Hon. rewrite Hon. cbn.
  rewrite Z.shiftl_mul_pow2 by lia. change (2 ^ 1) with 2.
  rewrite Hnow, <- (wrap32_add_l (jiffies h0) d).
  rewrite !(wrap32_add_l (jiffies h0)).
  destruct (Z.leb_spec d (2 * HZ)) as [Hin|Hout].
  - apply time_before_eq_window; lia.
  - apply time_before_eq_past. lia.
Qed.

Lemma scan_thresholds_le crossed n :
  forall a i,
    (a <= i < a + n)%nat -> crossed i = true ->
    exists j, (j <= i)%nat /\ scan_thresholds crossed (seq a n) = Some j.
Proof.
  induction n as [|n IH]; intros a i Hi Hc; [lia|].
  cbn [seq scan_thresholds]. destruct (crossed a) eqn:Ha.
  - exists a. split; [lia | reflexivity].
  - assert (i <> a) by (intros ->; congruence).
    apply IH; [lia | exact Hc].
Qed.

(** X16: a boost never delays the killer: when the boost amounts do not
    overflow the thresholds, a reading that crosses entry [i] with the
    boost switched off crosses an entry no later than [i] with the
    boost as it is. *)
Theorem boost_crosses_no_later (g : lmk) (h : host) (i : nat) :
  length (lowmem_minfree g) = 6%nat ->
  length (minfree_tmp g) = 6%nat ->
  lowmem_minfree_size g <= 6 ->
  (forall k, Z.of_nat k < array_size_of g ->
     0 <= cell (lowmem_minfree g) k
     /\ 0 <= cell (lowmem_fork_boost_minfree g) k
     /\ cell (lowmem_minfree g) k + cell (lowmem_fork_boost_minfree g) k < 2 ^ 32) ->
  lowmem_tier (with_lowmem_fork_boost 0 g) h = Some i ->
  exists j, (j <= i)%nat /\ lowmem_tier g h = Some j.
Proof.
  intros Hlm Hlt Hsz Hthr Hoff.
  apply lowmem_tier_first in Hoff as (Hi & Hc & _).
  change (array_size_of (with_lowmem_fork_boost 0 g)) with (array_size_of g) in Hi.
  unfold lowmem_tier.
  apply scan_thresholds_le; [lia|].
  unfold entry_crossed in Hc.
  change (fork_boosted (with_lowmem_fork_boost 0 g) h) with false in Hc.
  rewrite (min_array_cell (with_lowmem_fork_boost 0 g) false i Hlm Hlt Hsz Hi) in Hc.
  rewrite (min_array_cell g _ i Hlm Hlt Hsz Hi).
  cbn in Hc. rewrite Z.add_0_r in Hc.
  destruct (Hthr i Hi) as (H0 & Hb & Hsum).
  rewrite wrap32_small in Hc by lia.
  assert (Hge : cell (lowmem_minfree g) i
                <= wrap32 (cell (lowmem_minfree g) i
                           + (if fork_boosted g h
                              then cell (lowmem_fork_boost_minfree g) i else 0))).
  { destruct (fork_boosted g h); rewrite wrap32_small; lia. }
  unfold tier_crossed in *.
  apply andb_true_iff in Hc as [Hc1 Hc2].
  apply Z.ltb_lt in Hc1, Hc2.
  apply andb_true_iff. split; apply Z.ltb_lt; lia.
Qed.

(** X2: for readings that are not negative and thresholds a [size_t]
    holds, the lookup returns the first entry, in index order, for
    which both the free pages less the reserve and the file pages are
    below the threshold (with the boost added under a boost), and none
    when no entry is such. *)
Theorem lookup_is_first_match (g : lmk) (h : host) :
  length (lowmem_minfree g) = 6%nat ->
  length (minfree_tmp g) = 6%nat ->
  lowmem_minfree_size g <= 6 ->
  0 <= other_free_of h - reserved_free_of (zones h) < 2 ^ 31 ->
  0 <= other_file_of h < 2 ^ 31 ->
  (forall i, Z.of_nat i < array_size_of g ->
     0 <= effective_threshold g h i < 2 ^ 32) ->
  (forall i,
      lowmem_tier g h = Some i <->
      Z.of_nat i < array_size_of g /\ in_deficit g h i
      /\ (forall j, (j < i)%nat -> ~ in_deficit g h j))
  /\ (lowmem_tier g h = None <->
      (forall j, Z.of_nat j < array_size_of g -> ~ in_deficit g h j)).
Proof.
  intros Hlm Hlt Hsz Hfree Hfile Heff.
  exact (lookup_first_match g h Hlm Hlt Hsz Hfree Hfile Heff).
Qed.

(** ** The conversion of the adj parameter *)

Lemma convert_fold_lookup n :
  forall s (a : list Z) j,
    (j < length a)%nat ->
    cell (foldl (fun a i => <[i := lowmem_oom_adj_to_oom_score_adj (cell a i)]> a)
            a (seq s n)) j
    = if decide (s <= j < s + n)%nat
      then lowmem_oom_adj_to_oom_score_adj (cell a j) else cell a j.
Proof.
  induction n as [|n IH]; intros s a j Hj; cbn [seq foldl].
  - destruct (decide _) as [Hr|_]; [lia | reflexivity].
  - rewrite IH by (rewrite length_insert; exact Hj).
    assert (Hcell : cell (<[s := lowmem_oom_adj_to_oom_score_adj (cell a s)]> a) j
                    = if decide (s = j)
                      then lowmem_oom_adj_to_oom_score_adj (cell a s)
                      else cell a j).
    { unfold cell. destruct (decide (s = j)) as [->|Hne].
      - apply list_lookup_total_insert_eq. exact Hj.
      - apply list_lookup_total_insert_ne. exact Hne. }
    rewrite Hcell.
    destruct (decide (s = j)) as [->|Hne];
      destruct (decide (S _ <= j < S _ + n)%nat) as [Hr|Hr];
      destruct (decide (_ <= j < _ + S n)%nat) as [Hr'|Hr'];
      try reflexivity; lia.
Qed.

Lemma autodetect_cases g :
  let n := if lowmem_adj_size g <? ARRAY_SIZE_lowmem_adj
           then lowmem_adj_size g else ARRAY_SIZE_lowmem_adj in
  lowmem_autodetect_oom_adj_values g = g
  \/ (0 < n
      /\ OOM_ADJUST_MAX
         < lowmem_oom_adj_to_oom_score_adj (cell (lowmem_adj g) (Z.to_nat (n - 1)))
      /\ lowmem_autodetect_oom_adj_values g
         = with_lowmem_adj (convert_cells (lowmem_adj g) (Z.to_nat n))
             (lowmem_adj_size g) g).
Proof.
  intros n. unfold lowmem_autodetect_oom_adj_values. fold n. cbn zeta.
  destruct (Z.leb_spec n 0) as [Hz|Hpos]; [left; reflexivity|].
  destruct (Z.ltb_spec OOM_ADJUST_MAX (cell (lowmem_adj g) (Z.to_nat (n - 1))))
    as [Hbig|Hsmall]; [left; reflexivity|].
  destruct (Z.leb_spec
              (lowmem_oom_adj_to_oom_score_adj
                 (cell (lowmem_adj g) (Z.to_nat (n - 1)))) OOM_ADJUST_MAX)
    as [Hlow|Hhigh]; [left; reflexivity|].
  right. auto.
Qed.

Lemma autodetect_twice (g : lmk) :
  length (lowmem_adj g) = 6%nat ->
  lowmem_autodetect_oom_adj_values (lowmem_autodetect_oom_adj_values g)
  = lowmem_autodetect_oom_adj_values g.
Proof.
  intros Hlen.
  destruct (autodetect_cases g) as [Hsame | (Hpos & Hhigh & Hconv)];
    [rewrite Hsame; exact Hsame|].
  rewrite Hconv.
  set (n := if lowmem_adj_size g <? ARRAY_SIZE_lowmem_adj
            then lowmem_adj_size g else ARRAY_SIZE_lowmem_adj) in *.
  assert (Hn : n <= 6).
  { subst n. unfold ARRAY_SIZE_lowmem_adj.
    destruct (Z.ltb_spec (lowmem_adj_size g) 6); lia. }
  unfold lowmem_autodetect_oom_adj_values.
  cbn [lowmem_adj lowmem_adj_size with_lowmem_adj]. fold n. cbn zeta.
  assert (Hz : (n <=? 0) = false) by (apply Z.leb_gt; exact Hpos).
  rewrite Hz.
  unfold convert_cells at 1.
  rewrite convert_fold_lookup by lia.
  destruct (decide _) as [_|Hr]; [|lia].
  assert (Hb : (OOM_ADJUST_MAX
                <? lowmem_oom_adj_to_oom_score_adj
                     (cell (lowmem_adj g) (Z.to_nat (n - 1)))) = true)
    by (apply Z.ltb_lt; exact Hhigh).
  rewrite Hb. reflexivity.
Qed.

(** X17: [lowmem_autodetect_oom_adj_values] converts a table at most
    once: run on its own result it changes nothing. *)
Theorem autodetect_idempotent (g : lmk) :
  length (lowmem_adj g) = 6%nat ->
  lowmem_autodetect_oom_adj_values (lowmem_autodetect_oom_adj_values g)
  = lowmem_autodetect_oom_adj_values g.
Proof. exact (autodetect_twice g). Qed.

(** X18: once a write to the [adj] parameter has gone through
    [lowmem_adj_array_set], a later write that the array setter rejects
    without touching the globals leaves every global as it is: the
    conversion that runs after the failed setter finds nothing to
    convert. *)
Theorem adj_rejected_write_keeps_table
    (set1 set2 : lmk -> Z * lmk) (g : lmk) (e : Z) :
  length (lowmem_adj (set1 g).2) = 6%nat ->
  set2 (lowmem_adj_array_set set1 g).2 = (e, (lowmem_adj_array_set set1 g).2) ->
  lowmem_adj_array_set set2 (lowmem_adj_array_set set1 g).2
  = (e, (lowmem_adj_array_set set1 g).2).
Proof.
  intros Hlen Hrej. unfold lowmem_adj_array_set at 1. rewrite Hrej.
  f_equal. unfold lowmem_adj_array_set.
  destruct (set1 g) as [r1 g1]. cbn in *.
  apply autodetect_twice. exact Hlen.
Qed.

(** ** A write that the array setter rejects *)





(** ** The registration of the rtcc daemon *)

Lemma find_rtccd_In p procs :
  find_rtccd p procs = true -> In (p, true) procs.
Proof.
  induction procs as [|[q named] procs IH]; [discriminate|].
  cbn [find_rtccd]. destruct ((p =? q) && named) eqn:E.
  - intros _. apply andb_true_iff in E as [Hq ->].
    apply Z.eqb_eq in Hq. subst q. left. reflexivity.
  - intros Hf. right. apply IH. exact Hf.
Qed.

(** X19: [rtcc_daemon_store] always answers with the length of the
    write, and it changes the globals only when the pid is not negative,
    the second number is the pid squared less one (in [long]
    arithmetic) and a process with that pid carries the daemon's name;
    it then records that process and sets [idle_report]. *)
Theorem rtcc_daemon_store_checks (g : lmk) (procs : list (Z * bool))
    (val magic_sign count : Z) :
  let r := rtcc_daemon_store g procs val magic_sign count in
  r.1 = count
  /\ (r.2 = g
      \/ (0 <= val
          /\ magic_sign = int32 (int32 (val * val) - 1)
          /\ In (int32 val, true) procs
          /\ r.2 = with_s_reclaim
                     (with_idle_report 1
                        (with_rtcc_daemon (Some (int32 val)) (s_reclaim g))) g)).
Proof.
  intros r. subst r. unfold rtcc_daemon_store.
  destruct (Z.ltb_spec val 0) as [Hneg|Hpos]; cbn [orb]; [auto|].
  destruct (Z.eqb_spec (int32 (int32 (val * val) - 1)) magic_sign) as [Hm|Hm];
    cbn [negb]; [|auto].
  destruct (find_rtccd (int32 val) procs) eqn:Hf; [|auto].
  split; [reflexivity|]. right.
  split; [exact Hpos|]. split; [symmetry; exact Hm|].
  split; [apply find_rtccd_In; exact Hf | reflexivity].
Qed.

(** ** The budget of daemon notifications *)

Lemma notified_app t1 t2 : notified (t1 ++ t2) = notified t1 ++ notified t2.
Proof.
  induction t1 as [|e t1 IH]; [reflexivity|].
  destruct e as [ms|[|] p|p|p|v]; simpl; rewrite IH; reflexivity.
Qed.

Lemma could_cswap_budget g h :
  0 <= hidden_cgroup_counter g <= INT_MAX ->
  Z.of_nat (length (notified (could_cswap g h).2))
  + hidden_cgroup_counter (could_cswap g h).1
  = hidden_cgroup_counter g
  /\ 0 <= hidden_cgroup_counter (could_cswap g h).1.
Proof.
  intros Hrange. unfold INT_MAX in Hrange. unfold could_cswap.
  destruct (_ && _); [cbn; lia|].
  destruct (time_before _ _); [cbn; lia|].
  destruct (_ || _); [cbn; lia|].
  destruct (_ <? _); [cbn; lia|].
  destruct (kcompcached (s_reclaim g)); [|cbn; lia].
  destruct (_ =? 0); [cbn; lia|].
  destruct (_ && _); [|cbn; lia].
  destruct ((idle_report (s_reclaim g) =? 1) && (0 <? hidden_cgroup_counter g))
    eqn:Hgate.
  - destruct (rtcc_daemon (s_reclaim g)) as [daemon|].
    + apply andb_true_iff in Hgate as [_ Hpos]. apply Z.ltb_lt in Hpos.
      cbn. rewrite int32_small by lia. lia.
    + destruct (negb _); [cbn; lia|]. destruct (_ =? 0); cbn; lia.
  - destruct (negb _); [cbn; lia|]. destruct (_ =? 0); cbn; lia.
Qed.

(** X20: every SIGUSR1 that [could_cswap] sends to the daemon takes one
    unit off [hidden_cgroup_counter]: over any sequence of calls the
    notifications sent and the counter left add up to the counter at
    the start. *)
Theorem notifications_spend_the_counter (g : lmk) (hs : list host) :
  0 <= hidden_cgroup_counter g <= INT_MAX ->
  Z.of_nat (length (notified (could_cswap_seq g hs).2))
  + hidden_cgroup_counter (could_cswap_seq g hs).1
  = hidden_cgroup_counter g
  /\ 0 <= hidden_cgroup_counter (could_cswap_seq g hs).1.
Proof.
  unfold could_cswap_seq.
  assert (Hgen : forall hs g tr,
             0 <= hidden_cgroup_counter g <= INT_MAX ->
             let r := foldl (fun acc h =>
                               ((could_cswap acc.1 h).1,
                                acc.2 ++ (could_cswap acc.1 h).2))
                            (g, tr) hs in
             Z.of_nat (length (notified r.2)) + hidden_cgroup_counter r.1
             = Z.of_nat (length (notified tr)) + hidden_cgroup_counter g
             /\ 0 <= hidden_cgroup_counter r.1).
  { clear g hs. induction hs as [|h hs IH]; intros g tr Hrange; cbn [foldl fst snd].
    - cbn. lia.
    - pose proof (could_cswap_budget g h Hrange) as [Hb Hb0].
      specialize (IH (could_cswap g h).1 (tr ++ (could_cswap g h).2)).
      cbn zeta in IH.
      destruct IH as [IH1 IH2]; [unfold INT_MAX in *; lia|].
      rewrite notified_app, length_app in IH1. cbn zeta. lia. }
  intros Hrange. specialize (Hgen hs g [] Hrange). cbn zeta in Hgen.
  cbn in Hgen. exact Hgen.
Qed.

(** ** The loop of the worker *)

Lemma do_compcache_pass_flag g h :
  need_to_reclaim (s_reclaim (do_compcache_pass g h)) = 0
  \/ need_to_reclaim (s_reclaim (do_compcache_pass g h))
     = need_to_reclaim (s_reclaim g).
Proof.
  unfold do_compcache_pass.
  pose proof (soft_reclaim_spec g h) as (_ & _ & Hflag).
  destruct (soft_reclaim g h) as [g1 reclaimed]. cbn in Hflag.
  destruct (_ <? _); cbn; auto.
Qed.

(** X21: the worker only ever clears [need_to_reclaim]: after any run of
    [do_compcache] the flag is 0 or what it was. *)
Theorem do_compcache_never_requests (g : lmk) (wakes : list (bool * host)) :
  need_to_reclaim (s_reclaim (do_compcache g wakes)) = 0
  \/ need_to_reclaim (s_reclaim (do_compcache g wakes))
     = need_to_reclaim (s_reclaim g).
Proof.
  revert g. induction wakes as [|[stop h] wakes IH]; intros g; cbn [do_compcache].
  - right. reflexivity.
  - destruct stop; [right; reflexivity|].
    destruct (IH (do_compcache_pass g h)) as [H0 | Hsame]; [left; exact H0|].
    rewrite Hsame. apply do_compcache_pass_flag.
Qed.

(** ** Requests and wakes *)

Lemma could_cswap_request g h :
  need_to_reclaim (s_reclaim (could_cswap g h).1) = need_to_reclaim (s_reclaim g).
Proof.
  unfold could_cswap.
  destruct (_ && _); [reflexivity|].
  destruct (time_before _ _); [reflexivity|].
  destruct (_ || _); [reflexivity|].
  destruct (_ <? _); [reflexivity|].
  destruct (kcompcached (s_reclaim g)); [|reflexivity].
  destruct (_ =? 0); [reflexivity|].
  destruct (_ && _); [|reflexivity].
  destruct ((idle_report (s_reclaim g) =? 1) && (0 <? hidden_cgroup_counter g)).
  - destruct (rtcc_daemon (s_reclaim g)); [reflexivity|].
    destruct (negb _); [reflexivity|]. destruct (_ =? 0); reflexivity.
  - destruct (negb _); [reflexivity|]. destruct (_ =? 0); reflexivity.
Qed.

(** X22: [could_cswap] never changes [need_to_reclaim], whatever its
    value and whatever the call does; and as long as the flag is not 1,
    that is as long as nobody has called [need_soft_reclaim], no
    sequence of calls wakes the reclaim thread. *)
Theorem no_request_no_wake (g : lmk) (hs : list host) :
  need_to_reclaim (s_reclaim (could_cswap_seq g hs).1)
  = need_to_reclaim (s_reclaim g)
  /\ (need_to_reclaim (s_reclaim g) <> 1 ->
      woken (could_cswap_seq g hs).2 = []).
Proof.
  unfold could_cswap_seq.
  assert (Hgen : forall hs g tr,
             let r := foldl (fun acc h =>
                               ((could_cswap acc.1 h).1,
                                acc.2 ++ (could_cswap acc.1 h).2))
                            (g, tr) hs in
             need_to_reclaim (s_reclaim r.1) = need_to_reclaim (s_reclaim g)
             /\ (need_to_reclaim (s_reclaim g) <> 1 -> woken r.2 = woken tr)).
  { clear g hs. induction hs as [|h hs IH]; intros g tr; cbn [foldl fst snd].
    - cbn. auto.
    - specialize (IH (could_cswap g h).1 (tr ++ (could_cswap g h).2)).
      cbn zeta in IH. rewrite could_cswap_request in IH.
      destruct IH as [IH1 IH2]. cbn zeta. split; [exact IH1|].
      intros Hreq.
      assert (Hstep : woken (could_cswap g h).2 = []).
      { destruct (woken (could_cswap g h).2) as [|w ws] eqn:Hw; [reflexivity|].
        exfalso. apply Hreq.
        apply (could_cswap_wake_state g h w). rewrite Hw. left. reflexivity. }
      rewrite (IH2 Hreq), woken_app, Hstep. apply app_nil_r. }
  exact (Hgen hs g []).
Qed.

(** ** The events of a completed scan *)

(** X1: a scan that takes the lock, finds a tier crossed and is not
    stopped by the hysteresis gate raises [lmk_running], sends each
    victim of the pool a SIGKILL followed at once by its TIF_MEMDIE
    flag, in pool order, lowers [lmk_running] and does nothing else: no
    sleep, no other signal. *)
Theorem completed_scan_trace (g : lmk) (h : host) (nr_to_scan : Z) :
  0 < nr_to_scan ->
  scan_mutex g = false ->
  min_score_adj_of g h <> OOM_SCORE_ADJ_MAX + 1 ->
  (forall t, In t (tasks h) ->
     PF_KTHREAD t = true
     \/ time_before_eq (jiffies h) (lowmem_deathpending_timeout g)
        && test_task_flag t = false) ->
  trace (lowmem_shrink g h nr_to_scan)
  = [atomic_set_lmk_running 1]
    ++ kill_events (victims_of g h)
    ++ [atomic_set_lmk_running 0].
Proof. exact (completed_scan_kills_pool g h nr_to_scan). Qed.

End Kernel.

(** * The properties on the sample readings

    The tick rate is taken as 100 and [OOM_SCORE_ADJ_MAX] as 1000. *)

(** C1: with 100 free pages against a reserve of 200, and 50 file pages,
    both numbers are below the first threshold of the default table, yet
    no entry is crossed: the difference -100 is compared as the unsigned
    4294967196.  [lowmem_shrink] returns the LRU page count and signals
    nobody. *)
Theorem negative_deficit_crosses_no_tier :
  (other_free_of reading_deficit - reserved_free_of (zones reading_deficit)
   < cell (lowmem_minfree (lmk_init 100)) 0
   /\ other_file_of reading_deficit < cell (lowmem_minfree (lmk_init 100)) 0)
  /\ wrap32 (int32 (other_free_of reading_deficit
                    - reserved_free_of (zones reading_deficit))) = 4294967196
  /\ entry_crossed (lmk_init 100) reading_deficit 0 = false
  /\ lowmem_tier (lmk_init 100) reading_deficit = None
  /\ lowmem_shrink 100 1000 (lmk_init 100) reading_deficit 1
     = {| ret := 100; globals := lmk_init 100; trace := [] |}.
Proof. repeat split. Qed.

(** Two arrival orders of the scenario leave the same ranks in the pool. *)
Lemma pool_keeps_highest_ranked_witness :
  arrivals_swapped ≡ₚ arrivals
  /\ pool_keys (pool_run 0 arrivals_swapped) ≡ₚ pool_keys (pool_run 0 arrivals).
Proof.
  assert (Hp : arrivals_swapped ≡ₚ arrivals) by apply perm_swap.
  split; [exact Hp|].
  apply (proj1 pool_keeps_highest_ranked 0 arrivals). exact Hp.
Defined.

(** A scan 50 ticks after a kill at tick 1000, with the victim (pid 7)
    still flagged and listed after another candidate (pid 8): nothing is
    done, and pid 8 is not signalled either. *)
Lemma hysteresis_abort_witness :
  (0 < 1
   /\ scan_mutex (with_lowmem_deathpending_timeout 1100 (lmk_init 100)) = false
   /\ min_score_adj_of 1000 (with_lowmem_deathpending_timeout 1100 (lmk_init 100))
        reading_flagged_last <> 1000 + 1
   /\ 100 < 2 ^ 31
   /\ lowmem_deathpending_timeout
        (with_lowmem_deathpending_timeout 1100 (lmk_init 100))
      = wrap32 (1000 + 100)
   /\ jiffies reading_flagged_last = wrap32 (1000 + 50)
   /\ 0 <= 50 < 100
   /\ In (sample_task 7 900 4000 true) (tasks reading_flagged_last)
   /\ PF_KTHREAD (sample_task 7 900 4000 true) = false
   /\ test_task_flag (sample_task 7 900 4000 true) = true)
  /\ ret (lowmem_shrink 100 1000
            (with_lowmem_deathpending_timeout 1100 (lmk_init 100))
            reading_flagged_last 1) = 0
  /\ existsb is_kill
       (trace (lowmem_shrink 100 1000
                 (with_lowmem_deathpending_timeout 1100 (lmk_init 100))
                 reading_flagged_last 1)) = false.
Proof.
  assert (H1 : 0 < 1) by lia.
  assert (H2 : min_score_adj_of 1000
                 (with_lowmem_deathpending_timeout 1100 (lmk_init 100))
                 reading_flagged_last <> 1000 + 1) by (vm_compute; discriminate).
  assert (H3 : 100 < 2 ^ 31) by reflexivity.
  assert (H4 : 0 <= 50 < 100) by lia.
  assert (H5 : In (sample_task 7 900 4000 true) (tasks reading_flagged_last))
    by (right; left; reflexivity).
  split.
  - repeat split; try reflexivity; try assumption; lia.
  - pose proof (hysteresis_abort 100 1000
                  (with_lowmem_deathpending_timeout 1100 (lmk_init 100))
                  reading_flagged_last 1 1000 50 (sample_task 7 900 4000 true)
                  H1 eq_refl H2 H3 eq_refl eq_refl H4 H5 eq_refl eq_refl)
      as (Hret & Hkill & _).
    split; [exact Hret | exact Hkill].
Defined.

(** The same scan with the flagged process second in the process list:
    the gate stops the scan and 0 is returned, but by then the process
    met first (pid 8) has been selected into the local arrays. *)
Lemma abort_after_selection :
  (0 < 1
   /\ scan_mutex (with_lowmem_deathpending_timeout 1100 (lmk_init 100)) = false
   /\ lowmem_deathpending_timeout
        (with_lowmem_deathpending_timeout 1100 (lmk_init 100))
      = wrap32 (1000 + 100)
   /\ jiffies reading_flagged_last = wrap32 (1000 + 50)
   /\ In (sample_task 7 900 4000 true) (tasks reading_flagged_last)
   /\ PF_KTHREAD (sample_task 7 900 4000 true) = false
   /\ test_task_flag (sample_task 7 900 4000 true) = true)
  /\ (exists pl,
        scan_tasks
          (min_score_adj_of 1000
             (with_lowmem_deathpending_timeout 1100 (lmk_init 100))
             reading_flagged_last)
          (jiffies reading_flagged_last)
          (lowmem_deathpending_timeout
             (with_lowmem_deathpending_timeout 1100 (lmk_init 100)))
          (tasks reading_flagged_last)
          (pool_init
             (min_score_adj_of 1000
                (with_lowmem_deathpending_timeout 1100 (lmk_init 100))
                reading_flagged_last))
        = scan_abort pl
        /\ selected pl = [Some 8; None; None]
        /\ all_selected_oom pl = 1
        /\ pool_entries pl = [(8, 900, 6000)])
  /\ ret (lowmem_shrink 100 1000
            (with_lowmem_deathpending_timeout 1100 (lmk_init 100))
            reading_flagged_last 1) = 0.
Proof.
  split; [repeat split; try reflexivity; try lia; right; left; reflexivity|].
  split; [|reflexivity].
  eexists. split; [reflexivity|]. repeat split.
Qed.

(** For the scenario of 1800 free and 500 file pages the lookup does not
    return the cutoff 0. *)
Lemma lookup_1800_500_is_not_cutoff_0 :
  NR_FREE_PAGES reading_1800_500 = 1800
  /\ NR_FILE_PAGES reading_1800_500 = 500
  /\ reserved_free_of (zones reading_1800_500) = 0
  /\ fork_boosted (lmk_init 100) reading_1800_500 = false
  /\ min_score_adj_of 1000 (lmk_init 100) reading_1800_500 <> 0.
Proof. repeat split. vm_compute. discriminate. Qed.

(** The scenario of 1800 free and 500 file pages on the sample kernel. *)
Lemma lookup_default_table_1800_500_witness :
  (NR_FREE_PAGES reading_1800_500 = 1800
   /\ NR_FILE_PAGES reading_1800_500 = 500
   /\ NR_SHMEM reading_1800_500 = 0
   /\ NR_MLOCK reading_1800_500 = 0
   /\ total_swapcache_pages reading_1800_500 = 0
   /\ reserved_free_of (zones reading_1800_500) = 0)
  /\ min_score_adj_of 1000 (lmk_init 100) reading_1800_500 = 1.
Proof.
  split; [repeat split|].
  apply (lookup_default_table_1800_500 100 1000 reading_1800_500
           eq_refl eq_refl eq_refl eq_refl eq_refl eq_refl).
Defined.

(** With 1536 free and 1536 file pages, exactly the first threshold of
    the default table, the lookup selects the second entry and not the
    first. *)
Lemma boundary_reading_is_not_selected :
  other_free_of reading_boundary - reserved_free_of (zones reading_boundary)
  = cell (min_array_of (lmk_init 100)
            (fork_boosted (lmk_init 100) reading_boundary)) 0
  /\ other_file_of reading_boundary
     = cell (min_array_of (lmk_init 100)
               (fork_boosted (lmk_init 100) reading_boundary)) 0
  /\ lowmem_tier (lmk_init 100) reading_boundary = Some 1%nat
  /\ lowmem_tier (lmk_init 100) reading_boundary <> Some 0%nat.
Proof. repeat split. vm_compute. discriminate. Qed.

(** The first entry of the default table at its boundary value. *)
Lemma boundary_reading_not_crossed_witness :
  (wrap32 (int32 (other_free_of reading_boundary
                  - reserved_free_of (zones reading_boundary)))
   = cell (min_array_of (lmk_init 100)
             (fork_boosted (lmk_init 100) reading_boundary)) 0
   \/ wrap32 (other_file_of reading_boundary)
      = cell (min_array_of (lmk_init 100)
                (fork_boosted (lmk_init 100) reading_boundary)) 0)
  /\ entry_crossed (lmk_init 100) reading_boundary 0 = false
  /\ lowmem_tier (lmk_init 100) reading_boundary <> Some 0%nat.
Proof.
  split; [left; reflexivity|].
  apply (boundary_reading_not_crossed (lmk_init 100) reading_boundary 0).
  left. reflexivity.
Defined.

(** A scan request from kswapd while the lock is held. *)
Lemma trylock_contention_witness :
  (0 < 1 /\ scan_mutex (with_scan_mutex true (lmk_init 100)) = true)
  /\ ret (lowmem_shrink 100 1000 (with_scan_mutex true (lmk_init 100))
            reading_pressure 1) = 0
  /\ globals (lowmem_shrink 100 1000 (with_scan_mutex true (lmk_init 100))
                reading_pressure 1)
     = with_scan_mutex true (lmk_init 100).
Proof.
  assert (H1 : 0 < 1) by lia.
  split; [split; [exact H1 | reflexivity]|].
  pose proof (trylock_contention 100 1000 (with_scan_mutex true (lmk_init 100))
                reading_pressure 1 H1 eq_refl) as (Hret & Hg & _).
  split; [exact Hret | exact Hg].
Defined.

(** A pass that reclaims 300 pages, fewer than the 512 required, with
    the flag set beforehand. *)
Lemma do_compcache_clears_flag_witness :
  0 <= pages_reclaimed (sample_reclaim_host 100 200) < 2 ^ 32
  /\ pages_reclaimed (sample_reclaim_host 100 200)
     < minimun_reclaim_pages (need_soft_reclaim (lmk_init 100))
  /\ need_to_reclaim (s_reclaim (need_soft_reclaim (lmk_init 100))) = 1
  /\ need_to_reclaim
       (s_reclaim (do_compcache_pass (need_soft_reclaim (lmk_init 100))
                     (sample_reclaim_host 100 200))) = 0.
Proof.
  assert (H1 : 0 <= pages_reclaimed (sample_reclaim_host 100 200) < 2 ^ 32)
    by (split; [discriminate | reflexivity]).
  assert (H2 : pages_reclaimed (sample_reclaim_host 100 200)
               < minimun_reclaim_pages (need_soft_reclaim (lmk_init 100)))
    by reflexivity.
  split; [exact H1|]. split; [exact H2|]. split; [reflexivity|].
  apply (proj1 (do_compcache_clears_flag (need_soft_reclaim (lmk_init 100))
                  (sample_reclaim_host 100 200) H1)).
  exact H2.
Defined.



(** With the lock held, a scan request under no memory pressure leaves
    [min_score_adj] at [OOM_SCORE_ADJ_MAX + 1] and returns 0, while the
    LRU lists hold 100 pages. *)
Lemma contended_scan_returns_0_not_lru_pages :
  0 < 1
  /\ lowmem_tier (with_scan_mutex true (lmk_init 100)) reading_no_pressure = None
  /\ min_score_adj_of 1000 (with_scan_mutex true (lmk_init 100)) reading_no_pressure
     = 1000 + 1
  /\ NR_ACTIVE_ANON reading_no_pressure + NR_ACTIVE_FILE reading_no_pressure
     + NR_INACTIVE_ANON reading_no_pressure + NR_INACTIVE_FILE reading_no_pressure
     = 100
  /\ ret (lowmem_shrink 100 1000 (with_scan_mutex true (lmk_init 100))
            reading_no_pressure 1) = 0.
Proof. repeat split. Qed.

(** A scan request under no memory pressure, with the lock free. *)
Lemma no_pressure_returns_lru_pages_witness :
  ((1 <= 0
    \/ (scan_mutex (lmk_init 100) = false
        /\ min_score_adj_of 1000 (lmk_init 100) reading_no_pressure = 1000 + 1))
   /\ 0 <= NR_ACTIVE_ANON reading_no_pressure + NR_ACTIVE_FILE reading_no_pressure
           + NR_INACTIVE_ANON reading_no_pressure
           + NR_INACTIVE_FILE reading_no_pressure <= INT_MAX)
  /\ ret (lowmem_shrink 100 1000 (lmk_init 100) reading_no_pressure 1) = 100
  /\ trace (lowmem_shrink 100 1000 (lmk_init 100) reading_no_pressure 1) = [].
Proof.
  assert (H1 : 1 <= 0
               \/ (scan_mutex (lmk_init 100) = false
                   /\ min_score_adj_of 1000 (lmk_init 100) reading_no_pressure
                      = 1000 + 1))
    by (right; split; reflexivity).
  assert (H2 : 0 <= NR_ACTIVE_ANON reading_no_pressure
                    + NR_ACTIVE_FILE reading_no_pressure
                    + NR_INACTIVE_ANON reading_no_pressure
                    + NR_INACTIVE_FILE reading_no_pressure <= INT_MAX)
    by (split; discriminate).
  split; [split; [exact H1 | exact H2]|].
  pose proof (no_pressure_returns_lru_pages 100 1000 (lmk_init 100)
                reading_no_pressure 1 H1 H2) as (Hret & Htr & _).
  split; [exact Hret | exact Htr].
Defined.

(** A scan that kills, a sequence of two scans, and the trigger while
    the flag is set. *)
Lemma lmk_running_reset_witness :
  (In 1 (flag_writes (trace (lowmem_shrink 100 1000 (lmk_init 100)
                               reading_pressure 1)))
   /\ lmk_running (s_reclaim (lmk_init 100)) = 0
   /\ lmk_running (s_reclaim (set_lmk_running 1 (lmk_init 100))) = 1)
  /\ lmk_running
       (s_reclaim (globals (lowmem_shrink 100 1000 (lmk_init 100)
                              reading_pressure 1))) = 0
  /\ lmk_running
       (s_reclaim (run_scans 100 1000 (lmk_init 100)
                     [(reading_pressure, 1); (reading_no_pressure, 1)])) = 0
  /\ could_cswap (set_lmk_running 1 (lmk_init 100)) reading_pressure
     = (set_lmk_running 1 (lmk_init 100), []).
Proof.
  assert (H1 : In 1 (flag_writes (trace (lowmem_shrink 100 1000 (lmk_init 100)
                                           reading_pressure 1))))
    by (left; reflexivity).
  destruct (lmk_running_reset 100 1000) as (Ha & Hb & Hc).
  split; [split; [exact H1 | split; reflexivity]|].
  split; [apply (Ha _ _ _ H1)|].
  split; [apply Hb; reflexivity | apply Hc; reflexivity].
Defined.

(** * The further properties on the sample readings *)

(** The scan of [reading_pressure] from the initial globals: both
    processes are candidates and no deadline is pending. *)
Lemma completed_scan_trace_witness :
  (0 < 1
   /\ scan_mutex (lmk_init 100) = false
   /\ min_score_adj_of 1000 (lmk_init 100) reading_pressure <> 1000 + 1)
  /\ trace (lowmem_shrink 100 1000 (lmk_init 100) reading_pressure 1)
     = [atomic_set_lmk_running 1]
       ++ kill_events (victims_of 1000 (lmk_init 100) reading_pressure)
       ++ [atomic_set_lmk_running 0].
Proof.
  assert (H1 : 0 < 1) by lia.
  assert (H2 : min_score_adj_of 1000 (lmk_init 100) reading_pressure <> 1000 + 1)
    by (vm_compute; discriminate).
  assert (H3 : forall t, In t (tasks reading_pressure) ->
                 PF_KTHREAD t = true
                 \/ time_before_eq (jiffies reading_pressure)
                      (lowmem_deathpending_timeout (lmk_init 100))
                    && test_task_flag t = false).
  { intros t [<-|[<-|[]]]; right; reflexivity. }
  split; [split; [exact H1 | split; [reflexivity | exact H2]]|].
  apply (completed_scan_trace 100 1000 (lmk_init 100) reading_pressure 1
           H1 eq_refl H2 H3).
Defined.

(** The default table on the reading of 1800 free and 500 file pages. *)
Lemma lookup_is_first_match_witness :
  (length (lowmem_minfree (lmk_init 100)) = 6%nat
   /\ length (minfree_tmp (lmk_init 100)) = 6%nat
   /\ lowmem_minfree_size (lmk_init 100) <= 6
   /\ 0 <= other_free_of reading_1800_500
           - reserved_free_of (zones reading_1800_500) < 2 ^ 31
   /\ 0 <= other_file_of reading_1800_500 < 2 ^ 31)
  /\ (lowmem_tier (lmk_init 100) reading_1800_500 = None
      <-> forall j, Z.of_nat j < array_size_of (lmk_init 100) ->
                    ~ in_deficit (lmk_init 100) reading_1800_500 j).
Proof.
  assert (H1 : lowmem_minfree_size (lmk_init 100) <= 6) by discriminate.
  assert (H2 : 0 <= other_free_of reading_1800_500
                    - reserved_free_of (zones reading_1800_500) < 2 ^ 31)
    by (split; [discriminate | reflexivity]).
  assert (H3 : 0 <= other_file_of reading_1800_500 < 2 ^ 31)
    by (split; [discriminate | reflexivity]).
  assert (H4 : forall i, Z.of_nat i < array_size_of (lmk_init 100) ->
                 0 <= effective_threshold (lmk_init 100) reading_1800_500 i
                 < 2 ^ 32).
  { intros i Hi. change (array_size_of (lmk_init 100)) with 4 in Hi.
    destruct i as [|[|[|[|i]]]]; [| | | |lia];
      (split; [discriminate | reflexivity]). }
  split; [repeat split; assumption || reflexivity || apply H2 || apply H3|].
  apply (lookup_is_first_match (lmk_init 100) reading_1800_500
           eq_refl eq_refl H1 H2 H3 H4).
Defined.

(** Pid 8 is killed by the scan of [reading_pressure]. *)
Lemma only_eligible_killed_witness :
  In 8 (killed (trace (lowmem_shrink 100 1000 (lmk_init 100) reading_pressure 1)))
  /\ exists t,
       In t (tasks reading_pressure)
       /\ PF_KTHREAD t = false
       /\ find_lock_task_mm t = Some 8
       /\ min_score_adj_of 1000 (lmk_init 100) reading_pressure <= oom_score_adj t
       /\ 0 < int32 (get_mm_rss t).
Proof.
  assert (H : In 8 (killed (trace (lowmem_shrink 100 1000 (lmk_init 100)
                                     reading_pressure 1))))
    by (vm_compute; auto).
  split; [exact H|].
  apply (only_eligible_killed 100 1000 (lmk_init 100) reading_pressure 1 8 H).
Defined.

(** The two processes of [reading_pressure] have different pids. *)
Lemma no_double_kill_witness :
  NoDup (omap find_lock_task_mm (tasks reading_pressure))
  /\ NoDup (killed (trace (lowmem_shrink 100 1000 (lmk_init 100)
                             reading_pressure 1))).
Proof.
  assert (H : NoDup (omap find_lock_task_mm (tasks reading_pressure))).
  { change (NoDup [7; 8]). apply NoDup_cons. split.
    - intros Hin. inversion Hin as [|? ? ? Hin']. inversion Hin'.
    - apply NoDup_singleton. }
  split; [exact H|].
  apply (no_double_kill 100 1000 (lmk_init 100) reading_pressure 1 H).
Defined.

(** The accounting of the scan of [reading_pressure]. *)
Lemma completed_scan_accounting_witness :
  (0 < 1
   /\ scan_mutex (lmk_init 100) = false
   /\ min_score_adj_of 1000 (lmk_init 100) reading_pressure <> 1000 + 1)
  /\ killed (trace (lowmem_shrink 100 1000 (lmk_init 100) reading_pressure 1))
     = victim_pid <$> victims_of 1000 (lmk_init 100) reading_pressure
  /\ ret (lowmem_shrink 100 1000 (lmk_init 100) reading_pressure 1)
     = int32 (rem_of reading_pressure
              - tasksize_sum (victims_of 1000 (lmk_init 100) reading_pressure)).
Proof.
  assert (H1 : 0 < 1) by lia.
  assert (H2 : min_score_adj_of 1000 (lmk_init 100) reading_pressure <> 1000 + 1)
    by (vm_compute; discriminate).
  assert (H3 : forall t, In t (tasks reading_pressure) ->
                 PF_KTHREAD t = true
                 \/ time_before_eq (jiffies reading_pressure)
                      (lowmem_deathpending_timeout (lmk_init 100))
                    && test_task_flag t = false).
  { intros t [<-|[<-|[]]]; right; reflexivity. }
  split; [split; [exact H1 | split; [reflexivity | exact H2]]|].
  pose proof (completed_scan_accounting 100 1000 (lmk_init 100)
                reading_pressure 1 H1 eq_refl H2 H3) as (Hk & Hr & _).
  split; [exact Hk | exact Hr].
Defined.

(** The scan of [reading_pressure] at tick 1050 kills; the scan of
    [reading_aftermath] at tick 1100 meets pid 7 still flagged. *)
Lemma second_scan_within_window_witness :
  (killed (trace (lowmem_shrink 100 1000 (lmk_init 100) reading_pressure 1)) <> []
   /\ 0 < 1
   /\ 100 < 2 ^ 31
   /\ jiffies reading_aftermath = wrap32 (jiffies reading_pressure + 50)
   /\ 0 <= 50 <= 100
   /\ min_score_adj_of 1000 (lmk_init 100) reading_aftermath <> 1000 + 1
   /\ In (sample_task 7 900 4000 true) (tasks reading_aftermath)
   /\ PF_KTHREAD (sample_task 7 900 4000 true) = false
   /\ test_task_flag (sample_task 7 900 4000 true) = true)
  /\ ret (lowmem_shrink 100 1000
            (globals (lowmem_shrink 100 1000 (lmk_init 100) reading_pressure 1))
            reading_aftermath 1) = 0.
Proof.
  assert (H1 : killed (trace (lowmem_shrink 100 1000 (lmk_init 100)
                                reading_pressure 1)) <> [])
    by (vm_compute; discriminate).
  assert (H2 : 0 < 1) by lia.
  assert (H3 : 100 < 2 ^ 31) by reflexivity.
  assert (H4 : 0 <= 50 <= 100) by lia.
  assert (H5 : min_score_adj_of 1000 (lmk_init 100) reading_aftermath <> 1000 + 1)
    by (vm_compute; discriminate).
  assert (H6 : In (sample_task 7 900 4000 true) (tasks reading_aftermath))
    by (left; reflexivity).
  split.
  - repeat split; try reflexivity; try assumption; lia.
  - apply (second_scan_within_window 100 1000 (lmk_init 100) reading_pressure
             reading_aftermath 1 1 50 (sample_task 7 900 4000 true)
             H1 H2 H3 eq_refl H4 H5 H6 eq_refl eq_refl).
Defined.

(** An idle cpu at tick 2000 with a reclaim requested: the worker is
    woken. *)
Lemma could_cswap_wakes_only_when_witness :
  In 55 (woken (could_cswap (state_requested 100) (reading_idle 2000 10000)).2)
  /\ (could_cswap (state_requested 100) (reading_idle 2000 10000)).2
     = [wake_up_process 55]
  /\ prev_jiffy (could_cswap (state_requested 100) (reading_idle 2000 10000)).1
     = 2000.
Proof.
  assert (H : In 55 (woken (could_cswap (state_requested 100)
                              (reading_idle 2000 10000)).2))
    by (left; reflexivity).
  split; [exact H|].
  pose proof (could_cswap_wakes_only_when (state_requested 100)
                (reading_idle 2000 10000) 55 H) as (_ & Htr & _ & Hprev).
  split; [exact Htr | exact Hprev].
Defined.

(** A second call 500 ticks after the wake, the interval being 1000. *)
Lemma could_cswap_rests_after_acting_witness :
  ((could_cswap (state_requested 100) (reading_idle 2000 10000)).2 <> []
   /\ jiffies (reading_idle 2500 10000)
      = wrap32 (jiffies (reading_idle 2000 10000) + 500)
   /\ 0 <= 500 < minimum_interval_time (state_requested 100)
   /\ minimum_interval_time (state_requested 100) < 2 ^ 31)
  /\ could_cswap (could_cswap (state_requested 100) (reading_idle 2000 10000)).1
       (reading_idle 2500 10000)
     = ((could_cswap (state_requested 100) (reading_idle 2000 10000)).1, []).
Proof.
  assert (H1 : (could_cswap (state_requested 100) (reading_idle 2000 10000)).2
               <> []) by (vm_compute; discriminate).
  assert (H2 : 0 <= 500 < minimum_interval_time (state_requested 100))
    by (split; [discriminate | reflexivity]).
  assert (H3 : minimum_interval_time (state_requested 100) < 2 ^ 31)
    by reflexivity.
  split; [split; [exact H1 | split; [reflexivity | split; [exact H2 | exact H3]]]|].
  apply (could_cswap_rests_after_acting (state_requested 100)
           (reading_idle 2000 10000) (reading_idle 2500 10000) 500
           H1 eq_refl H2 H3).
Defined.

(** The wake at tick 2000, two more calls of the trigger, then a pass of
    the worker. *)
Lemma one_wake_per_pass_witness :
  In 55 (woken (could_cswap (state_requested 100) (reading_idle 2000 10000)).2)
  /\ woken (could_cswap_seq
              (could_cswap (state_requested 100) (reading_idle 2000 10000)).1
              [reading_idle 3000 10000; reading_idle 4000 10000]).2 = []
  /\ get_soft_reclaim_status
       (do_compcache_pass
          (could_cswap_seq
             (could_cswap (state_requested 100) (reading_idle 2000 10000)).1
             [reading_idle 3000 10000; reading_idle 4000 10000]).1
          (sample_reclaim_host 100 200)) = 0.
Proof.
  assert (H : In 55 (woken (could_cswap (state_requested 100)
                              (reading_idle 2000 10000)).2))
    by (left; reflexivity).
  split; [exact H|].
  pose proof (one_wake_per_pass (state_requested 100) (reading_idle 2000 10000)
                (sample_reclaim_host 100 200)
                [reading_idle 3000 10000; reading_idle 4000 10000] 55 H)
    as (Hw & _ & Hs).
  split; [exact Hw | exact Hs].
Defined.

(** A fork at tick 1000 with the boost switched on, looked at 50 ticks
    later. *)
Lemma fork_boost_window_witness :
  (lowmem_fork_boost (with_lowmem_fork_boost 1 (lmk_init 100)) <> 0
   /\ 0 <= 100
   /\ 2 * 100 < 2 ^ 31
   /\ jiffies reading_pressure = wrap32 (jiffies reading_1800_500 + 50)
   /\ 0 <= 50 <= 2 ^ 31)
  /\ fork_boosted
       (task_fork_notify_func 100 (with_lowmem_fork_boost 1 (lmk_init 100))
          reading_1800_500)
       reading_pressure = true.
Proof.
  assert (H1 : lowmem_fork_boost (with_lowmem_fork_boost 1 (lmk_init 100)) <> 0)
    by discriminate.
  assert (H2 : 0 <= 100) by lia.
  assert (H3 : 2 * 100 < 2 ^ 31) by reflexivity.
  assert (H4 : 0 <= 50 <= 2 ^ 31) by (split; discriminate).
  split; [split; [exact H1 | split; [exact H2 | split;
            [exact H3 | split; [reflexivity | exact H4]]]]|].
  apply (fork_boost_window 100 (with_lowmem_fork_boost 1 (lmk_init 100))
           reading_1800_500 reading_pressure 50 H1 H2 H3 eq_refl H4).
Defined.

(** A boosted lookup: with 1800 free and 500 file pages the second
    entry is crossed without the boost (1800 is not below 1536), and the
    first with it (1800 is below 1536 + 1000). *)
Lemma boost_crosses_no_later_witness :
  (length (lowmem_minfree (state_boosted 100)) = 6%nat
   /\ length (minfree_tmp (state_boosted 100)) = 6%nat
   /\ lowmem_minfree_size (state_boosted 100) <= 6
   /\ lowmem_tier (with_lowmem_fork_boost 0 (state_boosted 100)) reading_1800_500
      = Some 1%nat)
  /\ fork_boosted (state_boosted 100) reading_1800_500 = true
  /\ lowmem_tier (state_boosted 100) reading_1800_500 = Some 0%nat
  /\ exists j, (j <= 1)%nat
               /\ lowmem_tier (state_boosted 100) reading_1800_500 = Some j.
Proof.
  assert (H1 : lowmem_minfree_size (state_boosted 100) <= 6) by discriminate.
  assert (H2 : forall k, Z.of_nat k < array_size_of (state_boosted 100) ->
                 0 <= cell (lowmem_minfree (state_boosted 100)) k
                 /\ 0 <= cell (lowmem_fork_boost_minfree (state_boosted 100)) k
                 /\ cell (lowmem_minfree (state_boosted 100)) k
                    + cell (lowmem_fork_boost_minfree (state_boosted 100)) k
                    < 2 ^ 32).
  { intros k Hk. change (array_size_of (state_boosted 100)) with 4 in Hk.
    destruct k as [|[|[|[|k]]]]; [| | | |lia];
      (split; [discriminate | split; [discriminate | reflexivity]]). }
  split; [repeat split; assumption || reflexivity|].
  split; [reflexivity|]. split; [reflexivity|].
  apply (boost_crosses_no_later (state_boosted 100) reading_1800_500 1
           eq_refl eq_refl H1 H2 eq_refl).
Defined.

(** The default adj table, with [OOM_ADJUST_MAX] 15 and [OOM_DISABLE]
    -17 as in linux/oom.h. *)
Lemma autodetect_idempotent_witness :
  length (lowmem_adj (lmk_init 100)) = 6%nat
  /\ lowmem_adj (lowmem_autodetect_oom_adj_values 1000 15 (-17) (lmk_init 100))
     = [0; 58; 352; 705; 0; 0]
  /\ lowmem_autodetect_oom_adj_values 1000 15 (-17)
       (lowmem_autodetect_oom_adj_values 1000 15 (-17) (lmk_init 100))
     = lowmem_autodetect_oom_adj_values 1000 15 (-17) (lmk_init 100).
Proof.
  split; [reflexivity|]. split; [reflexivity|].
  apply (autodetect_idempotent 1000 15 (-17) (lmk_init 100) eq_refl).
Defined.

(** A write that is accepted, then one that is rejected with -22. *)
Lemma adj_rejected_write_keeps_table_witness :
  length (lowmem_adj ((fun g => (0, g)) (lmk_init 100)).2) = 6%nat
  /\ lowmem_adj_array_set 1000 15 (-17) (fun g => (-22, g))
       (lowmem_adj_array_set 1000 15 (-17) (fun g => (0, g)) (lmk_init 100)).2
     = (-22,
        (lowmem_adj_array_set 1000 15 (-17) (fun g => (0, g)) (lmk_init 100)).2).
Proof.
  split; [reflexivity|].
  apply (adj_rejected_write_keeps_table 1000 15 (-17)
           (fun g => (0, g)) (fun g => (-22, g)) (lmk_init 100) (-22)
           eq_refl eq_refl).
Defined.

(** Two hidden cgroups and a registered daemon: the first idle call
    notifies the daemon and leaves one unit. *)
Lemma notifications_spend_the_counter_witness :
  0 <= hidden_cgroup_counter (state_daemon 100) <= INT_MAX
  /\ notified (could_cswap_seq (state_daemon 100) [reading_idle 2000 10000]).2
     = [77]
  /\ Z.of_nat (length (notified (could_cswap_seq (state_daemon 100)
                                   [reading_idle 2000 10000]).2))
     + hidden_cgroup_counter
         (could_cswap_seq (state_daemon 100) [reading_idle 2000 10000]).1
     = hidden_cgroup_counter (state_daemon 100).
Proof.
  assert (H : 0 <= hidden_cgroup_counter (state_daemon 100) <= INT_MAX)
    by (split; discriminate).
  split; [exact H|]. split; [reflexivity|].
  apply (proj1 (notifications_spend_the_counter (state_daemon 100)
                  [reading_idle 2000 10000] H)).
Defined.

(** The worker exists and is enabled.  With the request withdrawn, two
    idle readings wake nobody; with the request standing, the first
    wakes the worker and the request is still standing afterwards. *)
Lemma no_request_no_wake_witness :
  (kcompcached (s_reclaim (cancel_soft_reclaim (state_requested 100))) = Some 55
   /\ kcompcached_enable (s_reclaim (cancel_soft_reclaim (state_requested 100))) = 1
   /\ need_to_reclaim (s_reclaim (cancel_soft_reclaim (state_requested 100))) <> 1)
  /\ woken (could_cswap_seq (cancel_soft_reclaim (state_requested 100))
              [reading_idle 2000 10000; reading_idle 4000 10000]).2 = []
  /\ woken (could_cswap_seq (state_requested 100)
              [reading_idle 2000 10000; reading_idle 4000 10000]).2 = [55]
  /\ need_to_reclaim
       (s_reclaim (could_cswap_seq (state_requested 100)
                     [reading_idle 2000 10000; reading_idle 4000 10000]).1)
     = need_to_reclaim (s_reclaim (state_requested 100)).
Proof.
  assert (H : need_to_reclaim
                (s_reclaim (cancel_soft_reclaim (state_requested 100))) <> 1)
    by discriminate.
  split; [split; [reflexivity | split; [reflexivity | exact H]]|].
  split.
  - apply (proj2 (no_request_no_wake (cancel_soft_reclaim (state_requested 100))
                    [reading_idle 2000 10000; reading_idle 4000 10000]) H).
  - split; [reflexivity|].
    apply (proj1 (no_request_no_wake (state_requested 100)
                    [reading_idle 2000 10000; reading_idle 4000 10000])).
Defined.
